(** * Onramp / offramp demo application: gateway, normalizer, cache, selection

    A shallow embedding of the parts of the application that carry
    behaviour worth stating:

    - [OfframpFeature]  the cross-field selection state of
      [src/app/components/OfframpFeature.tsx] (asset, network, country,
      subdivision) and the handlers that repair it;
    - [OnrampApi]       [src/app/utils/onrampApi.ts]: the buy-side
      transforms and the cached fetchers;
    - [OfframpApi]      the sell-side transforms and fetchers
      ([utils/offrampApi]);
    - [Routes]          the server routes that sign and dispatch the
      upstream calls (buy-config, sell-config, sell-options, sell-quote).

    Conventions.  A JavaScript object used as a dictionary is a [gmap]
    keyed by strings, which holds its own properties.  A lookup [o[k]]
    also finds the members that [o] inherits from [Object.prototype]
    ([Js.inherited]): the options cache ([OnrampApi.cachedOptions]), the
    payment-method tables ([methodName]) and the asset table (the
    [..Throws] predicates of [OfframpFeature], and
    [OfframpForm.applySellCurrencies]) are read that way.  The country
    and currency name tables are read by their own keys: for an identifier
    that names such a member the display name of the code is the member
    itself, which is no string, and what is proved of these names is
    proved for the other identifiers.  A value that may be [undefined] or
    [null] is an [option].  A string is the UTF-8 byte sequence of the
    JavaScript string.
    A [try { .. } catch { .. }] block is a computation in the exception
    monad [Exc] followed by a total handler.  Module-level mutable
    variables are fields of an explicit state record that the function
    takes and returns. *)

From Stdlib Require Import ZArith Ascii String List.
From stdpp Require Import base option strings list gmap.

Local Open Scope string_scope.
Local Open Scope Z_scope.

(** ** JavaScript idioms shared by all modules *)

Module Js.

(** Truthiness of a string: only the empty string is falsy. *)
Definition truthy (s : string) : bool :=
  match s with
  | EmptyString => false
  | String _ _ => true
  end.

(** [!v] for a value that is a string, [undefined] or [null]. *)
Definition falsy (v : option string) : bool :=
  match v with
  | Some s => negb (truthy s)
  | None => true
  end.

(** [a || b] where [a] may be undefined and [b] is a string. *)
Definition or_else (a : option string) (b : string) : string :=
  match a with
  | Some s => if truthy s then s else b
  | None => b
  end.

(** [a || b] where both sides may be undefined. *)
Definition or_opt (a b : option string) : option string :=
  match a with
  | Some s => if truthy s then Some s else b
  | None => b
  end.

(** [arr.includes(v)] on an array of strings; [undefined] is never found. *)
Definition includes (arr : list string) (v : option string) : bool :=
  match v with
  | Some s => bool_decide (s ∈ arr)
  | None => false
  end.

(** The members that every object literal inherits from
    [Object.prototype]: functions, except [__proto__], which reads as the
    prototype object itself. *)
Definition objectPrototypeMembers : list string :=
  [ "constructor"; "__defineGetter__"; "__defineSetter__"; "hasOwnProperty";
    "__lookupGetter__"; "__lookupSetter__"; "isPrototypeOf";
    "propertyIsEnumerable"; "toString"; "valueOf"; "__proto__";
    "toLocaleString" ].

(** [k] is found on [Object.prototype] by a lookup [o[k]] on an object
    literal [o] that has no own property [k]. *)
Definition inherited (k : string) : bool :=
  bool_decide (k ∈ objectPrototypeMembers).

(** [o[k]?.name] when [k] is no own property of the object literal [o]:
    an inherited function has its key as its name, except the constructor
    [Object]; the prototype object has no name; anything else is
    [undefined]. *)
Definition inheritedName (k : string) : option string :=
  if String.eqb k "constructor" then Some "Object"
  else if String.eqb k "__proto__" then None
  else if inherited k then Some k
  else None.

(** [s.startsWith(p)]. *)
Definition startsWith (p s : string) : bool := String.prefix p s.

(** [response.ok]: a status in the range 200-299. *)
Definition status_ok (status : Z) : bool :=
  (200 <=? status) && (status <=? 299).

(** What the browser's [fetch(url)] followed by [response.json()] can
    give a caller that expects a body of type [A]: the promise rejects,
    or a response arrives with a status and a body that either reads as
    an [A] ([Some]) or does not ([None]: the body is not JSON, or lacks
    the fields the transform dereferences). *)
Inductive FetchResult (A : Type) :=
| Rejected
| Responded (status : Z) (body : option A).
Arguments Rejected {A}.
Arguments Responded {A} status body.

(** [new URLSearchParams(..).toString()]: the
    application/x-www-form-urlencoded serializer.  A byte is kept when it
    is an ASCII letter or digit or one of [* - . _], a space becomes [+],
    every other byte becomes [%XX]. *)
Definition hex_digit (n : N) : ascii :=
  ascii_of_N (if (n <? 10)%N then 48 + n else 55 + n)%N.

Definition form_safe (n : N) : bool :=
  ((48 <=? n) && (n <=? 57) || (65 <=? n) && (n <=? 90)
   || (97 <=? n) && (n <=? 122)
   || (n =? 42) || (n =? 45) || (n =? 46) || (n =? 95))%N.

Fixpoint form_encode (s : string) : string :=
  match s with
  | EmptyString => EmptyString
  | String c s' =>
      let n := N_of_ascii c in
      if form_safe n then String c (form_encode s')
      else if (n =? 32)%N then String "+" (form_encode s')
      else String "%" (String (hex_digit (n / 16))
                         (String (hex_digit (n mod 16)) (form_encode s')))
  end.

Fixpoint URLSearchParams_toString (params : list (string * string)) : string :=
  match params with
  | [] => ""
  | [(k, v)] => form_encode k +:+ "=" +:+ form_encode v
  | (k, v) :: rest =>
      form_encode k +:+ "=" +:+ form_encode v +:+ "&"
        +:+ URLSearchParams_toString rest
  end.

End Js.

(** ** The exception monad used for [try] blocks *)

Module Exc.

(** What a [try] body can raise. *)
Inductive error :=
| ApiCallFailed (status : Z) (* [throw new Error('API call failed ..')] *)
| TransportError             (* [fetch] rejected *)
| BodyError.                 (* [response.json()] rejected, or the
                                transform dereferenced a missing field *)

Definition t (A : Type) : Type := error + A.

Definition ret {A} (a : A) : t A := inr a.
Definition throw {A} (e : error) : t A := inl e.
Definition bind {A B} (m : t A) (k : A → t B) : t B :=
  match m with
  | inl e => inl e
  | inr a => k a
  end.

(** [try m catch handler]. *)
Definition try_catch {A} (m : t A) (handler : error → A) : A :=
  match m with
  | inl e => handler e
  | inr a => a
  end.

End Exc.

Declare Scope exc_scope.
Delimit Scope exc_scope with exc.
Notation "'let!' x ':=' m 'in' k" := (Exc.bind m (λ x, k))
  (at level 10, x name, m at level 100, k at level 200) : exc_scope.

(** ** The browser-side HTTP client as the fetchers use it *)

Module Client.

(** [await fetch(url)]: rejects, or yields the response. *)
Definition fetch {A} (network : string → Js.FetchResult A) (url : string)
  : Exc.t (Z * option A) :=
  match network url with
  | Js.Rejected => Exc.throw Exc.TransportError
  | Js.Responded status body => Exc.ret (status, body)
  end.

(** [if (!response.ok) throw new Error(..)]. *)
Definition ensure_ok {A} (response : Z * option A) : Exc.t unit :=
  if Js.status_ok response.1 then Exc.ret tt
  else Exc.throw (Exc.ApiCallFailed response.1).

(** [await response.json()] followed by the transform's field accesses. *)
Definition json {A} (response : Z * option A) : Exc.t A :=
  match response.2 with
  | Some data => Exc.ret data
  | None => Exc.throw Exc.BodyError
  end.

(** The 51 region codes of the fallback datasets. *)
Definition US_STATE_CODES : list string :=
  [ "AL"; "AK"; "AZ"; "AR"; "CA"; "CO"; "CT"; "DE"; "FL"; "GA";
    "HI"; "ID"; "IL"; "IN"; "IA"; "KS"; "KY"; "LA"; "ME"; "MD";
    "MA"; "MI"; "MN"; "MS"; "MO"; "MT"; "NE"; "NV"; "NH"; "NJ";
    "NM"; "NY"; "NC"; "ND"; "OH"; "OK"; "OR"; "PA"; "RI"; "SC";
    "SD"; "TN"; "TX"; "UT"; "VT"; "VA"; "WA"; "WV"; "WI"; "WY";
    "DC" ]%string.

End Client.

(** ** OfframpFeature.tsx: the selection state *)

Module OfframpFeature.

Record Network := { network_id : string; network_name : string }.

#[global] Instance Network_eq_dec : EqDecision Network.
Proof. solve_decision. Defined.

(** [assetNetworkMap], in source order. *)
Definition assetNetworkEntries : list (string * list string) :=
  [ ("ETH", ["ethereum"; "base"; "optimism"; "arbitrum"; "polygon"]);
    ("USDC", ["ethereum"; "base"; "optimism"; "arbitrum"; "polygon";
              "solana"; "avalanche-c-chain"; "unichain"; "aptos";
              "bnb-chain"]);
    ("BTC", ["bitcoin"]);
    ("SOL", ["solana"]);
    ("MATIC", ["polygon"; "ethereum"]);
    ("AVAX", ["avalanche-c-chain"; "ethereum"]);
    ("LINK", ["ethereum"; "base"; "arbitrum"]);
    ("UNI", ["ethereum"; "polygon"]);
    ("DOGE", ["dogecoin"]);
    ("SHIB", ["ethereum"]);
    ("XRP", ["ripple"]);
    ("LTC", ["litecoin"]);
    ("BCH", ["bitcoin-cash"]) ]%string.

Definition assetNetworkMap : gmap string (list string) :=
  list_to_map assetNetworkEntries.

(** The [networks] literal before [.sort(..)]. *)
Definition networksLiteral : list Network :=
  map (λ p, {| network_id := p.1; network_name := p.2 |})
    [ ("ethereum", "Ethereum"); ("base", "Base"); ("optimism", "Optimism");
      ("polygon", "Polygon"); ("arbitrum", "Arbitrum");
      ("avalanche-c-chain", "Avalanche"); ("solana", "Solana");
      ("bitcoin", "Bitcoin"); ("bitcoin-lightning", "Bitcoin Lightning");
      ("cardano", "Cardano"); ("polkadot", "Polkadot"); ("cosmos", "Cosmos");
      ("near", "NEAR Protocol"); ("flow", "Flow"); ("hedera", "Hedera");
      ("algorand", "Algorand"); ("tezos", "Tezos"); ("stellar", "Stellar");
      ("tron", "TRON"); ("filecoin", "Filecoin");
      ("binance-smart-chain", "BNB Chain"); ("bnb-chain", "BNB Chain");
      ("binance-chain", "Binance Chain"); ("fantom", "Fantom");
      ("cronos", "Cronos"); ("gnosis", "Gnosis"); ("celo", "Celo");
      ("moonbeam", "Moonbeam"); ("harmony", "Harmony");
      ("unichain", "Unichain"); ("aptos", "Aptos");
      ("ripple", "XRP Ledger"); ("dogecoin", "Dogecoin");
      ("litecoin", "Litecoin"); ("bitcoin-cash", "Bitcoin Cash") ]%string.

(** [a.name.localeCompare(b.name) <= 0].  On these names (ASCII letters
    and spaces) the collation order is the lexicographic order of the
    lower-cased names, a space sorting before every letter. *)
Definition lower (c : ascii) : N :=
  let n := N_of_ascii c in
  if ((65 <=? n) && (n <=? 90))%N then (n + 32)%N else n.

Fixpoint name_le (a b : string) : bool :=
  match a, b with
  | EmptyString, _ => true
  | String _ _, EmptyString => false
  | String x a', String y b' =>
      if (lower x <? lower y)%N then true
      else if (lower y <? lower x)%N then false
      else name_le a' b'
  end.

(** Stable insertion: [x] goes after every element that does not sort
    strictly after it. *)
Fixpoint insert_sorted (x : Network) (l : list Network) : list Network :=
  match l with
  | [] => [x]
  | y :: l' =>
      if name_le (network_name y) (network_name x)
      then y :: insert_sorted x l'
      else x :: l
  end.

Definition sort_by_name (l : list Network) : list Network :=
  fold_left (λ acc x, insert_sorted x acc) l [].

Definition networks : list Network :=
  Eval vm_compute in sort_by_name networksLiteral.

(** The [useState] cells that the selection handlers read and write. *)
Record Selection := {
  selectedAsset : string;
  selectedNetwork : option string;  (* [None]: set to [undefined] *)
  selectedCountry : string;
  selectedSubdivision : string;
  availableNetworks : list Network;
}.

Definition setSelectedAsset (v : string) (s : Selection) : Selection :=
  {| selectedAsset := v;
     selectedNetwork := selectedNetwork s;
     selectedCountry := selectedCountry s;
     selectedSubdivision := selectedSubdivision s;
     availableNetworks := availableNetworks s |}.

Definition setSelectedNetwork (v : option string) (s : Selection) : Selection :=
  {| selectedAsset := selectedAsset s;
     selectedNetwork := v;
     selectedCountry := selectedCountry s;
     selectedSubdivision := selectedSubdivision s;
     availableNetworks := availableNetworks s |}.

Definition setSelectedCountry (v : string) (s : Selection) : Selection :=
  {| selectedAsset := selectedAsset s;
     selectedNetwork := selectedNetwork s;
     selectedCountry := v;
     selectedSubdivision := selectedSubdivision s;
     availableNetworks := availableNetworks s |}.

Definition setSelectedSubdivision (v : string) (s : Selection) : Selection :=
  {| selectedAsset := selectedAsset s;
     selectedNetwork := selectedNetwork s;
     selectedCountry := selectedCountry s;
     selectedSubdivision := v;
     availableNetworks := availableNetworks s |}.

Definition setAvailableNetworks (v : list Network) (s : Selection) : Selection :=
  {| selectedAsset := selectedAsset s;
     selectedNetwork := selectedNetwork s;
     selectedCountry := selectedCountry s;
     selectedSubdivision := selectedSubdivision s;
     availableNetworks := v |}.

(** The initial values passed to [useState]. *)
Definition initialSelection : Selection :=
  {| selectedAsset := "USDC";
     selectedNetwork := Some "base";
     selectedCountry := "US";
     selectedSubdivision := "CA";
     availableNetworks := [] |}.

(** The effect "Initialize network based on selected asset"
    (dependencies [selectedAsset], [selectedNetwork]): the selection as
    the effect leaves it, whether it returns or throws (see
    [networkRepairThrows]). *)
Definition networkRepairEffect (s : Selection) : Selection :=
  match assetNetworkMap !! selectedAsset s with
  | Some compatibleNetworks =>
      if Js.includes compatibleNetworks (selectedNetwork s)
      then s
      else setSelectedNetwork (head compatibleNetworks) s
  | None => s
  end.

(** The effect throws a [TypeError] ([includes] is not a function) when
    the selected asset is no key of the table and names a member of
    [Object.prototype]: the lookup finds that member, which is truthy and
    is no array.  [networkRepairEffect] is then the selection as the
    effect leaves it, with nothing set. *)
Definition networkRepairThrows (s : Selection) : bool :=
  match assetNetworkMap !! selectedAsset s with
  | Some _ => false
  | None => Js.inherited (selectedAsset s)
  end.

(** [handleAssetChange(assetCode)]: the setters take effect together at
    the next render; [selectedNetwork] is read from the current one.  The
    result is the selection as the handler leaves it, whether it returns
    or throws (see [handleAssetChangeThrows]). *)
Definition handleAssetChange (assetCode : string) (s : Selection) : Selection :=
  let s1 := setSelectedAsset assetCode s in
  match assetNetworkMap !! assetCode with
  | Some compatibleNetworks =>
      let filteredNetworks :=
        filter (λ network, network_id network ∈ compatibleNetworks) networks in
      let s2 := setAvailableNetworks filteredNetworks s1 in
      if Js.includes compatibleNetworks (selectedNetwork s)
      then s2
      else setSelectedNetwork (head compatibleNetworks) s2
  | None => s1
  end.

(** The handler throws the same [TypeError] for such an asset code, after
    [setSelectedAsset]: [handleAssetChange] is then the selection with
    the new asset and nothing else set. *)
Definition handleAssetChangeThrows (assetCode : string) : bool :=
  match assetNetworkMap !! assetCode with
  | Some _ => false
  | None => Js.inherited assetCode
  end.

(** The [onChange] handler of the network [<select>]. *)
Definition onNetworkChange (v : string) (s : Selection) : Selection :=
  setSelectedNetwork (Some v) s.

(** The [onChange] handler of the country [<select>]. *)
Definition onCountryChange (v : string) (s : Selection) : Selection :=
  setSelectedSubdivision "" (setSelectedCountry v s).

(** The [onChange] handler of the state [<select>]. *)
Definition onSubdivisionChange (v : string) (s : Selection) : Selection :=
  setSelectedSubdivision v s.

End OfframpFeature.

(** ** utils/onrampApi.ts: buy-side normalizer and cached fetchers *)

Module OnrampApi.

(** *** Wire types (raw upstream shapes) *)

Record ApiPaymentMethodType := { api_pm_id : string }.

Record ApiSupportedCountry := {
  api_country_id : string;
  api_payment_methods : list ApiPaymentMethodType;
  api_subdivisions : option (list string);
}.

Record ApiBuyConfigResponse := { api_countries : list ApiSupportedCountry }.

Record ApiPaymentMethodLimit := {
  api_limit_id : string;
  api_limit_min : string;
  api_limit_max : string;
}.

Record ApiPaymentCurrency := {
  api_currency_id : string;
  api_limits : list ApiPaymentMethodLimit;
}.

Record ApiPublicNetwork := {
  api_network_name : string;
  api_display_name : string;
  api_chain_id : option Z;
  api_contract_address : option string;
}.

Record ApiPurchaseCurrency := {
  api_asset_id : string;
  api_symbol : string;
  api_asset_name : string;
  api_networks : list ApiPublicNetwork;
  api_icon_url : option string;
}.

Record ApiBuyOptionsResponse := {
  payment_currencies : list ApiPaymentCurrency;
  purchase_currencies : list ApiPurchaseCurrency;
}.

(** *** UI types *)

Record PaymentMethod := {
  pm_id : string;
  pm_name : string;
  pm_description : option string;
}.

Record Country := {
  country_id : string;
  country_name : string;
  paymentMethods : list PaymentMethod;
  subdivisions : option (list string);
}.

Record BuyConfigResponse := { countries : list Country }.

Record CurrencyLimit := {
  limit_id : string;
  limit_min : string;
  limit_max : string;
}.

Record PaymentCurrency := {
  currency_id : string;
  currency_name : string;
  limits : list CurrencyLimit;
}.

Record Network := {
  network_id : string;
  network_name : string;
  chainId : option Z;
  contractAddress : option string;
}.

Record PurchaseCurrency := {
  asset_id : string;
  symbol : string;
  asset_name : string;
  networks : list Network;
  iconUrl : option string;
}.

Record BuyOptionsResponse := {
  paymentCurrencies : list PaymentCurrency;
  purchaseCurrencies : list PurchaseCurrency;
}.

(** *** Display-name tables *)

Definition countryNames : gmap string string :=
  list_to_map
    [ ("US", "United States"); ("CA", "Canada"); ("MX", "Mexico");
      ("GB", "United Kingdom"); ("DE", "Germany"); ("FR", "France");
      ("ES", "Spain"); ("IT", "Italy"); ("NL", "Netherlands");
      ("CH", "Switzerland"); ("SE", "Sweden"); ("NO", "Norway");
      ("DK", "Denmark"); ("FI", "Finland"); ("IE", "Ireland");
      ("AT", "Austria"); ("BE", "Belgium"); ("PT", "Portugal");
      ("GR", "Greece"); ("PL", "Poland"); ("CZ", "Czech Republic");
      ("SK", "Slovakia"); ("HU", "Hungary"); ("RO", "Romania");
      ("BG", "Bulgaria"); ("HR", "Croatia"); ("SI", "Slovenia");
      ("LT", "Lithuania"); ("LV", "Latvia"); ("EE", "Estonia");
      ("CY", "Cyprus"); ("MT", "Malta"); ("LU", "Luxembourg");
      ("IS", "Iceland"); ("LI", "Liechtenstein"); ("MC", "Monaco");
      ("AU", "Australia"); ("NZ", "New Zealand"); ("JP", "Japan");
      ("SG", "Singapore"); ("HK", "Hong Kong"); ("KR", "South Korea");
      ("TW", "Taiwan"); ("TH", "Thailand"); ("MY", "Malaysia");
      ("PH", "Philippines"); ("ID", "Indonesia"); ("VN", "Vietnam");
      ("IN", "India"); ("CN", "China"); ("AE", "United Arab Emirates");
      ("SA", "Saudi Arabia"); ("QA", "Qatar"); ("BH", "Bahrain");
      ("KW", "Kuwait"); ("OM", "Oman"); ("IL", "Israel");
      ("ZA", "South Africa"); ("EG", "Egypt"); ("NG", "Nigeria");
      ("KE", "Kenya"); ("BR", "Brazil"); ("AR", "Argentina");
      ("CL", "Chile"); ("CO", "Colombia"); ("PE", "Peru");
      ("UY", "Uruguay"); ("CR", "Costa Rica"); ("PA", "Panama");
      ("TR", "Turkey"); ("RU", "Russia"); ("UA", "Ukraine");
      ("BY", "Belarus"); ("KZ", "Kazakhstan") ]%string.

Record NameEntry := { name : string; description : string }.

Definition paymentMethodNames : gmap string NameEntry :=
  list_to_map
    [ ("CARD", {| name := "Debit/Credit Card";
                  description := "Available in 90+ countries" |});
      ("ACH_BANK_ACCOUNT", {| name := "Bank Transfer (ACH)";
                              description := "US only, 1-3 business days" |});
      ("APPLE_PAY", {| name := "Apple Pay";
                       description := "Available on iOS devices" |});
      ("PAYPAL", {| name := "PayPal";
                    description := "Available in select countries" |});
      ("RTP", {| name := "Real-Time Payments (RTP)";
                 description := "US only, instant" |});
      ("FIAT_WALLET", {| name := "Coinbase Fiat Wallet";
                         description := "Instant transfer to your Coinbase account" |});
      ("CRYPTO_ACCOUNT", {| name := "Crypto Account";
                            description := "Coinbase crypto account" |});
      ("GUEST_CHECKOUT_CARD", {| name := "Guest Checkout Card";
                                 description := "Card payment without account" |});
      ("GUEST_CHECKOUT_APPLE_PAY", {| name := "Guest Checkout Apple Pay";
                                      description := "Apple Pay without account" |});
      ("UNSPECIFIED", {| name := "Unspecified";
                         description := "Payment method not specified" |}) ]%string.

Definition currencyNames : gmap string string :=
  list_to_map
    [ ("USD", "US Dollar"); ("EUR", "Euro"); ("GBP", "British Pound");
      ("CAD", "Canadian Dollar"); ("AUD", "Australian Dollar");
      ("JPY", "Japanese Yen"); ("CHF", "Swiss Franc");
      ("NZD", "New Zealand Dollar"); ("SGD", "Singapore Dollar");
      ("HKD", "Hong Kong Dollar"); ("MXN", "Mexican Peso");
      ("BRL", "Brazilian Real") ]%string.

(** *** Transforms *)

(** [paymentMethodNames[id]?.name]: the name of the table's entry, or of
    the member the lookup inherits. *)
Definition methodName (id : string) : option string :=
  match paymentMethodNames !! id with
  | Some entry => Some (name entry)
  | None => Js.inheritedName id
  end.

Definition transformPaymentMethod (pm : ApiPaymentMethodType) : PaymentMethod :=
  {| pm_id := api_pm_id pm;
     pm_name := Js.or_else (methodName (api_pm_id pm)) (api_pm_id pm);
     pm_description := description <$> paymentMethodNames !! api_pm_id pm |}.

(** [countryNames[country.id] || country.id] is read from the table's own
    entries: for an identifier that names a member of [Object.prototype]
    the code's name is that member, which is no string. *)
Definition transformCountry (country : ApiSupportedCountry) : Country :=
  {| country_id := api_country_id country;
     country_name := Js.or_else (countryNames !! api_country_id country)
                       (api_country_id country);
     paymentMethods := map transformPaymentMethod (api_payment_methods country);
     subdivisions := api_subdivisions country |}.

Definition transformBuyConfigResponse (apiResponse : ApiBuyConfigResponse)
  : BuyConfigResponse :=
  {| countries := map transformCountry (api_countries apiResponse) |}.

Definition transformLimit (limit : ApiPaymentMethodLimit) : CurrencyLimit :=
  {| limit_id := api_limit_id limit;
     limit_min := api_limit_min limit;
     limit_max := api_limit_max limit |}.

(** [currencyNames[currency.id] || currency.id], read like the country
    names. *)
Definition transformPaymentCurrency (currency : ApiPaymentCurrency)
  : PaymentCurrency :=
  {| currency_id := api_currency_id currency;
     currency_name := Js.or_else (currencyNames !! api_currency_id currency)
                        (api_currency_id currency);
     limits := map transformLimit (api_limits currency) |}.

Definition transformNetwork (network : ApiPublicNetwork) : Network :=
  {| network_id := api_network_name network;
     network_name := api_display_name network;
     chainId := api_chain_id network;
     contractAddress := api_contract_address network |}.

Definition transformPurchaseCurrency (asset : ApiPurchaseCurrency)
  : PurchaseCurrency :=
  {| asset_id := api_asset_id asset;
     symbol := api_symbol asset;
     asset_name := api_asset_name asset;
     networks := map transformNetwork (api_networks asset);
     iconUrl := api_icon_url asset |}.

Definition transformBuyOptionsResponse (apiResponse : ApiBuyOptionsResponse)
  : BuyOptionsResponse :=
  {| paymentCurrencies :=
       map transformPaymentCurrency (payment_currencies apiResponse);
     purchaseCurrencies :=
       map transformPurchaseCurrency (purchase_currencies apiResponse) |}.

(** *** Static fallback datasets *)

Definition CARD : PaymentMethod :=
  {| pm_id := "CARD"; pm_name := "Debit/Credit Card";
     pm_description := Some "Available in 90+ countries" |}.
Definition ACH_BANK_ACCOUNT : PaymentMethod :=
  {| pm_id := "ACH_BANK_ACCOUNT"; pm_name := "Bank Transfer (ACH)";
     pm_description := Some "US only, 1-3 business days" |}.
Definition APPLE_PAY : PaymentMethod :=
  {| pm_id := "APPLE_PAY"; pm_name := "Apple Pay";
     pm_description := Some "Available on iOS devices" |}.
Definition PAYPAL : PaymentMethod :=
  {| pm_id := "PAYPAL"; pm_name := "PayPal";
     pm_description := Some "Available in select countries" |}.

(** The literal returned at the end of [fetchBuyConfig]'s [catch]. *)
Definition buyConfigFallback : BuyConfigResponse :=
  {| countries :=
       [ {| country_id := "US"; country_name := "United States";
            paymentMethods := [CARD; ACH_BANK_ACCOUNT; APPLE_PAY; PAYPAL];
            subdivisions := Some Client.US_STATE_CODES |};
         {| country_id := "GB"; country_name := "United Kingdom";
            paymentMethods := [CARD; PAYPAL]; subdivisions := None |};
         {| country_id := "CA"; country_name := "Canada";
            paymentMethods := [CARD]; subdivisions := None |};
         {| country_id := "DE"; country_name := "Germany";
            paymentMethods := [CARD]; subdivisions := None |};
         {| country_id := "FR"; country_name := "France";
            paymentMethods := [CARD]; subdivisions := None |};
         {| country_id := "AU"; country_name := "Australia";
            paymentMethods := [CARD]; subdivisions := None |} ] |}.

Definition lim (id min max : string) : CurrencyLimit :=
  {| limit_id := id; limit_min := min; limit_max := max |}.

Definition net (id name : string) (chain : Z) (contract : string) : Network :=
  {| network_id := id; network_name := name;
     chainId := Some chain; contractAddress := Some contract |}.

Definition coin (id name : string) (nets : list Network) : PurchaseCurrency :=
  {| asset_id := id; symbol := id; asset_name := name;
     networks := nets; iconUrl := Some "" |}.

(** The literal returned at the end of [fetchBuyOptions]'s [catch]. *)
Definition buyOptionsFallback : BuyOptionsResponse :=
  {| paymentCurrencies :=
       [ {| currency_id := "USD"; currency_name := "US Dollar";
            limits := [ lim "CARD" "10.00" "1000.00";
                        lim "ACH_BANK_ACCOUNT" "10.00" "25000.00";
                        lim "APPLE_PAY" "10.00" "1000.00";
                        lim "PAYPAL" "10.00" "1000.00" ] |};
         {| currency_id := "EUR"; currency_name := "Euro";
            limits := [ lim "CARD" "10.00" "1000.00";
                        lim "SEPA" "10.00" "25000.00" ] |};
         {| currency_id := "GBP"; currency_name := "British Pound";
            limits := [ lim "CARD" "10.00" "1000.00";
                        lim "PAYPAL" "10.00" "1000.00" ] |} ];
     purchaseCurrencies :=
       [ coin "ETH" "Ethereum"
           [ net "ethereum" "Ethereum" 1 "";
             net "optimism" "Optimism" 10 "";
             net "arbitrum" "Arbitrum" 42161 "";
             net "base" "Base" 8453 "" ];
         coin "USDC" "USD Coin"
           [ net "ethereum" "Ethereum" 1
               "0xa0b86991c6218b36c1d19d4a2e9eb0ce3606eb48";
             net "optimism" "Optimism" 10
               "0x7f5c764cbc14f9669b88837ca1490cca17c31607";
             net "arbitrum" "Arbitrum" 42161
               "0xff970a61a04b1ca14834a43f5de4533ebddb5cc8";
             net "base" "Base" 8453
               "0x833589fcd6edb6e08f4c7c32d4f71b54bda02913";
             net "polygon" "Polygon" 137
               "0x2791bca1f2de4661ed88a30c99a7a9449aa84174";
             net "solana" "Solana" 0
               "EPjFWdd5AufqSSqeM2qN1xzybapC8G4wEGGkZwyTDt1v" ];
         coin "BTC" "Bitcoin" [ net "bitcoin" "Bitcoin" 0 "" ];
         coin "SOL" "Solana" [ net "solana" "Solana" 0 "" ];
         coin "MATIC" "Polygon"
           [ net "ethereum" "Ethereum" 1
               "0x7d1afa7b718fb893db30a3abc0cfc608aacfebb0";
             net "polygon" "Polygon" 137 "" ] ] |}.

(** *** The module-level cache *)

(** [buyOptionsCache] and [lastOptionsFetch] start as [{}] and are used as
    dictionaries: the two maps hold their own properties.  A read under a
    key the object does not own goes on along its prototype chain, and an
    assignment under the key [__proto__] runs the setter of
    [Object.prototype] instead of adding a property: it makes an object
    the prototype and does nothing for a number.  [buyOptionsPrototype] is
    the response such an assignment has made the prototype of
    [buyOptionsCache]; [None] while it is still [Object.prototype]. *)
Record Cache := {
  buyConfigCache : option BuyConfigResponse;
  buyOptionsCache : gmap string BuyOptionsResponse;
  lastConfigFetch : Z;
  lastOptionsFetch : gmap string Z;
  buyOptionsPrototype : option BuyOptionsResponse;
}.

Definition CACHE_EXPIRY : Z := 1000 * 60 * 15.

(** The values the cache variables are initialised with. *)
Definition initialCache : Cache :=
  {| buyConfigCache := None; buyOptionsCache := ∅;
     lastConfigFetch := 0; lastOptionsFetch := ∅;
     buyOptionsPrototype := None |}.

(** What [fetchBuyOptions] resolves to: a response, or the value a read
    of [buyOptionsCache] found under [key] on the prototype chain (a
    member of [Object.prototype], or a property of the response that was
    made the prototype), which is no response. *)
Inductive Returned :=
| Options (data : BuyOptionsResponse)
| Inherited (key : string).

(** The own properties of a response. *)
Definition responseProperties : list string :=
  [ "paymentCurrencies"; "purchaseCurrencies" ].

(** [buyOptionsCache[key]]: the own property; for [__proto__] the
    prototype; otherwise what the prototype chain holds under that name;
    [None] for [undefined].  Every value found is truthy. *)
Definition cachedOptions (c : Cache) (key : string) : option Returned :=
  match buyOptionsCache c !! key with
  | Some data => Some (Options data)
  | None =>
      if String.eqb key "__proto__"
      then Some (match buyOptionsPrototype c with
                 | Some data => Options data
                 | None => Inherited key
                 end)
      else if Js.inherited key then Some (Inherited key)
      else match buyOptionsPrototype c with
           | Some _ =>
               if bool_decide (key ∈ responseProperties)
               then Some (Inherited key) else None
           | None => None
           end
  end.

(** [now - (lastOptionsFetch[key] || 0) < CACHE_EXPIRY]: an inherited
    member in place of the time stamp makes the difference [NaN], and the
    comparison false. *)
Definition withinExpiry (c : Cache) (key : string) (now : Z) : bool :=
  match lastOptionsFetch c !! key with
  | Some stamp => now - stamp <? CACHE_EXPIRY
  | None => if Js.inherited key then false else now - 0 <? CACHE_EXPIRY
  end.

(** [buyOptionsCache[key] = data; lastOptionsFetch[key] = now]. *)
Definition storeOptions (key : string) (data : BuyOptionsResponse) (now : Z)
    (c : Cache) : Cache :=
  if String.eqb key "__proto__"
  then {| buyConfigCache := buyConfigCache c;
          buyOptionsCache := buyOptionsCache c;
          lastConfigFetch := lastConfigFetch c;
          lastOptionsFetch := lastOptionsFetch c;
          buyOptionsPrototype := Some data |}
  else {| buyConfigCache := buyConfigCache c;
          buyOptionsCache := <[key := data]> (buyOptionsCache c);
          lastConfigFetch := lastConfigFetch c;
          lastOptionsFetch := <[key := now]> (lastOptionsFetch c);
          buyOptionsPrototype := buyOptionsPrototype c |}.

(** [fetchBuyConfig()] at time [now = Date.now()], with [network]
    answering the request it may issue.  Returns the resolved value and
    the cache variables as the call leaves them. *)
Definition fetchBuyConfig (now : Z)
    (network : string → Js.FetchResult ApiBuyConfigResponse) (c : Cache)
  : BuyConfigResponse * Cache :=
  let call : Exc.t (BuyConfigResponse * Cache) :=
    (let! response := Client.fetch network "/api/buy-config" in
     let! _ := Client.ensure_ok response in
     let! apiData := Client.json response in
     let transformedData := transformBuyConfigResponse apiData in
     Exc.ret (transformedData,
              {| buyConfigCache := Some transformedData;
                 buyOptionsCache := buyOptionsCache c;
                 lastConfigFetch := now;
                 lastOptionsFetch := lastOptionsFetch c;
                 buyOptionsPrototype := buyOptionsPrototype c |}))%exc in
  Exc.try_catch
    (match buyConfigCache c with
     | Some cached =>
         if now - lastConfigFetch c <? CACHE_EXPIRY
         then Exc.ret (cached, c)
         else call
     | None => call
     end)
    (λ _, match buyConfigCache c with
          | Some cached => (cached, c)
          | None => (buyConfigFallback, c)
          end).

(** The template [`${country}${subdivision ? `-${subdivision}` : ''}`]. *)
Definition cacheKey (country : string) (subdivision : option string) : string :=
  country +:+ (match subdivision with
               | Some sub => if Js.truthy sub then "-" +:+ sub else ""
               | None => ""
               end).

(** The query of the options request. *)
Definition optionsParams (country : string) (subdivision : option string)
  : list (string * string) :=
  ("country", country) ::
  match subdivision with
  | Some sub => if Js.truthy sub then [("subdivision", sub)] else []
  | None => []
  end.

(** [fetchBuyOptions(country, subdivision)] at time [now], with [network]
    answering the request it may issue.  Returns the resolved value and
    the cache variables as the call leaves them. *)
Definition fetchBuyOptions (country : string) (subdivision : option string)
    (now : Z) (network : string → Js.FetchResult ApiBuyOptionsResponse)
    (c : Cache)
  : Returned * Cache :=
  let key := cacheKey country subdivision in
  let call : Exc.t (Returned * Cache) :=
    (let params := optionsParams country subdivision in
     let! response :=
       Client.fetch network
         ("/api/buy-options?" +:+ Js.URLSearchParams_toString params) in
     let! _ := Client.ensure_ok response in
     let! apiData := Client.json response in
     let transformedData := transformBuyOptionsResponse apiData in
     Exc.ret (Options transformedData,
              storeOptions key transformedData now c))%exc in
  Exc.try_catch
    (match cachedOptions c key with
     | Some cached =>
         if withinExpiry c key now
         then Exc.ret (cached, c)
         else call
     | None => call
     end)
    (λ _, match cachedOptions c key with
          | Some cached => (cached, c)
          | None => (Options buyOptionsFallback, c)
          end).

End OnrampApi.

(** ** utils/offrampApi: sell-side normalizer and fetchers *)

Module OfframpApi.

(** *** Wire types *)

Record PaymentMethodType := { api_pm_id : string }.

Record SupportedCountry := {
  api_country_id : string;
  payment_methods : list PaymentMethodType;
  subdivisions : option (list string);
}.

Record SellConfigResponse := { api_countries : list SupportedCountry }.

Record ApiPaymentMethodLimit := {
  api_limit_id : string;
  api_limit_min : string;
  api_limit_max : string;
}.

Record ApiFiatCurrency := {
  api_currency_id : string;
  api_limits : list ApiPaymentMethodLimit;
}.

Record ApiNetwork := {
  api_network_name : string;
  api_display_name : string;
  api_chain_id : option Z;
  api_contract_address : option string;
}.

Record ApiCryptoAsset := {
  api_asset_id : string;
  api_symbol : string;
  api_asset_name : string;
  api_networks : list ApiNetwork;
  api_icon_url : option string;
}.

Record ApiSellOptionsResponse := {
  api_cashout_currencies : list ApiFiatCurrency;
  api_sell_currencies : list ApiCryptoAsset;
}.

(** *** UI types *)

Record CashoutMethod := {
  cm_id : string;
  cm_name : string;
  cm_description : option string;
}.

Record Country := {
  code : string;
  country_name : string;
  cashout_methods : list CashoutMethod;
  supported_states : option (list string);
}.

Record SellConfig := { countries : list Country }.

Record CurrencyLimit := { min : string; max : string }.

Record CashoutMethodOption := {
  option_id : string;
  option_name : string;
  limits : gmap string CurrencyLimit;
}.

Record FiatCurrency := {
  currency_code : string;
  currency_name : string;
  currency_cashout_methods : list CashoutMethodOption;
}.

Record AssetNetwork := { network_id : string; network_name : string }.

Record CryptoAsset := {
  asset_code : string;
  asset_name : string;
  networks : list AssetNetwork;
}.

Record SellOptionsResponse := {
  cashout_currencies : list FiatCurrency;
  sell_currencies : list CryptoAsset;
}.

(** *** Display-name tables *)

Record NameEntry := { name : string; description : string }.

Definition paymentMethodNames : gmap string NameEntry :=
  list_to_map
    [ ("ACH_BANK_ACCOUNT", {| name := "Bank Transfer (ACH)";
                              description := "US only, 1-3 business days" |});
      ("PAYPAL", {| name := "PayPal";
                    description := "Available in select countries" |});
      ("FIAT_WALLET", {| name := "Coinbase Fiat Wallet";
                         description := "Instant transfer to your Coinbase account" |});
      ("RTP", {| name := "Real-Time Payments (RTP)";
                 description := "US only, instant" |});
      ("APPLE_PAY", {| name := "Apple Pay";
                       description := "Available in select countries" |});
      ("CARD", {| name := "Debit/Credit Card";
                  description := "Available in select countries" |});
      ("CRYPTO_ACCOUNT", {| name := "Crypto Account";
                            description := "Coinbase crypto account" |});
      ("GUEST_CHECKOUT_CARD", {| name := "Guest Checkout Card";
                                 description := "Card payment without account" |});
      ("GUEST_CHECKOUT_APPLE_PAY", {| name := "Guest Checkout Apple Pay";
                                      description := "Apple Pay without account" |});
      ("UNSPECIFIED", {| name := "Unspecified";
                         description := "Payment method not specified" |}) ]%string.

Definition currencyNames : gmap string string :=
  list_to_map
    [ ("USD", "US Dollar"); ("EUR", "Euro"); ("GBP", "British Pound");
      ("CAD", "Canadian Dollar"); ("AUD", "Australian Dollar");
      ("JPY", "Japanese Yen"); ("CHF", "Swiss Franc");
      ("NZD", "New Zealand Dollar"); ("SGD", "Singapore Dollar");
      ("HKD", "Hong Kong Dollar"); ("MXN", "Mexican Peso");
      ("BRL", "Brazilian Real") ]%string.

Definition countryNames : gmap string string :=
  list_to_map
    [ ("US", "United States"); ("GB", "United Kingdom"); ("CA", "Canada");
      ("DE", "Germany"); ("FR", "France"); ("ES", "Spain"); ("IT", "Italy");
      ("AU", "Australia"); ("JP", "Japan"); ("NL", "Netherlands");
      ("CH", "Switzerland"); ("SE", "Sweden"); ("NO", "Norway");
      ("DK", "Denmark"); ("FI", "Finland"); ("IE", "Ireland");
      ("AT", "Austria"); ("BE", "Belgium"); ("PT", "Portugal");
      ("GR", "Greece"); ("NZ", "New Zealand"); ("SG", "Singapore");
      ("HK", "Hong Kong"); ("AE", "United Arab Emirates");
      ("BR", "Brazil"); ("MX", "Mexico") ]%string.

(** *** Transforms *)

(** [paymentMethodNames[id]?.name]: the name of the table's entry, or of
    the member the lookup inherits. *)
Definition methodName (id : string) : option string :=
  match paymentMethodNames !! id with
  | Some entry => Some (name entry)
  | None => Js.inheritedName id
  end.

Definition transformCashoutMethod (pm : PaymentMethodType) : CashoutMethod :=
  {| cm_id := api_pm_id pm;
     cm_name := Js.or_else (methodName (api_pm_id pm)) (api_pm_id pm);
     cm_description := description <$> paymentMethodNames !! api_pm_id pm |}.

(** [countryNames[country.id] || country.id] is read from the table's own
    entries: for an identifier that names a member of [Object.prototype]
    the code's name is that member, which is no string. *)
Definition transformCountry (country : SupportedCountry) : Country :=
  {| code := api_country_id country;
     country_name := Js.or_else (countryNames !! api_country_id country)
                       (api_country_id country);
     cashout_methods := map transformCashoutMethod (payment_methods country);
     supported_states := subdivisions country |}.

Definition transformSellConfigResponse (apiResponse : SellConfigResponse)
  : SellConfig :=
  {| countries := map transformCountry (api_countries apiResponse) |}.

(** One row of [currency.limits], re-keyed by the currency it came from:
    [limits: { [currency.id]: { min, max } }]. *)
Definition transformLimit (currency : ApiFiatCurrency)
    (limit : ApiPaymentMethodLimit) : CashoutMethodOption :=
  {| option_id := api_limit_id limit;
     option_name := Js.or_else (methodName (api_limit_id limit))
                      (api_limit_id limit);
     limits := {[ api_currency_id currency :=
                    {| min := api_limit_min limit;
                       max := api_limit_max limit |} ]} |}.

(** [currencyNames[currency.id] || currency.id], read like the country
    names. *)
Definition transformFiatCurrency (currency : ApiFiatCurrency) : FiatCurrency :=
  {| currency_code := api_currency_id currency;
     currency_name := Js.or_else (currencyNames !! api_currency_id currency)
                        (api_currency_id currency);
     currency_cashout_methods := map (transformLimit currency) (api_limits currency) |}.

Definition transformNetwork (network : ApiNetwork) : AssetNetwork :=
  {| network_id := api_network_name network;
     network_name := api_display_name network |}.

Definition transformCryptoAsset (asset : ApiCryptoAsset) : CryptoAsset :=
  {| asset_code := api_symbol asset;
     asset_name := api_asset_name asset;
     networks := map transformNetwork (api_networks asset) |}.

Definition transformSellOptionsResponse (apiResponse : ApiSellOptionsResponse)
  : SellOptionsResponse :=
  {| cashout_currencies :=
       map transformFiatCurrency (api_cashout_currencies apiResponse);
     sell_currencies :=
       map transformCryptoAsset (api_sell_currencies apiResponse) |}.

(** *** Static fallback datasets *)

Definition method (id name desc : string) : CashoutMethod :=
  {| cm_id := id; cm_name := name; cm_description := Some desc |}.

Definition ACH_BANK_ACCOUNT : CashoutMethod :=
  method "ACH_BANK_ACCOUNT" "Bank Transfer (ACH)" "US only, 1-3 business days".
Definition PAYPAL : CashoutMethod :=
  method "PAYPAL" "PayPal" "Available in select countries".
Definition FIAT_WALLET : CashoutMethod :=
  method "FIAT_WALLET" "Coinbase Fiat Wallet"
    "Instant transfer to your Coinbase account".
Definition RTP : CashoutMethod :=
  method "RTP" "Real-Time Payments (RTP)" "US only, instant".
Definition SEPA_BANK_ACCOUNT : CashoutMethod :=
  method "SEPA_BANK_ACCOUNT" "SEPA Bank Transfer" "1-3 business days".
Definition EFT_BANK_ACCOUNT : CashoutMethod :=
  method "EFT_BANK_ACCOUNT" "EFT Bank Transfer" "1-3 business days".

Definition sepaCountry (c n : string) : Country :=
  {| code := c; country_name := n;
     cashout_methods := [SEPA_BANK_ACCOUNT; PAYPAL; FIAT_WALLET];
     supported_states := None |}.

(** The literal returned by [fetchSellConfig]'s [catch]. *)
Definition sellConfigFallback : SellConfig :=
  {| countries :=
       [ {| code := "US"; country_name := "United States";
            cashout_methods := [ACH_BANK_ACCOUNT; PAYPAL; FIAT_WALLET; RTP];
            supported_states := Some Client.US_STATE_CODES |};
         sepaCountry "GB" "United Kingdom";
         {| code := "CA"; country_name := "Canada";
            cashout_methods := [EFT_BANK_ACCOUNT; PAYPAL; FIAT_WALLET];
            supported_states :=
              Some [ "AB"; "BC"; "MB"; "NB"; "NL"; "NS"; "NT"; "NU"; "ON";
                     "PE"; "QC"; "SK"; "YT" ] |};
         sepaCountry "DE" "Germany";
         sepaCountry "FR" "France";
         sepaCountry "ES" "Spain";
         sepaCountry "IT" "Italy";
         {| code := "AU"; country_name := "Australia";
            cashout_methods := [PAYPAL; FIAT_WALLET];
            supported_states := None |} ] |}.

Definition opt (cur id name min max : string) : CashoutMethodOption :=
  {| option_id := id; option_name := name;
     limits := {[ cur := {| min := min; max := max |} ]} |}.

Definition fiat (cur name bankId bankName : string) : FiatCurrency :=
  {| currency_code := cur; currency_name := name;
     currency_cashout_methods :=
       [ opt cur bankId bankName "10" "25000";
         opt cur "PAYPAL" "PayPal" "10" "5000";
         opt cur "FIAT_WALLET" "Coinbase Fiat Wallet" "1" "50000" ] |}.

Definition nw (id name : string) : AssetNetwork :=
  {| network_id := id; network_name := name |}.

Definition asset (c n : string) (nets : list AssetNetwork) : CryptoAsset :=
  {| asset_code := c; asset_name := n; networks := nets |}.

(** The literal returned by [fetchSellOptions]'s [catch]. *)
Definition sellOptionsFallback : SellOptionsResponse :=
  {| cashout_currencies :=
       [ {| currency_code := "USD"; currency_name := "US Dollar";
            currency_cashout_methods :=
              [ opt "USD" "ACH_BANK_ACCOUNT" "Bank Transfer (ACH)" "10" "25000";
                opt "USD" "PAYPAL" "PayPal" "10" "5000";
                opt "USD" "FIAT_WALLET" "Coinbase Fiat Wallet" "1" "50000";
                opt "USD" "RTP" "Real-Time Payments (RTP)" "10" "5000" ] |};
         fiat "EUR" "Euro" "SEPA_BANK_ACCOUNT" "SEPA Bank Transfer";
         fiat "GBP" "British Pound" "SEPA_BANK_ACCOUNT" "SEPA Bank Transfer";
         fiat "CAD" "Canadian Dollar" "EFT_BANK_ACCOUNT" "EFT Bank Transfer";
         fiat "AUD" "Australian Dollar" "PAYID" "PayID" ];
     sell_currencies :=
       [ asset "BTC" "Bitcoin" [nw "bitcoin" "Bitcoin"];
         asset "ETH" "Ethereum"
           [ nw "ethereum" "Ethereum"; nw "base" "Base";
             nw "optimism" "Optimism"; nw "arbitrum" "Arbitrum" ];
         asset "USDC" "USD Coin"
           [ nw "ethereum" "Ethereum"; nw "base" "Base";
             nw "optimism" "Optimism"; nw "polygon" "Polygon";
             nw "arbitrum" "Arbitrum"; nw "solana" "Solana";
             nw "avalanche-c-chain" "Avalanche"; nw "unichain" "Unichain";
             nw "aptos" "Aptos"; nw "bnb-chain" "BNB Chain" ];
         asset "SOL" "Solana" [nw "solana" "Solana"];
         asset "MATIC" "Polygon"
           [nw "ethereum" "Ethereum"; nw "polygon" "Polygon"];
         asset "AVAX" "Avalanche"
           [nw "ethereum" "Ethereum"; nw "avalanche-c-chain" "Avalanche"];
         asset "LINK" "Chainlink"
           [ nw "ethereum" "Ethereum"; nw "base" "Base";
             nw "arbitrum" "Arbitrum" ];
         asset "UNI" "Uniswap"
           [nw "ethereum" "Ethereum"; nw "polygon" "Polygon"];
         asset "DOGE" "Dogecoin" [nw "dogecoin" "Dogecoin"];
         asset "SHIB" "Shiba Inu" [nw "ethereum" "Ethereum"];
         asset "XRP" "XRP" [nw "ripple" "XRP Ledger"];
         asset "LTC" "Litecoin" [nw "litecoin" "Litecoin"];
         asset "BCH" "Bitcoin Cash" [nw "bitcoin-cash" "Bitcoin Cash"] ] |}.

(** *** Fetchers (this module keeps no cache) *)

(** [fetchSellConfig()]. *)
Definition fetchSellConfig
    (network : string → Js.FetchResult SellConfigResponse) : SellConfig :=
  Exc.try_catch
    (let! response := Client.fetch network "/api/sell-config" in
     let! _ := Client.ensure_ok response in
     let! apiData := Client.json response in
     let transformedData := transformSellConfigResponse apiData in
     Exc.ret transformedData)%exc
    (λ _, sellConfigFallback).

Definition optionsParams (country : string) (subdivision : option string)
  : list (string * string) :=
  ("country", country) ::
  match subdivision with
  | Some sub => if Js.truthy sub then [("subdivision", sub)] else []
  | None => []
  end.

(** [fetchSellOptions(country, subdivision)]. *)
Definition fetchSellOptions (country : string) (subdivision : option string)
    (network : string → Js.FetchResult ApiSellOptionsResponse)
  : SellOptionsResponse :=
  Exc.try_catch
    (let params := optionsParams country subdivision in
     let! response :=
       Client.fetch network
         ("/api/sell-options?" +:+ Js.URLSearchParams_toString params) in
     let! _ := Client.ensure_ok response in
     let! apiData := Client.json response in
     let transformedData := transformSellOptionsResponse apiData in
     Exc.ret transformedData)%exc
    (λ _, sellOptionsFallback).

End OfframpApi.

(** ** URLs as the routes build them *)

Module Url.

(** The prefix of [s] before the first character satisfying [stop]. *)
Fixpoint take_until (stop : ascii → bool) (s : string) : string :=
  match s with
  | EmptyString => EmptyString
  | String c s' => if stop c then EmptyString else String c (take_until stop s')
  end.

(** The suffix of [s] from the first character satisfying [stop] on. *)
Fixpoint drop_until (stop : ascii → bool) (s : string) : string :=
  match s with
  | EmptyString => EmptyString
  | String c s' => if stop c then s else drop_until stop s'
  end.

(** [strip_prefix p s = Some r] when [s = p ++ r]. *)
Fixpoint strip_prefix (p s : string) : option string :=
  match p, s with
  | EmptyString, _ => Some s
  | String a p', String b s' =>
      if Ascii.eqb a b then strip_prefix p' s' else None
  | String _ _, EmptyString => None
  end.

Definition is_slash (c : ascii) : bool := Ascii.eqb c "/".
Definition ends_path (c : ascii) : bool := Ascii.eqb c "?" || Ascii.eqb c "#".

(** The path component of an [https] URL: what follows the authority, up
    to the first [?] or [#]. *)
Definition path (url : string) : option string :=
  rest ← strip_prefix "https://" url;
  Some (take_until ends_path (drop_until is_slash rest)).

(** The query component: what follows the first [?], if any. *)
Definition query (url : string) : option string :=
  match drop_until (λ c, Ascii.eqb c "?") url with
  | EmptyString => None
  | String _ q => Some q
  end.

(** Whether a string contains a [?]. *)
Definition has_query_mark (s : string) : bool :=
  match drop_until (λ c, Ascii.eqb c "?") s with
  | EmptyString => false
  | String _ _ => true
  end.

End Url.

(** ** app/api/*/route.ts: the signing gateway *)

Module Routes.

(** JSON values, for the bodies the routes send and receive. *)
#[warnings="-register-all"] Inductive json :=
| JNull
| JBool (b : bool)
| JNum (n : Z)
| JStr (s : string)
| JArr (items : list json)
| JObj (fields : list (string * json)).

(** An object literal handed to the JSON serializer: a property whose
    value is [undefined] is left out. *)
Definition object (fields : list (string * option json)) : json :=
  JObj (omap (λ kv, pair kv.1 <$> kv.2) fields).

(** [o.k] read from a parsed value: [undefined] when [o] is not an object
    or has no such property. *)
Definition field (k : string) (o : json) : option json :=
  match o with
  | JObj fields => snd <$> find (λ kv, String.eqb kv.1 k) fields
  | _ => None
  end.

(** Truthiness of a JSON value. *)
Definition truthy (v : json) : bool :=
  match v with
  | JNull => false
  | JBool b => b
  | JNum n => negb (n =? 0)
  | JStr s => Js.truthy s
  | JArr _ | JObj _ => true
  end.

Record Env := {
  CDP_API_KEY : option string;
  CDP_API_KEY_NAME : option string;
  CDP_API_SECRET : option string;
  CDP_API_KEY_PRIVATE_KEY : option string;
  NODE_ENV : option string;
}.

(** An outbound request as passed to [fetch]. *)
Record Request := {
  url : string;
  method : string;
  headers : list (string * string);
  body : option json;
}.

(** What the upstream answered: status line and [await response.text()]. *)
Record UpstreamResponse := {
  status : Z;
  statusText : string;
  responseText : string;
}.

(** What the route answers: [NextResponse.json(body, { status })]. *)
Record Response := { resp_status : Z; resp_body : json }.

(** The calls a route makes to its collaborators, in order. *)
Inductive Effect :=
| JwtRequested (path method : string)
| Dispatched (request : Request).

(** How a statement inside the handler's [try] leaves it early. *)
Inductive Exit :=
| Return (r : Response)
| Throw.

(** A handler body: it extends the log of effects and either goes on
    with a value or leaves. *)
Definition M (A : Type) : Type := list Effect → (Exit + A) * list Effect.

Definition pure {A} (a : A) : M A := λ log, (inr a, log).

Definition bind {A B} (m : M A) (k : A → M B) : M B :=
  λ log, match m log with
         | (inl e, log') => (inl e, log')
         | (inr a, log') => k a log'
         end.

Definition raise {A} : M A := λ log, (inl Throw, log).

Definition emit (e : Effect) : M unit := λ log, (inr tt, (log ++ [e])%list).

Definition when (b : bool) (m : M unit) : M unit :=
  if b then m else pure tt.

(** The statuses for which a response may not carry a body. *)
Definition null_body_status (s : Z) : bool :=
  bool_decide (s ∈ [101; 103; 204; 205; 304]).

(** [return NextResponse.json(body, { status })]: the constructor throws
    for a status outside 200-599 and for a null-body status. *)
Definition reply {A} (body : json) (status : Z) : M A :=
  λ log,
    if (status <? 200) || (599 <? status) || null_body_status status
    then (inl Throw, log)
    else (inl (Return {| resp_status := status; resp_body := body |}), log).

(** The handler: the outer [try { .. } catch { return onThrow }]. *)
Definition run (m : M Response) (onThrow : Response) : Response * list Effect :=
  match m [] with
  | (inr r, log) => (r, log)
  | (inl (Return r), log) => (r, log)
  | (inl Throw, log) => (onThrow, log)
  end.

Definition failure (message : string) : Response :=
  {| resp_status := 500; resp_body := JObj [("error", JStr message)] |}.

Definition keyName (env : Env) : option string :=
  Js.or_opt (CDP_API_KEY env) (CDP_API_KEY_NAME env).

Definition keySecret (env : Env) : option string :=
  Js.or_opt (CDP_API_SECRET env) (CDP_API_KEY_PRIVATE_KEY env).

(** [if (!keyName || !keySecret) return 500]. *)
Definition credentials (env : Env) : M (string * string) :=
  match keyName env, keySecret env with
  | Some name, Some secret =>
      if Js.truthy name && Js.truthy secret then pure (name, secret)
      else reply (JObj [("error", JStr "Server configuration error")]) 500
  | _, _ => reply (JObj [("error", JStr "Server configuration error")]) 500
  end.

Declare Scope route_scope.
Delimit Scope route_scope with route.
Notation "'do!' x ':=' m 'in' k" := (bind m (λ x, k))
  (at level 10, x name, m at level 100, k at level 200) : route_scope.

(** The body of a sell-quote request after [await request.json()], as the
    route destructures it: each property is whatever JSON value the body
    holds under that name, [None] ([undefined]) when it holds none. *)
Record SellQuoteRequest := {
  sellCurrency : option json;
  sellAmount : option json;
  sellNetwork : option json;
  cashoutCurrency : option json;
  paymentMethod : option json;
  country : option json;
  subdivision : option json;
  sourceAddress : option json;
  redirectUrl : option json;
  partnerUserId : option json;
}.

(** [!v] for a destructured property. *)
Definition falsy_value (v : option json) : bool :=
  match v with
  | Some j => negb (truthy j)
  | None => true
  end.

(** The incoming sell-quote request: its parsed body ([None] when
    [request.json()] rejects or yields a value that cannot be destructured)
    and what the client address is read from. *)
Record QuoteCall := {
  quote_body : option SellQuoteRequest;
  x_forwarded_for : option string;
  x_real_ip : option string;
  request_ip : option string;
}.

(** The query of an incoming sell-options request. *)
Record OptionsCall := {
  q_country : option string;
  q_subdivision : option string;
  q_networks : option string;
}.

(** [s.trim()] strips white space and line terminators at both ends:
    U+0009 to U+000D, U+0020, U+00A0, U+1680, U+2000 to U+200A, U+2028,
    U+2029, U+202F, U+205F, U+3000 and U+FEFF, here as their UTF-8 byte
    sequences. *)
Definition whiteSpace : list (list N) :=
  [ [9]; [10]; [11]; [12]; [13]; [32];
    [194; 160];
    [225; 154; 128];
    [226; 128; 128]; [226; 128; 129]; [226; 128; 130]; [226; 128; 131];
    [226; 128; 132]; [226; 128; 133]; [226; 128; 134]; [226; 128; 135];
    [226; 128; 136]; [226; 128; 137]; [226; 128; 138];
    [226; 128; 168]; [226; 128; 169]; [226; 128; 175];
    [226; 129; 159];
    [227; 128; 128];
    [239; 187; 191] ]%N.

(** [s] without the leading bytes [w], when it starts with them. *)
Fixpoint strip_bytes (w : list N) (s : string) : option string :=
  match w, s with
  | [], _ => Some s
  | b :: w', String c s' =>
      if (N_of_ascii c =? b)%N then strip_bytes w' s' else None
  | _ :: _, EmptyString => None
  end.

Fixpoint strip_any (ws : list (list N)) (s : string) : option string :=
  match ws with
  | [] => None
  | w :: ws' =>
      match strip_bytes w s with
      | Some s' => Some s'
      | None => strip_any ws' s
      end
  end.

(** Strip at most [fuel] leading sequences of [ws]. *)
Fixpoint strip_leading (fuel : nat) (ws : list (list N)) (s : string) : string :=
  match fuel with
  | O => s
  | S fuel' =>
      match strip_any ws s with
      | Some s' => strip_leading fuel' ws s'
      | None => s
      end
  end.

Fixpoint reverse_onto (s acc : string) : string :=
  match s with
  | EmptyString => acc
  | String c s' => reverse_onto s' (String c acc)
  end.

Definition reverse (s : string) : string := reverse_onto s EmptyString.

Definition trim_start (s : string) : string :=
  strip_leading (String.length s) whiteSpace s.

Definition trim_end (s : string) : string :=
  reverse (strip_leading (String.length s) (map (@rev N) whiteSpace) (reverse s)).

Definition trim (s : string) : string := trim_end (trim_start s).

(** [header?.split(',')[0]?.trim()]. *)
Definition first_forwarded (header : option string) : option string :=
  (λ v, trim (Url.take_until (λ c, Ascii.eqb c ",") v)) <$> header.

Definition privatePrefixes : list string :=
  [ "10."; "192.168."; "172.16."; "172.17."; "172.18."; "172.19.";
    "172.20."; "172.21."; "172.22."; "172.23."; "172.24."; "172.25.";
    "172.26."; "172.27."; "172.28."; "172.29."; "172.30."; "172.31." ].

Definition isPrivateIp (clientIp : option string) : bool :=
  match clientIp with
  | None => true
  | Some ip =>
      negb (Js.truthy ip)
      || bool_decide (ip ∈ ["127.0.0.1"; "localhost"; "::1"])
      || existsb (λ p, Js.startsWith p ip) privatePrefixes
  end.

(** The client address that goes into the quote request. *)
Definition resolveClientIp (call : QuoteCall) : string :=
  let clientIp :=
    Js.or_opt (Js.or_opt (first_forwarded (x_forwarded_for call))
                 (x_real_ip call))
      (request_ip call) in
  match clientIp with
  | Some ip => if isPrivateIp clientIp then "192.0.2.1" else ip
  | None => "192.0.2.1"
  end.

(** The required-field test of the sell-quote route. *)
Definition missingRequired (b : SellQuoteRequest) : bool :=
  falsy_value (sellCurrency b) || falsy_value (sellAmount b)
  || falsy_value (cashoutCurrency b) || falsy_value (paymentMethod b)
  || falsy_value (country b) || falsy_value (sourceAddress b)
  || falsy_value (redirectUrl b) || falsy_value (partnerUserId b).

(** [if (v) requestBody.k = v]: the property is set for a truthy value
    and stays [undefined] otherwise. *)
Definition optionalField (v : option json) : option json :=
  match v with
  | Some j => if truthy j then Some j else None
  | None => None
  end.

(** [requestBody], as [JSON.stringify] sends it: the destructured values
    are passed on as they are. *)
Definition quoteRequestBody (b : SellQuoteRequest) (clientIp : string) : json :=
  object [ ("sellCurrency", sellCurrency b);
           ("sellAmount", sellAmount b);
           ("cashoutCurrency", cashoutCurrency b);
           ("paymentMethod", paymentMethod b);
           ("country", country b);
           ("sourceAddress", sourceAddress b);
           ("redirectUrl", redirectUrl b);
           ("partnerUserId", partnerUserId b);
           ("clientIp", Some (JStr clientIp));
           ("sellNetwork", optionalField (sellNetwork b));
           ("subdivision", optionalField (subdivision b)) ].

Section Collaborators.

(** [generateJWT(keyName, keySecret, path, method)] of
    [utils/sessionTokenApi]: the token, or [None] when it throws. *)
Variable generateJWT : string → string → string → string → option string.

(** The upstream API behind [fetch]: [None] when the call rejects. *)
Variable upstream : Request → option UpstreamResponse.

(** [JSON.parse]: [None] when it throws. *)
Variable JSON_parse : string → option json.

(** The inner [try { jwtToken = await generateJWT(..) } catch { return 500 }]. *)
Definition sign (cred : string * string) (apiPath httpMethod : string) : M string :=
  (do! _ := emit (JwtRequested apiPath httpMethod) in
   match generateJWT cred.1 cred.2 apiPath httpMethod with
   | Some jwtToken => pure jwtToken
   | None => reply (JObj [("error", JStr "Authentication failed")]) 500
   end)%route.

(** [await fetch(url, init)] followed by [await response.text()]. *)
Definition dispatch (request : Request) : M UpstreamResponse :=
  (do! _ := emit (Dispatched request) in
   match upstream request with
   | Some response => pure response
   | None => raise
   end)%route.

(** [try { data = JSON.parse(responseText) } catch { return 500 }]. *)
Definition parseBody (responseText : string) : M json :=
  match JSON_parse responseText with
  | Some data => pure data
  | None => reply (JObj [("error", JStr "Invalid response from server")]) 500
  end.

(** The argument of [logger.info] after a parsed answer reads properties
    of [data] ([data.countries?.length] and the like): a [TypeError] when
    [data] is [null], nothing otherwise. *)
Definition is_null (data : json) : bool :=
  match data with JNull => true | _ => false end.

Definition readProperties (data : json) : M unit :=
  if is_null data then raise else pure tt.

Definition getHeaders (jwtToken : string) : list (string * string) :=
  [ ("Accept", "application/json");
    ("Authorization", "Bearer " +:+ jwtToken) ].

(** [GET /api/buy-config]. *)
Definition GET_buyConfig (env : Env) : Response * list Effect :=
  run
    (do! cred := credentials env in
     let cdpApiUrl := "https://api.developer.coinbase.com/onramp/v1/buy/config" in
     let apiPath := "/onramp/v1/buy/config" in
     do! jwtToken := sign cred apiPath "GET" in
     do! response := dispatch {| url := cdpApiUrl; method := "GET";
                                 headers := getHeaders jwtToken;
                                 body := None |} in
     if negb (Js.status_ok (status response))
     then reply (JObj [ ("error", JStr "Failed to fetch buy config");
                        ("details", JStr (responseText response)) ])
            (status response)
     else
       do! data := parseBody (responseText response) in
       do! _ := readProperties data in
       reply data 200)%route
    (failure "Failed to fetch buy config").

(** [GET /api/sell-config]. *)
Definition GET_sellConfig (env : Env) : Response * list Effect :=
  run
    (do! cred := credentials env in
     let cdpApiUrl := "https://api.developer.coinbase.com/onramp/v1/sell/config" in
     let apiPath := "/onramp/v1/sell/config" in
     do! jwtToken := sign cred apiPath "GET" in
     do! response := dispatch {| url := cdpApiUrl; method := "GET";
                                 headers := getHeaders jwtToken;
                                 body := None |} in
     if negb (Js.status_ok (status response))
     then reply (JObj [ ("error", JStr "Failed to fetch sell config");
                        ("details", JStr (responseText response)) ])
            (status response)
     else
       do! data := parseBody (responseText response) in
       do! _ := readProperties data in
       reply data 200)%route
    (failure "Failed to fetch sell config").

(** The query the sell-options route forwards. *)
Definition sellOptionsQuery (countryCode : string) (call : OptionsCall)
  : list (string * string) :=
  (("country", countryCode)
   :: match q_subdivision call with
      | Some sub => if Js.truthy sub then [("subdivision", sub)] else []
      | None => []
      end
   ++ match q_networks call with
      | Some nets => if Js.truthy nets then [("networks", nets)] else []
      | None => []
      end)%list.

(** [GET /api/sell-options]. *)
Definition GET_sellOptions (env : Env) (call : OptionsCall)
  : Response * list Effect :=
  run
    (match q_country call with
     | Some countryCode =>
         if negb (Js.truthy countryCode)
         then reply (JObj [("error", JStr "Missing required parameter: country")]) 400
         else
           do! cred := credentials env in
           let queryParams := sellOptionsQuery countryCode call in
           let cdpApiUrl :=
             "https://api.developer.coinbase.com/onramp/v1/sell/options?"
               +:+ Js.URLSearchParams_toString queryParams in
           let apiPath := "/onramp/v1/sell/options" in
           do! jwtToken := sign cred apiPath "GET" in
           do! response := dispatch {| url := cdpApiUrl; method := "GET";
                                       headers := getHeaders jwtToken;
                                       body := None |} in
           if negb (Js.status_ok (status response))
           then reply (JObj [ ("error", JStr "Failed to fetch sell options");
                              ("details", JStr (responseText response)) ])
                  (status response)
           else
             do! data := parseBody (responseText response) in
             do! _ := readProperties data in
             reply data 200
     | None =>
         reply (JObj [("error", JStr "Missing required parameter: country")]) 400
     end)%route
    (failure "Failed to fetch sell options").

(** [errorData.message || errorData.error || responseText], with the raw
    text when the body does not parse or is [null]. *)
Definition errorDetails (responseText : string) : json :=
  match JSON_parse responseText with
  | Some JNull | None => JStr responseText
  | Some errorData =>
      match field "message" errorData with
      | Some m => if truthy m then m else
          match field "error" errorData with
          | Some e => if truthy e then e else JStr responseText
          | None => JStr responseText
          end
      | None =>
          match field "error" errorData with
          | Some e => if truthy e then e else JStr responseText
          | None => JStr responseText
          end
      end
  end.

(** The answer of the sell-quote route to a non-OK upstream response. *)
Definition quoteRejection (env : Env) (response : UpstreamResponse) : json :=
  if bool_decide (NODE_ENV env = Some "development")
  then object
         [ ("error", Some (JStr "Failed to generate sell quote"));
           ("details", Some (errorDetails (responseText response)));
           ("status", Some (JNum (status response)));
           ("hint", if status response =? 401
                    then Some (JStr "Check your CDP API credentials in .env.local")
                    else None) ]
  else object
         [ ("error", Some (JStr "Failed to generate sell quote"));
           ("details", if status response =? 401
                       then Some (JStr "Authentication failed - check API credentials")
                       else None) ].

(** [POST /api/sell-quote]. *)
Definition POST_sellQuote (env : Env) (call : QuoteCall)
  : Response * list Effect :=
  run
    (do! cred := credentials env in
     match quote_body call with
     | None => raise
     | Some b =>
         if missingRequired b
         then reply (JObj [("error", JStr "Missing required fields")]) 400
         else
           let clientIp := resolveClientIp call in
           let cdpApiUrl := "https://api.developer.coinbase.com/onramp/v1/sell/quote" in
           let apiPath := "/onramp/v1/sell/quote" in
           do! jwtToken := sign cred apiPath "POST" in
           let requestBody := quoteRequestBody b clientIp in
           do! response :=
             dispatch {| url := cdpApiUrl; method := "POST";
                         headers := [ ("Content-Type", "application/json");
                                      ("Accept", "application/json");
                                      ("Authorization", "Bearer " +:+ jwtToken) ];
                         body := Some requestBody |} in
           if negb (Js.status_ok (status response))
           then reply (quoteRejection env response) (status response)
           else
             do! data := parseBody (responseText response) in
             do! _ := readProperties data in
             reply data 200
     end)%route
    (failure "Failed to generate sell quote").

End Collaborators.

End Routes.

(** ** Sequences of fetches against the module-level cache *)

Module CacheRuns.
Import OnrampApi.

(** What an upstream exchange delivers to a fetcher: the body of a
    response with an OK status that reads as the expected type.  Anything
    else (a rejected call, a non-OK status, an unreadable body) is a
    failed upstream call. *)
Definition delivered {A} (r : Js.FetchResult A) : option A :=
  match r with
  | Js.Responded status (Some data) =>
      if Js.status_ok status then Some data else None
  | _ => None
  end.

(** The addresses the fetchers request. *)
Definition buyConfigUrl : string := "/api/buy-config".

Definition buyOptionsUrl (country : string) (subdivision : option string)
  : string :=
  "/api/buy-options?"
    +:+ Js.URLSearchParams_toString (optionsParams country subdivision).

Definition sellConfigUrl : string := "/api/sell-config".

Definition sellOptionsUrl (country : string) (subdivision : option string)
  : string :=
  "/api/sell-options?"
    +:+ Js.URLSearchParams_toString (OfframpApi.optionsParams country subdivision).

(** One call of a buy-side fetcher: its arguments, the clock reading, and
    the network as it answers during that call. *)
Inductive Call :=
| ConfigCall (now : Z)
    (network : string → Js.FetchResult ApiBuyConfigResponse)
| OptionsCall (country : string) (subdivision : option string) (now : Z)
    (network : string → Js.FetchResult ApiBuyOptionsResponse).

(** The cache variables after a call. *)
Definition step (c : Cache) (call : Call) : Cache :=
  match call with
  | ConfigCall now network => (fetchBuyConfig now network c).2
  | OptionsCall country subdivision now network =>
      (fetchBuyOptions country subdivision now network c).2
  end.

Definition run (c : Cache) (calls : list Call) : Cache :=
  fold_left step calls c.

(** Whether a call at [now] is answered from an unexpired entry, without
    an upstream call. *)
Definition configFresh (now : Z) (c : Cache) : bool :=
  match buyConfigCache c with
  | Some _ => now - lastConfigFetch c <? CACHE_EXPIRY
  | None => false
  end.

Definition optionsFresh (key : string) (now : Z) (c : Cache) : bool :=
  match cachedOptions c key with
  | Some _ => withinExpiry c key now
  | None => false
  end.

(** The response a read of [buyOptionsCache] under [key] yields, when it
    yields one. *)
Definition storedOptions (c : Cache) (key : string) : option BuyOptionsResponse :=
  match cachedOptions c key with
  | Some (Options data) => Some data
  | _ => None
  end.

(** The keys under which a read of [buyOptionsCache] can find what no
    fetch has stored there. *)
Definition reservedKey (key : string) : bool :=
  Js.inherited key || bool_decide (key ∈ responseProperties).

(** The value of the last config fetch, among [calls] run from [c], whose
    upstream call was made and succeeded; [acc] when there is none. *)
Fixpoint lastConfigSuccess (acc : option BuyConfigResponse) (c : Cache)
    (calls : list Call) : option BuyConfigResponse :=
  match calls with
  | [] => acc
  | call :: rest =>
      let acc' :=
        match call with
        | ConfigCall now network =>
            if configFresh now c then acc
            else match delivered (network buyConfigUrl) with
                 | Some apiData => Some (transformBuyConfigResponse apiData)
                 | None => acc
                 end
        | OptionsCall _ _ _ _ => acc
        end in
      lastConfigSuccess acc' (step c call) rest
  end.

(** The same for the options fetches of one cache key. *)
Fixpoint lastOptionsSuccess (key : string) (acc : option BuyOptionsResponse)
    (c : Cache) (calls : list Call) : option BuyOptionsResponse :=
  match calls with
  | [] => acc
  | call :: rest =>
      let acc' :=
        match call with
        | OptionsCall country subdivision now network =>
            if bool_decide (cacheKey country subdivision = key)
               && negb (optionsFresh key now c)
            then match delivered (network (buyOptionsUrl country subdivision)) with
                 | Some apiData => Some (transformBuyOptionsResponse apiData)
                 | None => acc
                 end
            else acc
        | ConfigCall _ _ => acc
        end in
      lastOptionsSuccess key acc' (step c call) rest
  end.

End CacheRuns.

(** ** OfframpFeature.tsx: the rest of the form *)

Module OfframpForm.
Import OfframpFeature.

(** The options of the network [<select>]: the predefined networks,
    narrowed to the row of the selected asset when it has one (for a
    selected asset that names a member of [Object.prototype] the filter
    throws while rendering). *)
Definition networkOptions (s : Selection) : list Network :=
  List.filter
    (λ network,
       match assetNetworkMap !! selectedAsset s with
       | None => true
       | Some row => bool_decide (network_id network ∈ row)
       end)
    networks.

(** [networks.filter((network) => assetNetworkMap[asset]?.includes(network.id))]:
    without a row the test is [undefined] for every network (for an asset
    that names a member of [Object.prototype] the test throws: see
    [applySellCurrencies]). *)
Definition mergedNetworks (asset : string) : list Network :=
  List.filter
    (λ network,
       match assetNetworkMap !! asset with
       | None => false
       | Some row => bool_decide (network_id network ∈ row)
       end)
    networks.

(** [getSelectedNetworkName()]. *)
Definition getSelectedNetworkName (s : Selection) : option string :=
  match List.find (λ n, bool_decide (Some (network_id n) = selectedNetwork s))
          (availableNetworks s) with
  | Some network => Some (network_name network)
  | None => selectedNetwork s
  end.

(** The remaining [useState] cells of the form, next to the selection. *)
Record Form := {
  selection : Selection;
  amount : string;
  availableAssets : list OfframpApi.CryptoAsset;
  cashoutCurrencies : list OfframpApi.FiatCurrency;
  selectedCashoutCurrency : string;
  selectedCashoutMethod : string;
  cashoutMethods : list OfframpApi.CashoutMethodOption;
  isLoading : bool;
}.

Definition withSelection (g : Selection → Selection) (f : Form) : Form :=
  {| selection := g (selection f);
     amount := amount f;
     availableAssets := availableAssets f;
     cashoutCurrencies := cashoutCurrencies f;
     selectedCashoutCurrency := selectedCashoutCurrency f;
     selectedCashoutMethod := selectedCashoutMethod f;
     cashoutMethods := cashoutMethods f;
     isLoading := isLoading f |}.

Definition setAvailableAssets (v : list OfframpApi.CryptoAsset) (f : Form) : Form :=
  {| selection := selection f;
     amount := amount f;
     availableAssets := v;
     cashoutCurrencies := cashoutCurrencies f;
     selectedCashoutCurrency := selectedCashoutCurrency f;
     selectedCashoutMethod := selectedCashoutMethod f;
     cashoutMethods := cashoutMethods f;
     isLoading := isLoading f |}.

Definition setCashoutCurrencies (v : list OfframpApi.FiatCurrency) (f : Form) : Form :=
  {| selection := selection f;
     amount := amount f;
     availableAssets := availableAssets f;
     cashoutCurrencies := v;
     selectedCashoutCurrency := selectedCashoutCurrency f;
     selectedCashoutMethod := selectedCashoutMethod f;
     cashoutMethods := cashoutMethods f;
     isLoading := isLoading f |}.

Definition setSelectedCashoutCurrency (v : string) (f : Form) : Form :=
  {| selection := selection f;
     amount := amount f;
     availableAssets := availableAssets f;
     cashoutCurrencies := cashoutCurrencies f;
     selectedCashoutCurrency := v;
     selectedCashoutMethod := selectedCashoutMethod f;
     cashoutMethods := cashoutMethods f;
     isLoading := isLoading f |}.

Definition setSelectedCashoutMethod (v : string) (f : Form) : Form :=
  {| selection := selection f;
     amount := amount f;
     availableAssets := availableAssets f;
     cashoutCurrencies := cashoutCurrencies f;
     selectedCashoutCurrency := selectedCashoutCurrency f;
     selectedCashoutMethod := v;
     cashoutMethods := cashoutMethods f;
     isLoading := isLoading f |}.

Definition setCashoutMethods (v : list OfframpApi.CashoutMethodOption) (f : Form) : Form :=
  {| selection := selection f;
     amount := amount f;
     availableAssets := availableAssets f;
     cashoutCurrencies := cashoutCurrencies f;
     selectedCashoutCurrency := selectedCashoutCurrency f;
     selectedCashoutMethod := selectedCashoutMethod f;
     cashoutMethods := v;
     isLoading := isLoading f |}.

Definition setIsLoading (v : bool) (f : Form) : Form :=
  {| selection := selection f;
     amount := amount f;
     availableAssets := availableAssets f;
     cashoutCurrencies := cashoutCurrencies f;
     selectedCashoutCurrency := selectedCashoutCurrency f;
     selectedCashoutMethod := selectedCashoutMethod f;
     cashoutMethods := cashoutMethods f;
     isLoading := v |}.

(** The initial values passed to [useState]. *)
Definition initialForm : Form :=
  {| selection := initialSelection;
     amount := "10";
     availableAssets := [];
     cashoutCurrencies := [];
     selectedCashoutCurrency := "USD";
     selectedCashoutMethod := "";
     cashoutMethods := [];
     isLoading := false |}.

(** The first half of [fetchAssets]' [try]: assets and networks.  [None]
    stands for a [TypeError]: of indexing a missing table row, or of
    calling [includes] on a member that the table inherits. *)
Definition applySellCurrencies (options : OfframpApi.SellOptionsResponse)
    (f : Form) : option Form :=
  match OfframpApi.sell_currencies options with
  | [] => Some f
  | first :: _ =>
      let f1 := setAvailableAssets (OfframpApi.sell_currencies options) f in
      match List.find (λ a, String.eqb (OfframpApi.asset_code a) "USDC")
              (OfframpApi.sell_currencies options) with
      | None =>
          let initialAsset := OfframpApi.asset_code first in
          let merged := mergedNetworks initialAsset in
          let f2 :=
            withSelection
              (λ s, setAvailableNetworks merged (setSelectedAsset initialAsset s))
              f1 in
          match assetNetworkMap !! initialAsset with
          | Some (n :: _) =>
              Some (withSelection (setSelectedNetwork (Some n)) f2)
          | Some [] =>
              match merged with
              | m :: _ =>
                  Some (withSelection (setSelectedNetwork (Some (network_id m))) f2)
              | [] => Some f2
              end
          | None =>
              (* the callback of [networks.filter] calls [includes] on an
                 inherited member *)
              if Js.inherited initialAsset then None
              else
                match merged with
                | m :: _ =>
                    Some (withSelection (setSelectedNetwork (Some (network_id m))) f2)
                | [] => Some f2
                end
          end
      | Some _ =>
          let merged := mergedNetworks "USDC" in
          let f2 := withSelection (setAvailableNetworks merged) f1 in
          match assetNetworkMap !! "USDC" with
          | Some row =>
              if Js.includes row (Some "base") then Some f2
              else Some (withSelection (setSelectedNetwork (head row)) f2)
          | None => None
          end
      end
  end.

(** The second half: cashout currencies and methods. *)
Definition applyCashoutCurrencies (options : OfframpApi.SellOptionsResponse)
    (f : Form) : Form :=
  match OfframpApi.cashout_currencies options with
  | [] => f
  | first :: _ =>
      let f1 := setCashoutCurrencies (OfframpApi.cashout_currencies options) f in
      let usdCurrency :=
        default first
          (List.find (λ c, String.eqb (OfframpApi.currency_code c) "USD")
             (OfframpApi.cashout_currencies options)) in
      let f2 := setSelectedCashoutCurrency (OfframpApi.currency_code usdCurrency) f1 in
      match OfframpApi.currency_cashout_methods usdCurrency with
      | [] => f2
      | m0 :: _ =>
          let achMethod :=
            List.find (λ m, String.eqb (OfframpApi.option_id m) "ACH_BANK_ACCOUNT")
              (OfframpApi.currency_cashout_methods usdCurrency) in
          setSelectedCashoutMethod
            (match achMethod with
             | Some ach => OfframpApi.option_id ach
             | None => OfframpApi.option_id m0
             end)
            (setCashoutMethods (OfframpApi.currency_cashout_methods usdCurrency) f2)
      end
  end.

(** [defaultAssets] and [defaultCashoutCurrencies]. *)
Definition defaultAssets : list OfframpApi.CryptoAsset :=
  [ OfframpApi.asset "USDC" "USD Coin"
      [ OfframpApi.nw "ethereum" "Ethereum"; OfframpApi.nw "base" "Base";
        OfframpApi.nw "optimism" "Optimism"; OfframpApi.nw "polygon" "Polygon";
        OfframpApi.nw "arbitrum" "Arbitrum"; OfframpApi.nw "solana" "Solana";
        OfframpApi.nw "avalanche-c-chain" "Avalanche";
        OfframpApi.nw "unichain" "Unichain"; OfframpApi.nw "aptos" "Aptos";
        OfframpApi.nw "bnb-chain" "BNB Chain" ];
    OfframpApi.asset "ETH" "Ethereum"
      [ OfframpApi.nw "ethereum" "Ethereum"; OfframpApi.nw "base" "Base";
        OfframpApi.nw "optimism" "Optimism"; OfframpApi.nw "arbitrum" "Arbitrum" ];
    OfframpApi.asset "BTC" "Bitcoin" [ OfframpApi.nw "bitcoin" "Bitcoin" ] ].

Definition defaultCashoutCurrencies : list OfframpApi.FiatCurrency :=
  [ {| OfframpApi.currency_code := "USD";
       OfframpApi.currency_name := "US Dollar";
       OfframpApi.currency_cashout_methods :=
         [ OfframpApi.opt "USD" "ACH_BANK_ACCOUNT" "Bank Transfer (ACH)" "10" "25000";
           OfframpApi.opt "USD" "PAYPAL" "PayPal" "10" "5000";
           OfframpApi.opt "USD" "FIAT_WALLET" "Coinbase Fiat Wallet" "1" "50000";
           OfframpApi.opt "USD" "RTP" "Real-Time Payments (RTP)" "10" "5000" ] |};
    {| OfframpApi.currency_code := "EUR";
       OfframpApi.currency_name := "Euro";
       OfframpApi.currency_cashout_methods :=
         [ OfframpApi.opt "EUR" "SEPA_BANK_ACCOUNT" "SEPA Bank Transfer" "10" "25000" ] |} ].

(** The [catch] of [fetchAssets]: the defaults. *)
Definition applyDefaults (f : Form) : Form :=
  let f1 :=
    withSelection
      (λ s, setSelectedNetwork (Some "base")
              (setAvailableNetworks (mergedNetworks "USDC")
                 (setSelectedAsset "USDC" s)))
      (setAvailableAssets defaultAssets f) in
  let f2 := setSelectedCashoutCurrency "USD"
              (setCashoutCurrencies defaultCashoutCurrencies f1) in
  match List.find (λ c, String.eqb (OfframpApi.currency_code c) "USD")
          defaultCashoutCurrencies with
  | Some usdCurrency =>
      match OfframpApi.currency_cashout_methods usdCurrency with
      | [] => setCashoutMethods [] f2
      | m0 :: _ =>
          setSelectedCashoutMethod
            (match List.find
                     (λ m, String.eqb (OfframpApi.option_id m) "ACH_BANK_ACCOUNT")
                     (OfframpApi.currency_cashout_methods usdCurrency) with
             | Some ach => OfframpApi.option_id ach
             | None => OfframpApi.option_id m0
             end)
            (setCashoutMethods (OfframpApi.currency_cashout_methods usdCurrency) f2)
      end
  | None => f2
  end.

(** What [fetchAssets] does with the options it received. *)
Definition applyOptions (options : OfframpApi.SellOptionsResponse) (f : Form) : Form :=
  setIsLoading false
    (match applySellCurrencies options f with
     | Some f1 => applyCashoutCurrencies options f1
     | None => applyDefaults f
     end).

(** [fetchAssets()], with [network] answering the options request. *)
Definition fetchAssets
    (network : string → Js.FetchResult OfframpApi.ApiSellOptionsResponse)
    (f : Form) : Form :=
  applyOptions
    (OfframpApi.fetchSellOptions (selectedCountry (selection f))
       (Some (selectedSubdivision (selection f))) network)
    f.

(** The effect on [selectedCountry], [selectedSubdivision]. *)
Definition fetchAssetsEffect
    (network : string → Js.FetchResult OfframpApi.ApiSellOptionsResponse)
    (f : Form) : Form :=
  if Js.truthy (selectedCountry (selection f)) then fetchAssets network f else f.

(** What the wallet context provides. *)
Record Session := { authenticated : bool; wallet : option string }.

(** [authenticated ? rampTransaction?.wallet : undefined]. *)
Definition address (a : Session) : option string :=
  if authenticated a then wallet a else None.

(** [authenticated && !!rampTransaction?.wallet]. *)
Definition isConnected (a : Session) : bool :=
  authenticated a && negb (Js.falsy (wallet a)).

(** The guards at the head of [handleOfframp]: the message set, if any. *)
Definition handleOfframpGuards (a : Session) (f : Form) : option string :=
  if negb (authenticated a)
  then Some "Please sign in with your CDP Embedded Wallet to use offramp"
  else if Js.falsy (address a)
  then Some "No wallet address found. Please ensure you're signed in with your embedded wallet"
  else if negb (isConnected a)
  then Some "Please connect your embedded wallet first"
  else if negb (Js.truthy (selectedCashoutMethod f))
  then Some "Please select a cashout method"
  else None.

(** The guards at the head of [handleGenerateUrl]. *)
Definition handleGenerateUrlGuards (a : Session) (f : Form) : option string :=
  if negb (authenticated a)
  then Some "Please sign in with your CDP Embedded Wallet to use offramp"
  else if Js.falsy (address a)
  then Some "No wallet address found. Please ensure you're signed in with your embedded wallet"
  else if negb (Js.truthy (selectedCashoutMethod f))
  then Some "Please select a cashout method"
  else None.

(** The body [handleGenerateUrl] posts to [/api/sell-quote], as it reads
    after [JSON.stringify] (which drops an [undefined] property) and
    [request.json()]; [origin] is [window.location.origin]. *)
Definition quoteRequest (origin addr : string) (f : Form) : Routes.SellQuoteRequest :=
  {| Routes.sellCurrency := Some (Routes.JStr (selectedAsset (selection f)));
     Routes.sellAmount := Some (Routes.JStr (amount f));
     Routes.sellNetwork := Routes.JStr <$> selectedNetwork (selection f);
     Routes.cashoutCurrency := Some (Routes.JStr (selectedCashoutCurrency f));
     Routes.paymentMethod := Some (Routes.JStr (selectedCashoutMethod f));
     Routes.country := Some (Routes.JStr (selectedCountry (selection f)));
     Routes.subdivision :=
       if String.eqb (selectedCountry (selection f)) "US"
       then Some (Routes.JStr (selectedSubdivision (selection f)))
       else None;
     Routes.sourceAddress := Some (Routes.JStr addr);
     Routes.redirectUrl := Some (Routes.JStr (origin +:+ "/offramp"));
     Routes.partnerUserId := Some (Routes.JStr (String.substring 0 49 addr)) |}.

(** [handleGenerateUrl]: the message of a failed guard, or the request. *)
Definition handleGenerateUrl (origin : string) (a : Session) (f : Form)
  : string + Routes.SellQuoteRequest :=
  match handleGenerateUrlGuards a f with
  | Some message => inl message
  | None => inr (quoteRequest origin (default "" (address a)) f)
  end.

(** The address [handleOfframp] opens, given the session token. *)
Definition offrampUrl (origin sessionToken addr : string) (f : Form) : string :=
  "https://pay.coinbase.com/v3/sell/input?"
    +:+ Js.URLSearchParams_toString
          [ ("sessionToken", sessionToken);
            ("partnerUserId", String.substring 0 49 addr);
            ("redirectUrl", origin +:+ "/offramp");
            ("defaultAsset", selectedAsset (selection f));
            ("defaultNetwork", default "undefined" (selectedNetwork (selection f)));
            ("defaultCashoutMethod", selectedCashoutMethod f);
            ("fiatCurrency", selectedCashoutCurrency f) ].

End OfframpForm.

(** ** EmbeddedWalletAuth.tsx *)

Module EmbeddedWalletAuth.

(** [s.slice(-n)]: the last [n] characters, or all of [s] when shorter. *)
Definition slice_last (n : nat) (s : string) : string :=
  String.substring (String.length s - n) n s.

(** [truncateAddress]. *)
Definition truncateAddress (address : string) : string :=
  if Js.truthy address
  then String.substring 0 6 address +:+ "..." +:+ slice_last 4 address
  else "".

(** The effect "Sync authenticated state with embedded wallet": the
    session it writes, given [isSignedIn] and [evmAddress]. *)
Definition syncSession (isSignedIn : bool) (evmAddress : option string)
  : OfframpForm.Session :=
  if isSignedIn && negb (Js.falsy evmAddress)
  then {| OfframpForm.authenticated := true; OfframpForm.wallet := evmAddress |}
  else {| OfframpForm.authenticated := false; OfframpForm.wallet := None |}.


End EmbeddedWalletAuth.

(** ** The browser calling the routes *)

Module EndToEnd.

(** What the browser's [fetch] of a route gives the fetcher that reads an
    [A] from it: the route's status, and its JSON body read as an [A] by
    [decode]. *)
Definition served {A} (decode : Routes.json → option A) (r : Routes.Response)
  : Js.FetchResult A :=
  Js.Responded (Routes.resp_status r) (decode (Routes.resp_body r)).

End EndToEnd.

(** ** Sample inputs for the worked examples *)

Module Samples.
Import Routes.

Definition env : Env :=
  {| CDP_API_KEY := Some "key"; CDP_API_KEY_NAME := Some "other-key";
     CDP_API_SECRET := None; CDP_API_KEY_PRIVATE_KEY := Some "secret";
     NODE_ENV := Some "production" |}.

Definition envWithoutSecret : Env :=
  {| CDP_API_KEY := Some "key"; CDP_API_KEY_NAME := None;
     CDP_API_SECRET := Some ""; CDP_API_KEY_PRIVATE_KEY := None;
     NODE_ENV := Some "production" |}.

Definition quoteBody : SellQuoteRequest :=
  {| sellCurrency := Some (JStr "USDC"); sellAmount := Some (JStr "10");
     sellNetwork := Some (JStr "base"); cashoutCurrency := Some (JStr "USD");
     paymentMethod := Some (JStr "ACH_BANK_ACCOUNT");
     country := Some (JStr "US"); subdivision := Some (JStr "CA");
     sourceAddress := Some (JStr "0x1234567890abcdef1234567890abcdef12345678");
     redirectUrl := Some (JStr "https://example.com/offramp");
     partnerUserId := Some (JStr "0x1234567890abcdef1234567890abcdef12345678") |}.

Definition quoteCall : QuoteCall :=
  {| quote_body := Some quoteBody;
     x_forwarded_for := Some "10.1.2.3, 203.0.113.9";
     x_real_ip := None; request_ip := None |}.

Definition optionsCall : OptionsCall :=
  {| q_country := Some "US"; q_subdivision := Some "N&Y=1";
     q_networks := None |}.

Definition optionsCallWithoutCountry : OptionsCall :=
  {| q_country := Some ""; q_subdivision := Some "NY"; q_networks := None |}.

Definition signer (name secret path method : string) : option string :=
  Some "signed-token".

Definition brokenSigner (name secret path method : string) : option string :=
  None.

Definition created : UpstreamResponse :=
  {| status := 201; statusText := "Created"; responseText := "{}" |}.

Definition upstreamCreated (rq : Request) : option UpstreamResponse :=
  Some created.

Definition upstreamDown (rq : Request) : option UpstreamResponse := None.

Definition parseObject (text : string) : option json := Some (JObj []).

Definition parseNothing (text : string) : option json := None.

End Samples.

(** * Properties *)

(** ** Selection state (CompatibilityResolver) *)

Module SelectionFacts.
Import OfframpFeature.

Lemma includes_true arr v :
  Js.includes arr v = true ↔ ∃ s, v = Some s ∧ s ∈ arr.
Proof.
  destruct v as [s|]; simpl.
  - rewrite bool_decide_eq_true. split; [eauto | by intros (? & [= <-] & ?)].
  - split; [done | by intros (? & ? & ?)].
Qed.

(** Every row of the compatibility table lists at least one network. *)
Lemma assetNetworkMap_head A l :
  assetNetworkMap !! A = Some l → ∃ n, head l = Some n ∧ n ∈ l.
Proof.
  intros H. apply elem_of_list_to_map_2 in H.
  assert (HF : Forall (λ e : string * list string, ∃ n, head e.2 = Some n)
                 assetNetworkEntries)
    by (repeat constructor; simpl; eauto).
  rewrite Forall_forall in HF. destruct (HF _ H) as [n Hn]. simpl in Hn.
  exists n. split; [done|]. destruct l; simplify_eq/=. left.
Qed.

Lemma repaired_compatible A l (prior : option string) :
  assetNetworkMap !! A = Some l →
  ∃ n, (if Js.includes l prior then prior else head l) = Some n ∧ n ∈ l.
Proof.
  intros H. destruct (Js.includes l prior) eqn:E.
  - by apply includes_true in E.
  - by apply assetNetworkMap_head in H.
Qed.

Lemma networkRepairEffect_network s l :
  assetNetworkMap !! selectedAsset s = Some l →
  selectedNetwork (networkRepairEffect s)
  = if Js.includes l (selectedNetwork s) then selectedNetwork s else head l.
Proof.
  intros H. unfold networkRepairEffect. rewrite H.
  by destruct (Js.includes l (selectedNetwork s)).
Qed.

Lemma handleAssetChange_network A s l :
  assetNetworkMap !! A = Some l →
  selectedNetwork (handleAssetChange A s)
  = if Js.includes l (selectedNetwork s) then selectedNetwork s else head l.
Proof.
  intros H. unfold handleAssetChange. rewrite H.
  by destruct (Js.includes l (selectedNetwork s)).
Qed.

Lemma handleAssetChange_asset A s :
  selectedAsset (handleAssetChange A s) = A.
Proof.
  unfold handleAssetChange. destruct (assetNetworkMap !! A) as [l|]; [|done].
  by destruct (Js.includes l (selectedNetwork s)).
Qed.

Example handleAssetChange_BTC :
  selectedNetwork (handleAssetChange "BTC" initialSelection) = Some "bitcoin"
  ∧ selectedNetwork (handleAssetChange "ETH" initialSelection) = Some "base"
  ∧ selectedNetwork (handleAssetChange "PEPE" initialSelection) = Some "base"
  ∧ map network_id (availableNetworks (handleAssetChange "MATIC" initialSelection))
    = ["ethereum"; "polygon"].
Proof. split_and!; vm_compute; reflexivity. Qed.

(** C1. For an asset [A] with a row [l] in the compatibility table and any
    prior selection [s]: after the repair effect has run on a selection of
    [A], and after [handleAssetChange A], the selected network is a member
    of [l]; it is the prior network when that one is in [l], and the first
    entry of [l] otherwise. *)
Theorem network_repair_compatible (A : string) (l : list string) (s : Selection) :
  assetNetworkMap !! A = Some l →
  (∃ n, selectedNetwork (networkRepairEffect (setSelectedAsset A s)) = Some n
        ∧ n ∈ l)
  ∧ (∃ n, selectedNetwork (handleAssetChange A s) = Some n ∧ n ∈ l)
  ∧ (Js.includes l (selectedNetwork s) = true →
     selectedNetwork (networkRepairEffect (setSelectedAsset A s)) = selectedNetwork s
     ∧ selectedNetwork (handleAssetChange A s) = selectedNetwork s)
  ∧ (Js.includes l (selectedNetwork s) = false →
     selectedNetwork (networkRepairEffect (setSelectedAsset A s)) = head l
     ∧ selectedNetwork (handleAssetChange A s) = head l).
Proof.
  intros H.
  rewrite (networkRepairEffect_network (setSelectedAsset A s) l) by done.
  rewrite (handleAssetChange_network A s l) by done. simpl.
  split_and!; try by eapply repaired_compatible.
  - by intros ->.
  - by intros ->.
Qed.

(** The table row of BTC and a prior selection of USDC on Base. *)
Lemma network_repair_compatible_witness :
  (∃ n, selectedNetwork (networkRepairEffect (setSelectedAsset "BTC" initialSelection)) = Some n
        ∧ n ∈ ["bitcoin"])
  ∧ (∃ n, selectedNetwork (handleAssetChange "BTC" initialSelection) = Some n
          ∧ n ∈ ["bitcoin"])
  ∧ (Js.includes ["bitcoin"] (selectedNetwork initialSelection) = true →
     selectedNetwork (networkRepairEffect (setSelectedAsset "BTC" initialSelection))
       = selectedNetwork initialSelection
     ∧ selectedNetwork (handleAssetChange "BTC" initialSelection)
       = selectedNetwork initialSelection)
  ∧ (Js.includes ["bitcoin"] (selectedNetwork initialSelection) = false →
     selectedNetwork (networkRepairEffect (setSelectedAsset "BTC" initialSelection))
       = head ["bitcoin"]
     ∧ selectedNetwork (handleAssetChange "BTC" initialSelection) = head ["bitcoin"]).
Proof.
  apply (network_repair_compatible "BTC" ["bitcoin"] initialSelection).
  reflexivity.
Defined.

(** The first entry of a row is found in the row. *)
Lemma includes_head (l : list string) :
  Js.includes l (head l) = match l with [] => false | _ => true end.
Proof.
  destruct l as [|n l]; simpl; [done|].
  apply bool_decide_eq_true. left.
Qed.

Lemma networkRepairEffect_idem s :
  networkRepairEffect (networkRepairEffect s) = networkRepairEffect s.
Proof.
  unfold networkRepairEffect at 2.
  destruct (assetNetworkMap !! selectedAsset s) as [l|] eqn:Hrow.
  - destruct (Js.includes l (selectedNetwork s)) eqn:Hin.
    + unfold networkRepairEffect. by rewrite Hrow, Hin.
    + unfold networkRepairEffect. simpl. rewrite Hrow. simpl.
      rewrite Hin, includes_head. by destruct l.
  - unfold networkRepairEffect. by rewrite Hrow.
Qed.

Lemma handleAssetChange_idem A s :
  handleAssetChange A (handleAssetChange A s) = handleAssetChange A s.
Proof.
  unfold handleAssetChange at 2.
  destruct (assetNetworkMap !! A) as [l|] eqn:Hrow.
  - destruct (Js.includes l (selectedNetwork s)) eqn:Hin.
    + unfold handleAssetChange. rewrite Hrow. simpl. by rewrite Hin.
    + unfold handleAssetChange. rewrite Hrow. simpl.
      rewrite Hin. simpl. rewrite includes_head. by destruct l.
  - unfold handleAssetChange. by rewrite Hrow.
Qed.

Lemma networkRepairEffect_after_handleAssetChange A s :
  networkRepairEffect (handleAssetChange A s) = handleAssetChange A s.
Proof.
  unfold networkRepairEffect. rewrite handleAssetChange_asset.
  destruct (assetNetworkMap !! A) as [l|] eqn:Hrow; [|done].
  rewrite (handleAssetChange_network A s l Hrow).
  destruct (Js.includes l (selectedNetwork s)) eqn:Hin.
  - by rewrite Hin.
  - rewrite includes_head. destruct l; [|done].
    unfold handleAssetChange. rewrite Hrow. simpl in *. by rewrite Hin.
Qed.

(** Where the repair returns, it is idempotent: for a selection whose
    asset does not make the effect throw, and for an asset code that does
    not make the handler throw, running the repair effect on its own
    result, handling the same asset change again, or running the effect
    after an asset change, changes nothing. *)
Lemma repair_idempotent_where_it_returns (s : Selection) :
  (networkRepairThrows s = false →
   networkRepairThrows (networkRepairEffect s) = false
   ∧ networkRepairEffect (networkRepairEffect s) = networkRepairEffect s)
  ∧ (∀ A, handleAssetChangeThrows A = false →
          handleAssetChange A (handleAssetChange A s) = handleAssetChange A s
          ∧ networkRepairThrows (handleAssetChange A s) = false
          ∧ networkRepairEffect (handleAssetChange A s) = handleAssetChange A s).
Proof.
  split.
  - intros H. split; [|apply networkRepairEffect_idem].
    unfold networkRepairThrows in *. unfold networkRepairEffect.
    destruct (assetNetworkMap !! selectedAsset s) as [l|] eqn:Hrow.
    + destruct (Js.includes l (selectedNetwork s)); cbn [selectedAsset setSelectedNetwork];
        by rewrite Hrow.
    + by rewrite Hrow.
  - intros A H. split_and!.
    + apply handleAssetChange_idem.
    + unfold networkRepairThrows. by rewrite handleAssetChange_asset.
    + apply networkRepairEffect_after_handleAssetChange.
Qed.


(** C6, as the spec states it, fails: there is no non-empty default that a
    change of country to "US" installs.  Switching from the initial
    selection to "GB" and back to "US" leaves the subdivision empty. *)
Lemma country_change_us_default_refuted :
  ¬ ∃ d : string, d ≠ "" ∧
      ∀ s, selectedSubdivision (onCountryChange "US" s) = d.
Proof.
  intros (d & Hd & H).
  specialize (H (onCountryChange "GB" initialSelection)). simpl in H.
  by subst d.
Qed.

(** C6, amended. A change of country selects the new country and clears
    the subdivision to the empty string, for "US" like for any other
    country, and touches nothing else; the non-empty region "CA" is only
    the initial value, next to the initial country "US". *)
Theorem country_change_clears_subdivision (v : string) (s : Selection) :
  selectedCountry (onCountryChange v s) = v
  ∧ selectedSubdivision (onCountryChange v s) = ""
  ∧ selectedAsset (onCountryChange v s) = selectedAsset s
  ∧ selectedNetwork (onCountryChange v s) = selectedNetwork s
  ∧ selectedCountry initialSelection = "US"
  ∧ selectedSubdivision initialSelection = "CA".
Proof. by split_and!. Qed.

End SelectionFacts.

(** ** SchemaNormalizer *)

Module NormalizerFacts.

(** A list and its image under [f] are related pointwise, in order. *)
Lemma Forall2_map_diag {A B} (P : A → B → Prop) (f : A → B) (l : list A) :
  (∀ a, P a (f a)) → Forall2 P l (map f l).
Proof. intros H. induction l; simpl; constructor; auto. Qed.

Lemma or_else_absent {A} (o : option A) (g : A → string) (raw : string) :
  o = None → Js.or_else (g <$> o) raw = raw.
Proof. by intros ->. Qed.

(** A method identifier that is neither in the table nor the name of the
    inherited constructor is its own display name. *)
Lemma buy_methodName_ordinary id :
  OnrampApi.paymentMethodNames !! id = None → id ≠ "constructor" →
  Js.or_else (OnrampApi.methodName id) id = id.
Proof.
  intros H Hc. unfold OnrampApi.methodName, Js.inheritedName. rewrite H.
  apply String.eqb_neq in Hc. rewrite Hc.
  destruct (String.eqb id "__proto__"); [reflexivity|].
  destruct (Js.inherited id); [|reflexivity].
  simpl. by destruct (Js.truthy id).
Qed.

Lemma sell_methodName_ordinary id :
  OfframpApi.paymentMethodNames !! id = None → id ≠ "constructor" →
  Js.or_else (OfframpApi.methodName id) id = id.
Proof.
  intros H Hc. unfold OfframpApi.methodName, Js.inheritedName. rewrite H.
  apply String.eqb_neq in Hc. rewrite Hc.
  destruct (String.eqb id "__proto__"); [reflexivity|].
  destruct (Js.inherited id); [|reflexivity].
  simpl. by destruct (Js.truthy id).
Qed.

(** The config transforms, buy and sell, map the upstream countries to
    the output countries one to one and in order, and each country's
    payment methods to its output methods one to one and in order; every
    identifier is kept as it is.  A country identifier that is absent
    from the display-name table and names no member of [Object.prototype]
    is also the display name; so is a method identifier that is absent
    from its table, unless it is "constructor". *)
Lemma config_transform_keeps_ordinary_identifiers
    (buy : OnrampApi.ApiBuyConfigResponse)
    (sell : OfframpApi.SellConfigResponse) :
  Forall2
    (λ a c,
       OnrampApi.country_id c = OnrampApi.api_country_id a
       ∧ (OnrampApi.countryNames !! OnrampApi.api_country_id a = None →
          Js.inherited (OnrampApi.api_country_id a) = false →
          OnrampApi.country_name c = OnrampApi.api_country_id a)
       ∧ Forall2
           (λ p m,
              OnrampApi.pm_id m = OnrampApi.api_pm_id p
              ∧ (OnrampApi.paymentMethodNames !! OnrampApi.api_pm_id p = None →
                 OnrampApi.api_pm_id p ≠ "constructor" →
                 OnrampApi.pm_name m = OnrampApi.api_pm_id p))
           (OnrampApi.api_payment_methods a) (OnrampApi.paymentMethods c))
    (OnrampApi.api_countries buy)
    (OnrampApi.countries (OnrampApi.transformBuyConfigResponse buy))
  ∧ Forall2
      (λ a c,
         OfframpApi.code c = OfframpApi.api_country_id a
         ∧ (OfframpApi.countryNames !! OfframpApi.api_country_id a = None →
            Js.inherited (OfframpApi.api_country_id a) = false →
            OfframpApi.country_name c = OfframpApi.api_country_id a)
         ∧ Forall2
             (λ p m,
                OfframpApi.cm_id m = OfframpApi.api_pm_id p
                ∧ (OfframpApi.paymentMethodNames !! OfframpApi.api_pm_id p = None →
                   OfframpApi.api_pm_id p ≠ "constructor" →
                   OfframpApi.cm_name m = OfframpApi.api_pm_id p))
             (OfframpApi.payment_methods a) (OfframpApi.cashout_methods c))
      (OfframpApi.api_countries sell)
      (OfframpApi.countries (OfframpApi.transformSellConfigResponse sell)).
Proof.
  split.
  - apply Forall2_map_diag. intros a. split_and!; [reflexivity| |].
    + intros H _. unfold OnrampApi.transformCountry.
      cbn [OnrampApi.country_name]. rewrite H. reflexivity.
    + apply Forall2_map_diag. intros p. split; [reflexivity|].
      intros H Hc. by apply buy_methodName_ordinary.
  - apply Forall2_map_diag. intros a. split_and!; [reflexivity| |].
    + intros H _. unfold OfframpApi.transformCountry.
      cbn [OfframpApi.country_name]. rewrite H. reflexivity.
    + apply Forall2_map_diag. intros p. split; [reflexivity|].
      intros H Hc. by apply sell_methodName_ordinary.
Qed.

(** C8. A payment method whose identifier is "constructor" is absent from
    both display-name tables, and yet neither config transform shows it by
    its raw identifier: the lookup finds the constructor that the table
    inherits, and the display name is "Object". *)
Theorem constructor_method_is_not_shown_by_its_identifier :
  OnrampApi.paymentMethodNames !! "constructor" = None
  ∧ OfframpApi.paymentMethodNames !! "constructor" = None
  ∧ OnrampApi.transformBuyConfigResponse
      {| OnrampApi.api_countries :=
           [ {| OnrampApi.api_country_id := "US";
                OnrampApi.api_payment_methods :=
                  [ {| OnrampApi.api_pm_id := "constructor" |} ];
                OnrampApi.api_subdivisions := None |} ] |}
    = {| OnrampApi.countries :=
           [ {| OnrampApi.country_id := "US";
                OnrampApi.country_name := "United States";
                OnrampApi.paymentMethods :=
                  [ {| OnrampApi.pm_id := "constructor";
                       OnrampApi.pm_name := "Object";
                       OnrampApi.pm_description := None |} ];
                OnrampApi.subdivisions := None |} ] |}
  ∧ OfframpApi.transformSellConfigResponse
      {| OfframpApi.api_countries :=
           [ {| OfframpApi.api_country_id := "US";
                OfframpApi.payment_methods :=
                  [ {| OfframpApi.api_pm_id := "constructor" |} ];
                OfframpApi.subdivisions := None |} ] |}
    = {| OfframpApi.countries :=
           [ {| OfframpApi.code := "US";
                OfframpApi.country_name := "United States";
                OfframpApi.cashout_methods :=
                  [ {| OfframpApi.cm_id := "constructor";
                       OfframpApi.cm_name := "Object";
                       OfframpApi.cm_description := None |} ];
                OfframpApi.supported_states := None |} ] |}.
Proof. split_and!; vm_compute; reflexivity. Qed.

(** The count of countries and of each country's methods follows. *)
Lemma config_transform_lengths
    (buy : OnrampApi.ApiBuyConfigResponse)
    (sell : OfframpApi.SellConfigResponse) :
  length (OnrampApi.countries (OnrampApi.transformBuyConfigResponse buy))
  = length (OnrampApi.api_countries buy)
  ∧ length (OfframpApi.countries (OfframpApi.transformSellConfigResponse sell))
    = length (OfframpApi.api_countries sell).
Proof. simpl. by rewrite !length_map. Qed.

(** A country and a payment method the tables do not know. *)
Example transformBuyConfigResponse_unknown :
  OnrampApi.transformBuyConfigResponse
    {| OnrampApi.api_countries :=
         [ {| OnrampApi.api_country_id := "ZZ";
              OnrampApi.api_payment_methods :=
                [ {| OnrampApi.api_pm_id := "WIRE" |};
                  {| OnrampApi.api_pm_id := "CARD" |} ];
              OnrampApi.api_subdivisions := None |} ] |}
  = {| OnrampApi.countries :=
         [ {| OnrampApi.country_id := "ZZ"; OnrampApi.country_name := "ZZ";
              OnrampApi.paymentMethods :=
                [ {| OnrampApi.pm_id := "WIRE"; OnrampApi.pm_name := "WIRE";
                     OnrampApi.pm_description := None |};
                  OnrampApi.CARD ];
              OnrampApi.subdivisions := None |} ] |}.
Proof. vm_compute. reflexivity. Qed.

(** C9, as the spec states it, fails for the buy transform: its output
    keys every limits row by the payment method, and no row of a currency
    carries the currency code as its key. *)
Lemma buy_limits_not_keyed_by_currency :
  ¬ ∃ pc row,
      pc ∈ OnrampApi.paymentCurrencies
             (OnrampApi.transformBuyOptionsResponse
                {| OnrampApi.payment_currencies :=
                     [ {| OnrampApi.api_currency_id := "USD";
                          OnrampApi.api_limits :=
                            [ {| OnrampApi.api_limit_id := "CARD";
                                 OnrampApi.api_limit_min := "10.00";
                                 OnrampApi.api_limit_max := "1000.00" |} ] |} ];
                   OnrampApi.purchase_currencies := [] |})
      ∧ row ∈ OnrampApi.limits pc
      ∧ OnrampApi.limit_id row = "USD".
Proof.
  intros (pc & row & Hpc & Hrow & Hid).
  cbn [OnrampApi.transformBuyOptionsResponse OnrampApi.paymentCurrencies
       OnrampApi.payment_currencies map] in Hpc.
  apply list_elem_of_singleton in Hpc as ->.
  cbn [OnrampApi.transformPaymentCurrency OnrampApi.limits
       OnrampApi.api_limits map] in Hrow.
  apply list_elem_of_singleton in Hrow as ->. discriminate Hid.
Qed.

(** C9, amended. The sell transform turns each fiat currency's limits
    rows, in order, into that currency's cashout methods, each holding the
    row's [{min, max}] in a map whose only key is the currency code.  The
    buy transform keeps each currency's rows as a list, in order, each row
    keyed by its payment method. *)
Theorem options_transform_limits
    (sell : OfframpApi.ApiSellOptionsResponse)
    (buy : OnrampApi.ApiBuyOptionsResponse) :
  Forall2
    (λ cur out,
       OfframpApi.currency_code out = OfframpApi.api_currency_id cur
       ∧ Forall2
           (λ row m,
              OfframpApi.option_id m = OfframpApi.api_limit_id row
              ∧ OfframpApi.limits m !! OfframpApi.api_currency_id cur
                = Some {| OfframpApi.min := OfframpApi.api_limit_min row;
                          OfframpApi.max := OfframpApi.api_limit_max row |}
              ∧ dom (OfframpApi.limits m) = {[ OfframpApi.api_currency_id cur ]})
           (OfframpApi.api_limits cur) (OfframpApi.currency_cashout_methods out))
    (OfframpApi.api_cashout_currencies sell)
    (OfframpApi.cashout_currencies (OfframpApi.transformSellOptionsResponse sell))
  ∧ Forall2
      (λ cur out,
         OnrampApi.currency_id out = OnrampApi.api_currency_id cur
         ∧ Forall2
             (λ row r,
                OnrampApi.limit_id r = OnrampApi.api_limit_id row
                ∧ OnrampApi.limit_min r = OnrampApi.api_limit_min row
                ∧ OnrampApi.limit_max r = OnrampApi.api_limit_max row)
             (OnrampApi.api_limits cur) (OnrampApi.limits out))
      (OnrampApi.payment_currencies buy)
      (OnrampApi.paymentCurrencies (OnrampApi.transformBuyOptionsResponse buy)).
Proof.
  split.
  - apply Forall2_map_diag. intros cur. split; [reflexivity|].
    apply Forall2_map_diag. intros row.
    unfold OfframpApi.transformLimit.
    cbn [OfframpApi.option_id OfframpApi.limits].
    split_and!; [reflexivity| |].
    + apply lookup_singleton_eq.
    + apply dom_singleton_L.
  - apply Forall2_map_diag. intros cur. split; [reflexivity|].
    apply Forall2_map_diag. intros row. split_and!; reflexivity.
Qed.

End NormalizerFacts.

(** ** ResilienceCache *)

Module CacheFacts.
Import OnrampApi CacheRuns.

(** The three ways a call of [fetchBuyConfig] ends. *)
Lemma fetchBuyConfig_cases now network c :
  fetchBuyConfig now network c =
    if configFresh now c
    then (default buyConfigFallback (buyConfigCache c), c)
    else match delivered (network buyConfigUrl) with
         | Some apiData =>
             (transformBuyConfigResponse apiData,
              {| buyConfigCache := Some (transformBuyConfigResponse apiData);
                 buyOptionsCache := buyOptionsCache c;
                 lastConfigFetch := now;
                 lastOptionsFetch := lastOptionsFetch c;
                 buyOptionsPrototype := buyOptionsPrototype c |})
         | None => (default buyConfigFallback (buyConfigCache c), c)
         end.
Proof.
  unfold fetchBuyConfig, configFresh, buyConfigUrl, Client.fetch.
  destruct (buyConfigCache c) as [cached|];
    [destruct (now - lastConfigFetch c <? CACHE_EXPIRY); [reflexivity|] |];
    (destruct (network "/api/buy-config") as [|status [data|]];
     [reflexivity | |];
     unfold Client.ensure_ok, Client.json, delivered,
       Exc.try_catch, Exc.bind, Exc.ret, Exc.throw; cbn [fst snd];
     destruct (Js.status_ok status); reflexivity).
Qed.

(** The same for [fetchBuyOptions]. *)
Lemma fetchBuyOptions_cases country subdivision now network c :
  let key := cacheKey country subdivision in
  fetchBuyOptions country subdivision now network c =
    if optionsFresh key now c
    then (default (Options buyOptionsFallback) (cachedOptions c key), c)
    else match delivered (network (buyOptionsUrl country subdivision)) with
         | Some apiData =>
             (Options (transformBuyOptionsResponse apiData),
              storeOptions key (transformBuyOptionsResponse apiData) now c)
         | None =>
             (default (Options buyOptionsFallback) (cachedOptions c key), c)
         end.
Proof.
  intros key.
  unfold fetchBuyOptions, optionsFresh, buyOptionsUrl, Client.fetch.
  fold key.
  destruct (cachedOptions c key) as [cached|];
    [destruct (withinExpiry c key now); [reflexivity|] |];
    (destruct (network _) as [|status [data|]];
     [reflexivity | |];
     unfold Client.ensure_ok, Client.json, delivered,
       Exc.try_catch, Exc.bind, Exc.ret, Exc.throw; cbn [fst snd];
     destruct (Js.status_ok status); reflexivity).
Qed.

(** A failed upstream call returns what a read under the key yields when
    it yields something, and the static dataset otherwise; the cache is
    left as it was. *)
Lemma fetchBuyConfig_failed now network c :
  delivered (network buyConfigUrl) = None →
  fetchBuyConfig now network c
  = (default buyConfigFallback (buyConfigCache c), c).
Proof.
  intros H. rewrite fetchBuyConfig_cases, H. by destruct (configFresh now c).
Qed.

Lemma fetchBuyOptions_failed country subdivision now network c :
  delivered (network (buyOptionsUrl country subdivision)) = None →
  fetchBuyOptions country subdivision now network c
  = (default (Options buyOptionsFallback)
       (cachedOptions c (cacheKey country subdivision)), c).
Proof.
  intros H. rewrite fetchBuyOptions_cases, H.
  by destruct (optionsFresh _ now c).
Qed.

(** The cache after a call that made a successful upstream call, and
    after any other. *)
Lemma step_cases c call :
  step c call = c
  ∨ (∃ now data,
       step c call
       = {| buyConfigCache := Some data;
            buyOptionsCache := buyOptionsCache c;
            lastConfigFetch := now;
            lastOptionsFetch := lastOptionsFetch c;
            buyOptionsPrototype := buyOptionsPrototype c |})
  ∨ (∃ country subdivision now data, 
       step c call = storeOptions (cacheKey country subdivision) data now c).
Proof.
  destruct call as [now network | country subdivision now network];
    cbn [step].
  - rewrite fetchBuyConfig_cases.
    destruct (configFresh now c); [by left|].
    destruct (delivered (network buyConfigUrl)); [|by left].
    right. left. by do 2 eexists.
  - rewrite fetchBuyOptions_cases.
    destruct (optionsFresh _ now c); [by left|].
    destruct (delivered (network _)); [|by left].
    right. right. by do 4 eexists.
Qed.

(** Own properties after the two assignments. *)
Lemma storeOptions_own key data now c :
  buyOptionsCache (storeOptions key data now c)
  = (if String.eqb key "__proto__" then buyOptionsCache c
     else <[key := data]> (buyOptionsCache c))
  ∧ lastOptionsFetch (storeOptions key data now c)
    = (if String.eqb key "__proto__" then lastOptionsFetch c
       else <[key := now]> (lastOptionsFetch c))
  ∧ buyConfigCache (storeOptions key data now c) = buyConfigCache c
  ∧ lastConfigFetch (storeOptions key data now c) = lastConfigFetch c.
Proof. unfold storeOptions. by destruct (String.eqb key "__proto__"). Qed.

(** No assignment gives [buyOptionsCache] an own property [__proto__]. *)
Lemma step_keeps_no_own_proto c call :
  buyOptionsCache c !! "__proto__" = None →
  buyOptionsCache (step c call) !! "__proto__" = None.
Proof.
  intros H.
  destruct (step_cases c call)
    as [-> | [(now & data & ->) | (country & sub & now & data & ->)]];
    [done | done |].
  rewrite (proj1 (storeOptions_own _ _ _ _)).
  destruct (String.eqb_spec (cacheKey country sub) "__proto__") as [E|E];
    [done|]. by rewrite lookup_insert_ne.
Qed.

(** What the two assignments under a key leave to a read under that key,
    and under another one. *)
Lemma storedOptions_store_same key data now c :
  buyOptionsCache c !! "__proto__" = None →
  storedOptions (storeOptions key data now c) key = Some data.
Proof.
  intros Hproto. unfold storedOptions, cachedOptions, storeOptions.
  destruct (String.eqb_spec key "__proto__") as [->|E].
  - cbn [buyOptionsCache buyOptionsPrototype]. by rewrite Hproto.
  - cbn [buyOptionsCache]. by rewrite lookup_insert_eq.
Qed.

Lemma storedOptions_store_other k key data now c :
  k ≠ key →
  storedOptions (storeOptions k data now c) key = storedOptions c key.
Proof.
  intros Hne. unfold storedOptions, cachedOptions, storeOptions.
  destruct (String.eqb_spec k "__proto__") as [->|E];
    cbn [buyOptionsCache buyOptionsPrototype].
  - destruct (buyOptionsCache c !! key); [done|].
    destruct (String.eqb_spec key "__proto__") as [->|E']; [done|].
    destruct (Js.inherited key); [done|].
    destruct (buyOptionsPrototype c);
      by destruct (bool_decide (key ∈ responseProperties)).
  - by rewrite lookup_insert_ne.
Qed.

(** The config entry of the cache is the value of the last successful
    config fetch. *)
Lemma config_cache_is_last_success calls : ∀ c,
  buyConfigCache (run c calls) = lastConfigSuccess (buyConfigCache c) c calls.
Proof.
  induction calls as [|call calls IH]; intros c; [reflexivity|].
  cbn [run fold_left lastConfigSuccess]. fold (run (step c call) calls).
  rewrite IH. f_equal.
  destruct call as [now network | country subdivision now network];
    cbn [step].
  - rewrite fetchBuyConfig_cases.
    destruct (configFresh now c); [reflexivity|].
    by destruct (delivered (network buyConfigUrl)).
  - rewrite fetchBuyOptions_cases.
    destruct (optionsFresh _ now c); [reflexivity|].
    destruct (delivered (network _)); [|reflexivity].
    cbn [snd]. apply storeOptions_own.
Qed.

(** The response a read under a key yields is the value of the last
    successful options fetch for that key. *)
Lemma options_cache_is_last_success key calls : ∀ c,
  buyOptionsCache c !! "__proto__" = None →
  storedOptions (run c calls) key
  = lastOptionsSuccess key (storedOptions c key) c calls.
Proof.
  induction calls as [|call calls IH]; intros c Hproto; [reflexivity|].
  cbn [run fold_left lastOptionsSuccess]. fold (run (step c call) calls).
  rewrite IH by by apply step_keeps_no_own_proto. f_equal.
  destruct call as [now network | country subdivision now network];
    cbn [step].
  - rewrite fetchBuyConfig_cases.
    destruct (configFresh now c); [reflexivity|].
    by destruct (delivered (network buyConfigUrl)).
  - rewrite fetchBuyOptions_cases.
    case_bool_decide as Hkey.
    + subst key. cbn [andb].
      destruct (optionsFresh _ now c); [reflexivity|]. cbn [negb].
      destruct (delivered (network _)); [|reflexivity].
      cbn [snd]. by apply storedOptions_store_same.
    + cbn [andb].
      destruct (optionsFresh _ now c); [reflexivity|].
      destruct (delivered (network _)); [|reflexivity].
      cbn [snd]. by apply storedOptions_store_other.
Qed.

Lemma storedOptions_Some c key v :
  storedOptions c key = Some v → cachedOptions c key = Some (Options v).
Proof.
  unfold storedOptions. destruct (cachedOptions c key) as [[data|k]|]; congruence.
Qed.

(** Under a key that is not reserved a read finds what was stored, or
    nothing. *)
Lemma storedOptions_None c key :
  reservedKey key = false →
  storedOptions c key = None → cachedOptions c key = None.
Proof.
  unfold reservedKey, storedOptions, cachedOptions.
  intros [Hin Hresp]%orb_false_elim.
  destruct (buyOptionsCache c !! key); [done|].
  destruct (String.eqb_spec key "__proto__") as [->|_]; [discriminate Hin|].
  rewrite Hin, Hresp. by destruct (buyOptionsPrototype c).
Qed.

(** Before any fetch no read yields a response. *)
Lemma storedOptions_initial key : storedOptions initialCache key = None.
Proof.
  unfold storedOptions, cachedOptions.
  cbn [initialCache buyOptionsCache buyOptionsPrototype].
  rewrite lookup_empty.
  destruct (String.eqb key "__proto__"); [done|].
  by destruct (Js.inherited key).
Qed.

(** The sell-side fetchers have two endings only. *)
Lemma fetchSellConfig_cases network :
  OfframpApi.fetchSellConfig network =
    match delivered (network sellConfigUrl) with
    | Some apiData => OfframpApi.transformSellConfigResponse apiData
    | None => OfframpApi.sellConfigFallback
    end.
Proof.
  unfold OfframpApi.fetchSellConfig, sellConfigUrl, Client.fetch.
  destruct (network "/api/sell-config") as [|status [data|]];
    [reflexivity | |];
    unfold Client.ensure_ok, Client.json, delivered,
      Exc.try_catch, Exc.bind, Exc.ret, Exc.throw; cbn [fst snd];
    destruct (Js.status_ok status); reflexivity.
Qed.

Lemma fetchSellOptions_cases country subdivision network :
  OfframpApi.fetchSellOptions country subdivision network =
    match delivered (network (sellOptionsUrl country subdivision)) with
    | Some apiData => OfframpApi.transformSellOptionsResponse apiData
    | None => OfframpApi.sellOptionsFallback
    end.
Proof.
  unfold OfframpApi.fetchSellOptions, sellOptionsUrl, Client.fetch.
  destruct (network _) as [|status [data|]];
    [reflexivity | |];
    unfold Client.ensure_ok, Client.json, delivered,
      Exc.try_catch, Exc.bind, Exc.ret, Exc.throw; cbn [fst snd];
    destruct (Js.status_ok status); reflexivity.
Qed.

(** C3, as the spec states it, fails for the sell-side fetchers, which
    keep no cache.  A sell-options fetch for "GB" that succeeds with an
    empty catalog, followed by one whose upstream call is rejected: the
    second returns the static dataset, not the value of the first. *)
Lemma sell_options_failure_forgets_last_success :
  delivered
    ((λ _, Js.Responded 200
             (Some {| OfframpApi.api_cashout_currencies := [];
                      OfframpApi.api_sell_currencies := [] |}))
       (sellOptionsUrl "GB" None))
  = Some {| OfframpApi.api_cashout_currencies := [];
            OfframpApi.api_sell_currencies := [] |}
  ∧ OfframpApi.fetchSellOptions "GB" None
      (λ _, Js.Responded 200
              (Some {| OfframpApi.api_cashout_currencies := [];
                       OfframpApi.api_sell_currencies := [] |}))
    = {| OfframpApi.cashout_currencies := [];
         OfframpApi.sell_currencies := [] |}
  ∧ delivered ((λ _, @Js.Rejected OfframpApi.ApiSellOptionsResponse)
                 (sellOptionsUrl "GB" None)) = None
  ∧ OfframpApi.fetchSellOptions "GB" None (λ _, Js.Rejected)
    = OfframpApi.sellOptionsFallback
  ∧ OfframpApi.fetchSellOptions "GB" None (λ _, Js.Rejected)
    ≠ {| OfframpApi.cashout_currencies := [];
         OfframpApi.sell_currencies := [] |}.
Proof.
  split_and!; try reflexivity.
  intros H. apply (f_equal OfframpApi.sell_currencies) in H.
  rewrite fetchSellOptions_cases in H. discriminate H.
Qed.

(** C3, amended. For the buy-side fetchers, after any sequence of calls
    from the initial cache: once a config fetch has succeeded, a config
    fetch whose upstream call fails returns the value of the last
    successful one; once an options fetch for a cache key has succeeded, an
    options fetch for that key whose upstream call fails returns the value
    of the last successful one for that key.  The sell-side fetchers take
    no cache and leave none: a sell-config or sell-options fetch whose
    upstream call fails returns the static dataset, whatever was fetched
    before. *)
Theorem stale_entry_served (calls : list Call) :
  (∀ v now network,
     lastConfigSuccess None initialCache calls = Some v →
     delivered (network buyConfigUrl) = None →
     (fetchBuyConfig now network (run initialCache calls)).1 = v)
  ∧ (∀ country subdivision v now network,
       lastOptionsSuccess (cacheKey country subdivision) None initialCache calls
       = Some v →
       delivered (network (buyOptionsUrl country subdivision)) = None →
       (fetchBuyOptions country subdivision now network
          (run initialCache calls)).1 = Options v)
  ∧ (∀ network,
       delivered (network sellConfigUrl) = None →
       OfframpApi.fetchSellConfig network = OfframpApi.sellConfigFallback)
  ∧ (∀ country subdivision network,
       delivered (network (sellOptionsUrl country subdivision)) = None →
       OfframpApi.fetchSellOptions country subdivision network
       = OfframpApi.sellOptionsFallback).
Proof.
  split_and!.
  - intros v now network Hlast Hfail.
    rewrite fetchBuyConfig_failed by done.
    rewrite config_cache_is_last_success. cbn [fst initialCache buyConfigCache].
    by rewrite Hlast.
  - intros country subdivision v now network Hlast Hfail.
    rewrite fetchBuyOptions_failed by done. cbn [fst].
    erewrite storedOptions_Some; [reflexivity|].
    rewrite options_cache_is_last_success by reflexivity.
    by rewrite storedOptions_initial.
  - intros network Hfail. by rewrite fetchSellConfig_cases, Hfail.
  - intros country subdivision network Hfail.
    by rewrite fetchSellOptions_cases, Hfail.
Qed.

(** A config fetch and an options fetch for US-CA succeed at time 0; both
    are repeated after the entries have expired, against a failing
    upstream; and sell-side fetches against a failing upstream. *)
Lemma stale_entry_served_witness :
  (fetchBuyConfig 1000000 (λ _, Js.Rejected)
     (run initialCache
        [ ConfigCall 0 (λ _, Js.Responded 200 (Some {| api_countries := [] |}));
          OptionsCall "US" (Some "CA") 0
            (λ _, Js.Responded 200
                    (Some {| payment_currencies := [];
                             purchase_currencies := [] |})) ])).1
  = {| countries := [] |}
  ∧ (fetchBuyOptions "US" (Some "CA") 1000000 (λ _, Js.Responded 503 None)
       (run initialCache
          [ ConfigCall 0 (λ _, Js.Responded 200 (Some {| api_countries := [] |}));
            OptionsCall "US" (Some "CA") 0
              (λ _, Js.Responded 200
                      (Some {| payment_currencies := [];
                               purchase_currencies := [] |})) ])).1
    = Options {| paymentCurrencies := []; purchaseCurrencies := [] |}
  ∧ OfframpApi.fetchSellConfig (λ _, Js.Responded 503 None)
    = OfframpApi.sellConfigFallback
  ∧ OfframpApi.fetchSellOptions "GB" None (λ _, Js.Rejected)
    = OfframpApi.sellOptionsFallback.
Proof.
  destruct (stale_entry_served
              [ ConfigCall 0 (λ _, Js.Responded 200 (Some {| api_countries := [] |}));
                OptionsCall "US" (Some "CA") 0
                  (λ _, Js.Responded 200
                          (Some {| payment_currencies := [];
                                   purchase_currencies := [] |})) ])
    as (Hconfig & Hoptions & HsellConfig & HsellOptions).
  split_and!.
  - apply Hconfig; vm_compute; reflexivity.
  - apply Hoptions; vm_compute; reflexivity.
  - apply HsellConfig. reflexivity.
  - apply HsellOptions. reflexivity.
Defined.

(** A config or options fetch whose upstream call fails,
    when no earlier fetch (for that key) has succeeded, resolves to the
    static fallback dataset: for [fetchBuyConfig] after any sequence of
    calls from the initial cache; for [fetchBuyOptions] likewise, when the
    cache key is not a reserved one; and for the sell-side fetchers
    always.  The cache is left as it was.  The fetchers are total: every
    exception of the [try] body is taken by the handler, which returns a
    value. *)
Lemma failed_fetch_gives_fallback_for_ordinary_keys (calls : list Call) :
  (∀ now network,
     lastConfigSuccess None initialCache calls = None →
     delivered (network buyConfigUrl) = None →
     fetchBuyConfig now network (run initialCache calls)
     = (buyConfigFallback, run initialCache calls))
  ∧ (∀ country subdivision now network,
       reservedKey (cacheKey country subdivision) = false →
       lastOptionsSuccess (cacheKey country subdivision) None initialCache calls
       = None →
       delivered (network (buyOptionsUrl country subdivision)) = None →
       fetchBuyOptions country subdivision now network (run initialCache calls)
       = (Options buyOptionsFallback, run initialCache calls))
  ∧ (∀ network,
       delivered (network sellConfigUrl) = None →
       OfframpApi.fetchSellConfig network = OfframpApi.sellConfigFallback)
  ∧ (∀ country subdivision network,
       delivered (network (sellOptionsUrl country subdivision)) = None →
       OfframpApi.fetchSellOptions country subdivision network
       = OfframpApi.sellOptionsFallback).
Proof.
  split_and!.
  - intros now network Hlast Hfail.
    rewrite fetchBuyConfig_failed by done.
    rewrite config_cache_is_last_success. cbn [initialCache buyConfigCache].
    by rewrite Hlast.
  - intros country subdivision now network Hkey Hlast Hfail.
    rewrite fetchBuyOptions_failed by done.
    rewrite (storedOptions_None _ _ Hkey); [reflexivity|].
    rewrite options_cache_is_last_success by reflexivity.
    by rewrite storedOptions_initial.
  - intros network Hfail. by rewrite fetchSellConfig_cases, Hfail.
  - intros country subdivision network Hfail.
    by rewrite fetchSellOptions_cases, Hfail.
Qed.

(** C4 fails for [fetchBuyOptions] under a cache key that names a member
    of [Object.prototype].  The first options fetch for the country
    "constructor", with the upstream call rejected and nothing fetched
    before: the handler finds the inherited member under the key and
    returns it in place of the static dataset. *)
Theorem failed_fetch_returns_inherited_member :
  cacheKey "constructor" None = "constructor"
  ∧ lastOptionsSuccess (cacheKey "constructor" None) None initialCache [] = None
  ∧ delivered ((λ _, @Js.Rejected ApiBuyOptionsResponse)
                 (buyOptionsUrl "constructor" None)) = None
  ∧ fetchBuyOptions "constructor" None 0 (λ _, Js.Rejected) initialCache
    = (Inherited "constructor", initialCache)
  ∧ (fetchBuyOptions "constructor" None 0 (λ _, Js.Rejected) initialCache).1
    ≠ Options buyOptionsFallback.
Proof. split_and!; try reflexivity. intros H; discriminate H. Qed.

End CacheFacts.

(** ** RequestSigner and UpstreamClient *)

Module GatewayFacts.
Import Routes.

Section Gateway.
Context (generateJWT : string → string → string → string → option string).
Context (upstream : Request → option UpstreamResponse).
Context (JSON_parse : string → option json).

Lemma run_log (m : M Response) onThrow : (run m onThrow).2 = (m []).2.
Proof. unfold run. by destruct (m []) as [[[r|]|r] log]. Qed.

Lemma reply_log {A} body status log : (@reply A body status log).2 = log.
Proof. unfold reply. by case_match. Qed.

Lemma raise_log {A} log : (@raise A log).2 = log.
Proof. reflexivity. Qed.

Lemma credentials_inv env log :
  (∃ cred, credentials env log = (inr cred, log))
  ∨ ∃ e, credentials env log = (inl e, log).
Proof.
  unfold credentials.
  destruct (keyName env) as [name|], (keySecret env) as [secret|];
    try (right; eexists; reflexivity).
  destruct (Js.truthy name && Js.truthy secret).
  - left. by eexists.
  - right; eexists; reflexivity.
Qed.

Lemma parseBody_then_reply_log text log :
  (bind (parseBody JSON_parse text) (λ data, bind (readProperties data) (λ _, @reply Response data 200)) log).2
  = log.
Proof.
  unfold bind, parseBody, readProperties, pure, raise.
  destruct (JSON_parse text) as [data|]; [|reflexivity].
  destruct (is_null data); reflexivity.
Qed.

(** A signed call logs the request for a token and then, if a token was
    produced, the dispatch of the request built from it; what follows the
    dispatch logs nothing. *)
Lemma signed_call_effects cred p m (mkrq : string → Request)
    (tail : UpstreamResponse → M Response) log0 :
  (∀ u log, (tail u log).2 = log) →
  (bind (sign generateJWT cred p m)
     (λ tok, bind (dispatch upstream (mkrq tok)) tail) log0).2
    = (log0 ++ [JwtRequested p m])%list
  ∧ generateJWT cred.1 cred.2 p m = None
  ∨ ∃ tok, generateJWT cred.1 cred.2 p m = Some tok
           ∧ (bind (sign generateJWT cred p m)
                (λ tok, bind (dispatch upstream (mkrq tok)) tail) log0).2
             = (log0 ++ [JwtRequested p m; Dispatched (mkrq tok)])%list.
Proof.
  intros Htail. cbv [bind sign dispatch emit pure raise reply].
  destruct (generateJWT cred.1 cred.2 p m) as [tok|].
  - right. exists tok. split; [done|].
    destruct (upstream (mkrq tok)) as [u|].
    + rewrite Htail. by rewrite <- app_assoc.
    + cbn [snd]. by rewrite <- app_assoc.
  - left. split; [|done]. reflexivity.
Qed.

Lemma config_tail_log message (response : UpstreamResponse) log :
  ((if negb (Js.status_ok (status response))
    then reply (JObj [ ("error", JStr message);
                       ("details", JStr (responseText response)) ])
           (status response)
    else bind (parseBody JSON_parse (responseText response))
           (λ data, bind (readProperties data)
                      (λ _, @reply Response data 200))) log).2 = log.
Proof.
  destruct (negb _); [apply reply_log | apply parseBody_then_reply_log].
Qed.

(** What the log of a signed call tells about a dispatched request. *)
Lemma signed_call_dispatched cred p m (mkrq : string → Request)
    (tail : UpstreamResponse → M Response) log rq :
  (∀ u log, (tail u log).2 = log) →
  log = (bind (sign generateJWT cred p m)
           (λ tok, bind (dispatch upstream (mkrq tok)) tail) []).2 →
  Dispatched rq ∈ log →
  ∃ tok, rq = mkrq tok ∧ log = [JwtRequested p m; Dispatched rq].
Proof.
  intros Htail -> H.
  destruct (signed_call_effects cred p m mkrq tail [] Htail)
    as [[E _] | (tok & _ & E)]; rewrite E in H |- *; cbn [app] in *.
  - apply list_elem_of_singleton in H. discriminate H.
  - apply elem_of_cons in H as [H|H]; [discriminate H|].
    apply list_elem_of_singleton in H. injection H as ->. by exists tok.
Qed.

Lemma GET_buyConfig_log env rq :
  Dispatched rq ∈ (GET_buyConfig generateJWT upstream JSON_parse env).2 →
  (GET_buyConfig generateJWT upstream JSON_parse env).2
  = [JwtRequested "/onramp/v1/buy/config" "GET"; Dispatched rq]
  ∧ url rq = "https://api.developer.coinbase.com/onramp/v1/buy/config"
  ∧ method rq = "GET".
Proof.
  remember (GET_buyConfig generateJWT upstream JSON_parse env).2 as log eqn:Hlog.
  unfold GET_buyConfig in Hlog. rewrite run_log in Hlog.
  unfold bind at 1 in Hlog.
  destruct (credentials_inv env []) as [[cred Hc] | [e Hc]];
    rewrite Hc in Hlog; cbn zeta in Hlog;
    [|subst log; intros H; by apply elem_of_nil in H].
  intros H.
  eapply signed_call_dispatched in Hlog as (tok & -> & ->);
    [| apply (config_tail_log "Failed to fetch buy config") | exact H].
  split_and!; reflexivity.
Qed.

Lemma GET_sellConfig_log env rq :
  Dispatched rq ∈ (GET_sellConfig generateJWT upstream JSON_parse env).2 →
  (GET_sellConfig generateJWT upstream JSON_parse env).2
  = [JwtRequested "/onramp/v1/sell/config" "GET"; Dispatched rq]
  ∧ url rq = "https://api.developer.coinbase.com/onramp/v1/sell/config"
  ∧ method rq = "GET".
Proof.
  remember (GET_sellConfig generateJWT upstream JSON_parse env).2 as log eqn:Hlog.
  unfold GET_sellConfig in Hlog. rewrite run_log in Hlog.
  unfold bind at 1 in Hlog.
  destruct (credentials_inv env []) as [[cred Hc] | [e Hc]];
    rewrite Hc in Hlog; cbn zeta in Hlog;
    [|subst log; intros H; by apply elem_of_nil in H].
  intros H.
  eapply signed_call_dispatched in Hlog as (tok & -> & ->);
    [| apply (config_tail_log "Failed to fetch sell config") | exact H].
  split_and!; reflexivity.
Qed.

Lemma GET_sellOptions_log env call rq :
  Dispatched rq ∈ (GET_sellOptions generateJWT upstream JSON_parse env call).2 →
  (GET_sellOptions generateJWT upstream JSON_parse env call).2
  = [JwtRequested "/onramp/v1/sell/options" "GET"; Dispatched rq]
  ∧ (∃ countryCode,
       q_country call = Some countryCode
       ∧ url rq = "https://api.developer.coinbase.com/onramp/v1/sell/options?"
                    +:+ Js.URLSearchParams_toString
                          (sellOptionsQuery countryCode call))
  ∧ method rq = "GET".
Proof.
  remember (GET_sellOptions generateJWT upstream JSON_parse env call).2
    as log eqn:Hlog.
  unfold GET_sellOptions in Hlog. rewrite run_log in Hlog.
  destruct (q_country call) as [countryCode|];
    [|subst log; intros H; by apply elem_of_nil in H].
  destruct (negb (Js.truthy countryCode));
    [subst log; intros H; by apply elem_of_nil in H|].
  unfold bind at 1 in Hlog.
  destruct (credentials_inv env []) as [[cred Hc] | [e Hc]];
    rewrite Hc in Hlog; cbn zeta in Hlog;
    [|subst log; intros H; by apply elem_of_nil in H].
  intros H.
  eapply signed_call_dispatched in Hlog as (tok & -> & ->);
    [| apply (config_tail_log "Failed to fetch sell options") | exact H].
  split_and!; [reflexivity | by exists countryCode | reflexivity].
Qed.

Lemma quote_tail_log env (response : UpstreamResponse) log :
  ((if negb (Js.status_ok (status response))
    then reply (quoteRejection JSON_parse env response) (status response)
    else bind (parseBody JSON_parse (responseText response))
           (λ data, bind (readProperties data)
                      (λ _, @reply Response data 200))) log).2 = log.
Proof.
  destruct (negb _); [apply reply_log | apply parseBody_then_reply_log].
Qed.

Lemma POST_sellQuote_log env call rq :
  Dispatched rq ∈ (POST_sellQuote generateJWT upstream JSON_parse env call).2 →
  (POST_sellQuote generateJWT upstream JSON_parse env call).2
  = [JwtRequested "/onramp/v1/sell/quote" "POST"; Dispatched rq]
  ∧ url rq = "https://api.developer.coinbase.com/onramp/v1/sell/quote"
  ∧ method rq = "POST"
  ∧ ∃ b, quote_body call = Some b ∧ missingRequired b = false
         ∧ body rq = Some (quoteRequestBody b (resolveClientIp call)).
Proof.
  remember (POST_sellQuote generateJWT upstream JSON_parse env call).2
    as log eqn:Hlog.
  unfold POST_sellQuote in Hlog. rewrite run_log in Hlog.
  unfold bind at 1 in Hlog.
  destruct (credentials_inv env []) as [[cred Hc] | [e Hc]];
    rewrite Hc in Hlog; cbn zeta in Hlog;
    [|subst log; intros H; by apply elem_of_nil in H].
  destruct (quote_body call) as [b|];
    [|subst log; intros H; by apply elem_of_nil in H].
  destruct (missingRequired b) eqn:Hmiss;
    [subst log; intros H; by apply elem_of_nil in H|].
  intros H.
  eapply signed_call_dispatched in Hlog as (tok & -> & ->);
    [| apply (quote_tail_log env) | exact H].
  split_and!; try reflexivity. by exists b.
Qed.

Example sellOptions_url :
  Js.URLSearchParams_toString
    (sellOptionsQuery "US"
       {| q_country := Some "US"; q_subdivision := Some "NY";
          q_networks := Some "ethereum,polygon" |})
  = "country=US&subdivision=NY&networks=ethereum%2Cpolygon".
Proof. reflexivity. Qed.

Example forwarded_client_ip :
  resolveClientIp {| quote_body := None;
                     x_forwarded_for := Some " 203.0.113.7 , 10.0.0.1";
                     x_real_ip := None; request_ip := Some "10.0.0.2" |}
  = "203.0.113.7"
  ∧ resolveClientIp {| quote_body := None; x_forwarded_for := None;
                       x_real_ip := Some "172.20.1.1";
                       request_ip := None |}
    = "192.0.2.1"
  ∧ trim (String (ascii_of_N 194) (String (ascii_of_N 160) "10.0.0.1")
            +:+ String (ascii_of_N 226)
                  (String (ascii_of_N 128) (String (ascii_of_N 168) "")))
    = "10.0.0.1".
Proof. split_and!; reflexivity. Qed.

(** C5. In each of the four routes, a request is dispatched upstream only
    right after a token was requested for it, for the method of the
    request and for a path that is the path component of the dispatched
    URL and holds no query string; this includes the sell-options route,
    whose dispatched URL carries the query parameters. *)
Theorem jwt_path_is_dispatched_path env (ocall : OptionsCall) (qcall : QuoteCall)
    (log : list Effect) (rq : Request) :
  log ∈ [ (GET_buyConfig generateJWT upstream JSON_parse env).2;
          (GET_sellConfig generateJWT upstream JSON_parse env).2;
          (GET_sellOptions generateJWT upstream JSON_parse env ocall).2;
          (POST_sellQuote generateJWT upstream JSON_parse env qcall).2 ] →
  Dispatched rq ∈ log →
  ∃ p, log = [JwtRequested p (method rq); Dispatched rq]
       ∧ Url.path (url rq) = Some p
       ∧ Url.has_query_mark p = false.
Proof.
  intros Hlog Hrq.
  repeat (apply elem_of_cons in Hlog as [-> | Hlog]).
  - apply GET_buyConfig_log in Hrq as (-> & -> & ->). by eexists.
  - apply GET_sellConfig_log in Hrq as (-> & -> & ->). by eexists.
  - apply GET_sellOptions_log in Hrq as (-> & (c & _ & ->) & ->). by eexists.
  - apply POST_sellQuote_log in Hrq as (-> & -> & -> & _). by eexists.
  - by apply elem_of_nil in Hlog.
Qed.

Lemma falsy_false v :
  Js.falsy v = false → ∃ s, v = Some s ∧ Js.truthy s = true.
Proof.
  destruct v as [s|]; [|done]. simpl. intros H%negb_false_iff. eauto.
Qed.

Lemma credentials_ok env log :
  Js.falsy (keyName env) = false → Js.falsy (keySecret env) = false →
  ∃ cred, credentials env log = (inr cred, log).
Proof.
  intros (name & Hn & Tn)%falsy_false (secret & Hs & Ts)%falsy_false.
  exists (name, secret). unfold credentials. by rewrite Hn, Hs, Tn, Ts.
Qed.

Lemma rejection_status_not_ok s : 400 ≤ s ≤ 599 → Js.status_ok s = false.
Proof. intros H. unfold Js.status_ok. apply andb_false_iff. right. lia. Qed.

Lemma reply_rejection {A} body s log :
  400 ≤ s ≤ 599 →
  @reply A body s log = (inl (Return {| resp_status := s; resp_body := body |}), log).
Proof.
  intros H. unfold reply.
  replace (s <? 200) with false by lia. replace (599 <? s) with false by lia.
  replace (null_body_status s) with false; [done|].
  symmetry. apply bool_decide_eq_false. set_unfold. lia.
Qed.

Lemma reply_500 {A} body log :
  @reply A body 500 log
  = (inl (Return {| resp_status := 500; resp_body := body |}), log).
Proof. reflexivity. Qed.

Lemma reply_200 {A} body log :
  @reply A body 200 log
  = (inl (Return {| resp_status := 200; resp_body := body |}), log).
Proof. reflexivity. Qed.

(** C7, amended. When the upstream answers a config, options or quote
    request with a 4xx or 5xx status, the route answers with that status
    and with the one error message it has for every such status, 401 and
    403 included.  The config and options routes pass the upstream text in
    [details]; the sell-quote route, outside development mode, sets
    [details] to an authentication notice for 401 alone and leaves it out
    for every other status, 403 included.  The client-side fetchers do
    not look at which status it is: for every status that is not OK, 401
    and 403 included, the buy-side fetchers resolve to what the cache
    holds (the static dataset when it holds nothing) and the sell-side
    fetchers to the static dataset, and the cache is left as it was. *)
Theorem upstream_rejection_passed_through env (ocall : OptionsCall)
    (qcall : QuoteCall) (c : string) (b : SellQuoteRequest) (tok : string)
    (u : UpstreamResponse) :
  Js.falsy (keyName env) = false →
  Js.falsy (keySecret env) = false →
  (∀ name secret p m, generateJWT name secret p m = Some tok) →
  (∀ rq, upstream rq = Some u) →
  400 ≤ status u ≤ 599 →
  q_country ocall = Some c → Js.truthy c = true →
  quote_body qcall = Some b → missingRequired b = false →
  (GET_buyConfig generateJWT upstream JSON_parse env).1
  = {| resp_status := status u;
       resp_body := JObj [ ("error", JStr "Failed to fetch buy config");
                           ("details", JStr (responseText u)) ] |}
  ∧ (GET_sellConfig generateJWT upstream JSON_parse env).1
    = {| resp_status := status u;
         resp_body := JObj [ ("error", JStr "Failed to fetch sell config");
                             ("details", JStr (responseText u)) ] |}
  ∧ (GET_sellOptions generateJWT upstream JSON_parse env ocall).1
    = {| resp_status := status u;
         resp_body := JObj [ ("error", JStr "Failed to fetch sell options");
                             ("details", JStr (responseText u)) ] |}
  ∧ (POST_sellQuote generateJWT upstream JSON_parse env qcall).1
    = {| resp_status := status u;
         resp_body := quoteRejection JSON_parse env u |}
  ∧ field "error" (quoteRejection JSON_parse env u)
    = Some (JStr "Failed to generate sell quote")
  ∧ (NODE_ENV env ≠ Some "development" →
     field "details" (quoteRejection JSON_parse env u)
     = if status u =? 401
       then Some (JStr "Authentication failed - check API credentials")
       else None)
  ∧ (∀ s, Js.status_ok s = false →
       (∀ now cache answer,
          OnrampApi.fetchBuyConfig now (λ _, Js.Responded s answer) cache
          = (default OnrampApi.buyConfigFallback
               (OnrampApi.buyConfigCache cache), cache))
       ∧ (∀ country subdivision now cache answer,
            OnrampApi.fetchBuyOptions country subdivision now
              (λ _, Js.Responded s answer) cache
            = (default (OnrampApi.Options OnrampApi.buyOptionsFallback)
                 (OnrampApi.cachedOptions cache
                    (OnrampApi.cacheKey country subdivision)), cache))
       ∧ (∀ answer,
            OfframpApi.fetchSellConfig (λ _, Js.Responded s answer)
            = OfframpApi.sellConfigFallback)
       ∧ (∀ country subdivision answer,
            OfframpApi.fetchSellOptions country subdivision
              (λ _, Js.Responded s answer)
            = OfframpApi.sellOptionsFallback)).
Proof.
  intros Hk Hs Hjwt Hup Hu Hc Tc Hb Hm.
  pose proof (rejection_status_not_ok _ Hu) as Hnok.
  destruct (credentials_ok env [] Hk Hs) as [cred Hcred].
  split_and!; [| | | | | |
    intros s Hnot;
    assert (∀ A (answer : option A),
              CacheRuns.delivered (Js.Responded s answer) = None) as Hfail
      by (intros A [a|]; unfold CacheRuns.delivered; by rewrite ?Hnot);
    split_and!; intros;
      [ by apply CacheFacts.fetchBuyConfig_failed
      | by apply CacheFacts.fetchBuyOptions_failed
      | by rewrite CacheFacts.fetchSellConfig_cases, Hfail
      | by rewrite CacheFacts.fetchSellOptions_cases, Hfail ]].
  - unfold GET_buyConfig. cbv [run bind sign dispatch emit pure raise].
    rewrite Hcred, Hjwt, Hup, Hnok. cbn [negb].
    by rewrite reply_rejection.
  - unfold GET_sellConfig. cbv [run bind sign dispatch emit pure raise].
    rewrite Hcred, Hjwt, Hup, Hnok. cbn [negb].
    by rewrite reply_rejection.
  - unfold GET_sellOptions. rewrite Hc, Tc.
    cbv [run bind sign dispatch emit pure raise negb].
    rewrite Hcred, Hjwt, Hup, Hnok.
    by rewrite reply_rejection.
  - unfold POST_sellQuote. cbv [run bind sign dispatch emit pure raise].
    rewrite Hcred, Hb, Hm, Hjwt, Hup, Hnok. cbn [negb].
    by rewrite reply_rejection.
  - unfold quoteRejection. by case_bool_decide.
  - intros Hdev. unfold quoteRejection.
    rewrite bool_decide_eq_false_2 by done.
    by destruct (status u =? 401).
Qed.

Lemma absent_is_falsy v : v = None → falsy_value v = true.
Proof. by intros ->. Qed.

(** An absent required field fails the required-field test. *)
Lemma missingRequired_absent b :
  sellCurrency b = None ∨ sellAmount b = None ∨ cashoutCurrency b = None
  ∨ paymentMethod b = None ∨ country b = None ∨ sourceAddress b = None
  ∨ redirectUrl b = None ∨ partnerUserId b = None →
  missingRequired b = true.
Proof.
  unfold missingRequired.
  intros [H|[H|[H|[H|[H|[H|[H|H]]]]]]]; apply absent_is_falsy in H;
    rewrite H; rewrite ?orb_true_r; reflexivity.
Qed.

(** The test looks at the eight required fields only. *)
Lemma missingRequired_present b :
  falsy_value (sellCurrency b) = false → falsy_value (sellAmount b) = false →
  falsy_value (cashoutCurrency b) = false →
  falsy_value (paymentMethod b) = false →
  falsy_value (country b) = false → falsy_value (sourceAddress b) = false →
  falsy_value (redirectUrl b) = false → falsy_value (partnerUserId b) = false →
  missingRequired b = false.
Proof. unfold missingRequired. by intros -> -> -> -> -> -> -> ->. Qed.

Lemma missingRequired_inv b :
  missingRequired b = false →
  falsy_value (sellCurrency b) = false ∧ falsy_value (sellAmount b) = false
  ∧ falsy_value (cashoutCurrency b) = false
  ∧ falsy_value (paymentMethod b) = false
  ∧ falsy_value (country b) = false ∧ falsy_value (sourceAddress b) = false
  ∧ falsy_value (redirectUrl b) = false
  ∧ falsy_value (partnerUserId b) = false.
Proof.
  unfold missingRequired. intros H.
  repeat (apply orb_false_elim in H as [H ?]). by split_and!.
Qed.

Lemma falsy_value_false v :
  falsy_value v = false → ∃ j, v = Some j ∧ truthy j = true.
Proof.
  destruct v as [j|]; [|done]. simpl. intros H%negb_false_iff. eauto.
Qed.

(** Reading a property of an object literal: a property of another name
    is skipped, whatever its value. *)
Lemma field_object_skip k k' v l :
  String.eqb k' k = false →
  field k (object ((k', v) :: l)) = field k (object l).
Proof.
  intros H. unfold field, object.
  destruct v as [j|]; simpl; [|done]. by rewrite H.
Qed.

Lemma field_object_here k v l :
  field k (object ((k, v) :: l))
  = match v with Some j => Some j | None => field k (object l) end.
Proof.
  unfold field, object.
  destruct v as [j|]; simpl; [|done]. by rewrite String.eqb_refl.
Qed.

Lemma quoteRejection_error env u :
  quoteRejection JSON_parse env u
  ≠ JObj [("error", JStr "Missing required fields")].
Proof.
  unfold quoteRejection. case_bool_decide; unfold object; cbn [omap];
    intros Heq; discriminate Heq.
Qed.

(** Once the required fields are there, the route never answers
    "Missing required fields". *)
Lemma POST_sellQuote_not_rejected env call b :
  Js.falsy (keyName env) = false → Js.falsy (keySecret env) = false →
  quote_body call = Some b → missingRequired b = false →
  (POST_sellQuote generateJWT upstream JSON_parse env call).1
  ≠ {| resp_status := 400;
       resp_body := JObj [("error", JStr "Missing required fields")] |}
  ∧ ∃ rest, (POST_sellQuote generateJWT upstream JSON_parse env call).2
            = JwtRequested "/onramp/v1/sell/quote" "POST" :: rest.
Proof.
  intros Hk Hs Hb Hm.
  destruct (credentials_ok env [] Hk Hs) as [cred Hcred].
  unfold POST_sellQuote.
  cbv [run bind sign dispatch emit pure raise parseBody readProperties failure].
  rewrite Hcred, Hb, Hm.
  destruct (generateJWT _ _ _ _) as [tok|].
  2:{ rewrite reply_500. split; [intros Heq; discriminate Heq | by eexists]. }
  destruct (upstream _) as [u|];
    [|split; [intros Heq; discriminate Heq | by eexists]].
  destruct (negb (Js.status_ok (status u))).
  - unfold reply.
    destruct ((status u <? 200) || (599 <? status u)
              || null_body_status (status u));
      (split; [|by eexists]); [intros Heq; discriminate Heq|].
    cbn [fst]. intros Heq. injection Heq as _ Heq.
    by apply quoteRejection_error in Heq.
  - destruct (JSON_parse (responseText u)) as [data|];
      [destruct (is_null data); [|rewrite reply_200] | rewrite reply_500];
      (split; [intros Heq; discriminate Heq | by eexists]).
Qed.

Lemma quoteRequestBody_optional b ip :
  field "sellNetwork" (quoteRequestBody b ip)
  = (if falsy_value (sellNetwork b) then None else sellNetwork b)
  ∧ field "subdivision" (quoteRequestBody b ip)
    = (if falsy_value (subdivision b) then None else subdivision b).
Proof.
  unfold quoteRequestBody.
  rewrite !field_object_skip by reflexivity.
  split.
  - rewrite field_object_here. unfold optionalField, falsy_value.
    destruct (sellNetwork b) as [j|].
    + destruct (truthy j); [done|].
      rewrite field_object_skip by reflexivity. reflexivity.
    + rewrite field_object_skip by reflexivity. reflexivity.
  - rewrite ?field_object_skip by reflexivity.
    rewrite field_object_here. unfold optionalField, falsy_value.
    destruct (subdivision b) as [j|]; [by destruct (truthy j) | done].
Qed.

(** With the eight required fields truthy, the body sent upstream holds
    each of them as it came, and the resolved client address. *)
Lemma quoteRequestBody_required b ip :
  missingRequired b = false →
  field "clientIp" (quoteRequestBody b ip) = Some (JStr ip)
  ∧ Forall (λ kv : string * option json,
              ∃ j, kv.2 = Some j ∧ truthy j = true
                   ∧ field kv.1 (quoteRequestBody b ip) = Some j)
      [ ("sellCurrency", sellCurrency b); ("sellAmount", sellAmount b);
        ("cashoutCurrency", cashoutCurrency b);
        ("paymentMethod", paymentMethod b); ("country", country b);
        ("sourceAddress", sourceAddress b); ("redirectUrl", redirectUrl b);
        ("partnerUserId", partnerUserId b) ].
Proof.
  intros (H1 & H2 & H3 & H4 & H5 & H6 & H7 & H8)%missingRequired_inv.
  apply falsy_value_false in H1 as (j1 & E1 & T1).
  apply falsy_value_false in H2 as (j2 & E2 & T2).
  apply falsy_value_false in H3 as (j3 & E3 & T3).
  apply falsy_value_false in H4 as (j4 & E4 & T4).
  apply falsy_value_false in H5 as (j5 & E5 & T5).
  apply falsy_value_false in H6 as (j6 & E6 & T6).
  apply falsy_value_false in H7 as (j7 & E7 & T7).
  apply falsy_value_false in H8 as (j8 & E8 & T8).
  unfold quoteRequestBody. rewrite E1, E2, E3, E4, E5, E6, E7, E8.
  split; [reflexivity|].
  repeat constructor; cbn [fst snd]; eexists; (split; [reflexivity|]);
    (split; [eassumption | reflexivity]).
Qed.

(** C10. With credentials configured: a request whose body does not
    parse, or parses to a value that cannot be destructured, is answered
    500 "Failed to generate sell quote", with no token requested and
    nothing dispatched.  For a body that was destructured: when any of the
    eight required fields is absent the route answers 400 "Missing required
    fields" and has requested no token and dispatched nothing; when the
    eight are present (truthy) the route does not answer so, whatever
    [sellNetwork] and [subdivision] are, and goes on to request the token;
    a field among these two that is absent (or falsy) is left out of the
    body of the dispatched request, and one that is present is passed on
    as it came. *)
Theorem sell_quote_required_fields env (call : QuoteCall) :
  Js.falsy (keyName env) = false →
  Js.falsy (keySecret env) = false →
  (quote_body call = None →
   POST_sellQuote generateJWT upstream JSON_parse env call
   = (failure "Failed to generate sell quote", []))
  ∧ ∀ b : SellQuoteRequest,
      quote_body call = Some b →
      (sellCurrency b = None ∨ sellAmount b = None ∨ cashoutCurrency b = None
       ∨ paymentMethod b = None ∨ country b = None ∨ sourceAddress b = None
       ∨ redirectUrl b = None ∨ partnerUserId b = None →
       POST_sellQuote generateJWT upstream JSON_parse env call
       = ({| resp_status := 400;
             resp_body := JObj [("error", JStr "Missing required fields")] |},
          []))
      ∧ (falsy_value (sellCurrency b) = false →
         falsy_value (sellAmount b) = false →
         falsy_value (cashoutCurrency b) = false →
         falsy_value (paymentMethod b) = false →
         falsy_value (country b) = false →
         falsy_value (sourceAddress b) = false →
         falsy_value (redirectUrl b) = false →
         falsy_value (partnerUserId b) = false →
         (POST_sellQuote generateJWT upstream JSON_parse env call).1
         ≠ {| resp_status := 400;
              resp_body := JObj [("error", JStr "Missing required fields")] |}
         ∧ (∃ rest, (POST_sellQuote generateJWT upstream JSON_parse env call).2
                    = JwtRequested "/onramp/v1/sell/quote" "POST" :: rest)
         ∧ ∀ rq,
             Dispatched rq
               ∈ (POST_sellQuote generateJWT upstream JSON_parse env call).2 →
             ∃ sent, body rq = Some sent
               ∧ field "sellNetwork" sent
                 = (if falsy_value (sellNetwork b) then None
                    else sellNetwork b)
               ∧ field "subdivision" sent
                 = (if falsy_value (subdivision b) then None
                    else subdivision b)).
Proof.
  intros Hk Hs.
  destruct (credentials_ok env [] Hk Hs) as [cred Hcred].
  split.
  - intros Hb. unfold POST_sellQuote. cbv [run bind raise].
    by rewrite Hcred, Hb.
  - intros b Hb. split.
    + intros Habsent%missingRequired_absent.
      unfold POST_sellQuote. cbv [run bind]. by rewrite Hcred, Hb, Habsent.
    + intros H1 H2 H3 H4 H5 H6 H7 H8.
      pose proof (missingRequired_present b H1 H2 H3 H4 H5 H6 H7 H8) as Hm.
      destruct (POST_sellQuote_not_rejected env call b Hk Hs Hb Hm)
        as [Hne Hjwt].
      split_and!; [done | done |].
      intros rq (_ & _ & _ & b' & Hb' & _ & Hbody)%POST_sellQuote_log.
      rewrite Hb in Hb'. injection Hb' as <-.
      eexists. split; [exact Hbody|]. apply quoteRequestBody_optional.
Qed.

End Gateway.

(** C10, as the claim states it, fails.  With credentials configured, a
    request whose body is empty (so that [request.json()] rejects) holds
    none of the required fields, and the route answers it 500 "Failed to
    generate sell quote", not 400 "Missing required fields". *)
Lemma unparsed_quote_body_is_not_answered_400 :
  POST_sellQuote (λ _ _ _ _, Some "t")
    (λ _, Some {| status := 200; statusText := "OK"; responseText := "{}" |})
    (λ _, Some (JObj []))
    {| CDP_API_KEY := Some "key"; CDP_API_KEY_NAME := None;
       CDP_API_SECRET := Some "secret"; CDP_API_KEY_PRIVATE_KEY := None;
       NODE_ENV := None |}
    {| quote_body := None; x_forwarded_for := None; x_real_ip := None;
       request_ip := None |}
  = ({| resp_status := 500;
        resp_body := JObj [("error", JStr "Failed to generate sell quote")] |},
     [])
  ∧ POST_sellQuote (λ _ _ _ _, Some "t")
      (λ _, Some {| status := 200; statusText := "OK"; responseText := "{}" |})
      (λ _, Some (JObj []))
      {| CDP_API_KEY := Some "key"; CDP_API_KEY_NAME := None;
         CDP_API_SECRET := Some "secret"; CDP_API_KEY_PRIVATE_KEY := None;
         NODE_ENV := None |}
      {| quote_body := None; x_forwarded_for := None; x_real_ip := None;
         request_ip := None |}
    ≠ ({| resp_status := 400;
          resp_body := JObj [("error", JStr "Missing required fields")] |},
       []).
Proof. split; [reflexivity | intros H; discriminate H]. Qed.

(** A sell-options request for US-NY with working collaborators: the
    dispatched URL carries the query, the signed path does not. *)
Lemma jwt_path_is_dispatched_path_witness :
  ∃ p,
    [ JwtRequested "/onramp/v1/sell/options" "GET";
      Dispatched
        {| url := "https://api.developer.coinbase.com/onramp/v1/sell/options?country=US&subdivision=NY";
           method := "GET";
           headers := [ ("Accept", "application/json");
                        ("Authorization", "Bearer t") ];
           body := None |} ]
    = [ JwtRequested p "GET";
        Dispatched
          {| url := "https://api.developer.coinbase.com/onramp/v1/sell/options?country=US&subdivision=NY";
             method := "GET";
             headers := [ ("Accept", "application/json");
                          ("Authorization", "Bearer t") ];
             body := None |} ]
    ∧ Url.path "https://api.developer.coinbase.com/onramp/v1/sell/options?country=US&subdivision=NY"
      = Some p
    ∧ Url.has_query_mark p = false.
Proof.
  apply (jwt_path_is_dispatched_path
           (λ _ _ _ _, Some "t")
           (λ _, Some {| status := 200; statusText := "OK"; responseText := "{}" |})
           (λ _, Some (JObj []))
           {| CDP_API_KEY := Some "key"; CDP_API_KEY_NAME := None;
              CDP_API_SECRET := Some "secret"; CDP_API_KEY_PRIVATE_KEY := None;
              NODE_ENV := None |}
           {| q_country := Some "US"; q_subdivision := Some "NY";
              q_networks := None |}
           {| quote_body := None; x_forwarded_for := None;
              x_real_ip := None; request_ip := None |}
           [ JwtRequested "/onramp/v1/sell/options" "GET";
             Dispatched
               {| url := "https://api.developer.coinbase.com/onramp/v1/sell/options?country=US&subdivision=NY";
                  method := "GET";
                  headers := [ ("Accept", "application/json");
                               ("Authorization", "Bearer t") ];
                  body := None |} ]
           {| url := "https://api.developer.coinbase.com/onramp/v1/sell/options?country=US&subdivision=NY";
              method := "GET";
              headers := [ ("Accept", "application/json");
                           ("Authorization", "Bearer t") ];
              body := None |}).
  - vm_compute. do 2 right. left.
  - vm_compute. right. left.
Defined.

(** C7, as the spec states it, fails.  With working credentials and
    signer, the sell-config route answers an upstream 401 and an upstream
    500 of the same text with the same body, and the production sell-quote
    route answers a 403 like a 500; the client-side fetchers resolve a 401,
    a 403 and a 5xx to one and the same value. *)
Lemma authentication_failure_not_distinct :
  resp_body
    (GET_sellConfig (λ _ _ _ _, Some "t")
       (λ _, Some {| status := 401; statusText := "Unauthorized";
                     responseText := "denied" |})
       (λ _, None)
       {| CDP_API_KEY := Some "key"; CDP_API_KEY_NAME := None;
          CDP_API_SECRET := Some "secret"; CDP_API_KEY_PRIVATE_KEY := None;
          NODE_ENV := Some "production" |}).1
  = resp_body
      (GET_sellConfig (λ _ _ _ _, Some "t")
         (λ _, Some {| status := 500; statusText := "Internal Server Error";
                       responseText := "denied" |})
         (λ _, None)
         {| CDP_API_KEY := Some "key"; CDP_API_KEY_NAME := None;
            CDP_API_SECRET := Some "secret"; CDP_API_KEY_PRIVATE_KEY := None;
            NODE_ENV := Some "production" |}).1
  ∧ resp_body
      (POST_sellQuote (λ _ _ _ _, Some "t")
         (λ _, Some {| status := 403; statusText := "Forbidden";
                       responseText := "denied" |})
         (λ _, None)
         {| CDP_API_KEY := Some "key"; CDP_API_KEY_NAME := None;
            CDP_API_SECRET := Some "secret"; CDP_API_KEY_PRIVATE_KEY := None;
            NODE_ENV := Some "production" |}
         {| quote_body :=
              Some {| sellCurrency := Some (JStr "USDC"); sellAmount := Some (JStr "10");
                      sellNetwork := Some (JStr "base"); cashoutCurrency := Some (JStr "USD");
                      paymentMethod := Some (JStr "ACH_BANK_ACCOUNT");
                      country := Some (JStr "US"); subdivision := Some (JStr "CA");
                      sourceAddress := Some (JStr "0xabc");
                      redirectUrl := Some (JStr "https://example.com/offramp");
                      partnerUserId := Some (JStr "user-1") |};
            x_forwarded_for := None; x_real_ip := None;
            request_ip := None |}).1
    = resp_body
        (POST_sellQuote (λ _ _ _ _, Some "t")
           (λ _, Some {| status := 500; statusText := "Internal Server Error";
                         responseText := "denied" |})
           (λ _, None)
           {| CDP_API_KEY := Some "key"; CDP_API_KEY_NAME := None;
              CDP_API_SECRET := Some "secret"; CDP_API_KEY_PRIVATE_KEY := None;
              NODE_ENV := Some "production" |}
           {| quote_body :=
                Some {| sellCurrency := Some (JStr "USDC"); sellAmount := Some (JStr "10");
                        sellNetwork := Some (JStr "base"); cashoutCurrency := Some (JStr "USD");
                        paymentMethod := Some (JStr "ACH_BANK_ACCOUNT");
                        country := Some (JStr "US"); subdivision := Some (JStr "CA");
                        sourceAddress := Some (JStr "0xabc");
                        redirectUrl := Some (JStr "https://example.com/offramp");
                        partnerUserId := Some (JStr "user-1") |};
              x_forwarded_for := None; x_real_ip := None;
              request_ip := None |}).1
  ∧ OfframpApi.fetchSellConfig (λ _, Js.Responded 401 None)
    = OfframpApi.fetchSellConfig (λ _, Js.Responded 500 None)
  ∧ OnrampApi.fetchBuyOptions "US" (Some "CA") 0 (λ _, Js.Responded 403 None)
      OnrampApi.initialCache
    = OnrampApi.fetchBuyOptions "US" (Some "CA") 0 (λ _, Js.Responded 502 None)
        OnrampApi.initialCache.
Proof. split_and!; vm_compute; reflexivity. Qed.

(** An upstream 403 to each route, in production mode. *)
Lemma upstream_rejection_passed_through_witness :
  (GET_sellConfig (λ _ _ _ _, Some "t")
     (λ _, Some {| status := 403; statusText := "Forbidden";
                   responseText := "denied" |})
     (λ _, None)
     {| CDP_API_KEY := Some "key"; CDP_API_KEY_NAME := None;
        CDP_API_SECRET := Some "secret"; CDP_API_KEY_PRIVATE_KEY := None;
        NODE_ENV := Some "production" |}).1
  = {| resp_status := 403;
       resp_body := JObj [ ("error", JStr "Failed to fetch sell config");
                           ("details", JStr "denied") ] |}
  ∧ field "details"
      (quoteRejection (λ _, None)
         {| CDP_API_KEY := Some "key"; CDP_API_KEY_NAME := None;
            CDP_API_SECRET := Some "secret"; CDP_API_KEY_PRIVATE_KEY := None;
            NODE_ENV := Some "production" |}
         {| status := 403; statusText := "Forbidden";
            responseText := "denied" |})
    = None
  ∧ OfframpApi.fetchSellConfig (λ _, Js.Responded 403 None)
    = OfframpApi.sellConfigFallback.
Proof.
  destruct (upstream_rejection_passed_through
              (λ _ _ _ _, Some "t")
              (λ _, Some {| status := 403; statusText := "Forbidden";
                            responseText := "denied" |})
              (λ _, None)
              {| CDP_API_KEY := Some "key"; CDP_API_KEY_NAME := None;
                 CDP_API_SECRET := Some "secret";
                 CDP_API_KEY_PRIVATE_KEY := None;
                 NODE_ENV := Some "production" |}
              {| q_country := Some "US"; q_subdivision := None;
                 q_networks := None |}
              {| quote_body :=
                   Some {| sellCurrency := Some (JStr "USDC"); sellAmount := Some (JStr "10");
                           sellNetwork := None; cashoutCurrency := Some (JStr "USD");
                           paymentMethod := Some (JStr "ACH_BANK_ACCOUNT");
                           country := Some (JStr "US"); subdivision := None;
                           sourceAddress := Some (JStr "0xabc");
                           redirectUrl := Some (JStr "https://example.com/offramp");
                           partnerUserId := Some (JStr "user-1") |};
                 x_forwarded_for := None; x_real_ip := None;
                 request_ip := None |}
              "US"
              {| sellCurrency := Some (JStr "USDC"); sellAmount := Some (JStr "10");
                 sellNetwork := None; cashoutCurrency := Some (JStr "USD");
                 paymentMethod := Some (JStr "ACH_BANK_ACCOUNT");
                 country := Some (JStr "US"); subdivision := None;
                 sourceAddress := Some (JStr "0xabc");
                 redirectUrl := Some (JStr "https://example.com/offramp");
                 partnerUserId := Some (JStr "user-1") |}
              "t"
              {| status := 403; statusText := "Forbidden";
                 responseText := "denied" |})
    as (_ & Hconfig & _ & _ & _ & Hdetails & Hclient);
    try reflexivity; try (simpl; lia).
  split_and!; [exact Hconfig | apply Hdetails; discriminate |].
  destruct (Hclient 403) as (_ & _ & HsellConfig & _); [reflexivity|].
  apply HsellConfig.
Defined.

(** A request without [redirectUrl], a complete request that leaves out
    [sellNetwork] and [subdivision], and a request whose body does not
    parse. *)
Lemma sell_quote_required_fields_witness :
  POST_sellQuote (λ _ _ _ _, Some "t")
    (λ _, Some {| status := 200; statusText := "OK"; responseText := "{}" |})
    (λ _, Some (JObj []))
    {| CDP_API_KEY := Some "key"; CDP_API_KEY_NAME := None;
       CDP_API_SECRET := Some "secret"; CDP_API_KEY_PRIVATE_KEY := None;
       NODE_ENV := None |}
    {| quote_body :=
         Some {| sellCurrency := Some (JStr "USDC"); sellAmount := Some (JStr "10");
                 sellNetwork := Some (JStr "base"); cashoutCurrency := Some (JStr "USD");
                 paymentMethod := Some (JStr "ACH_BANK_ACCOUNT");
                 country := Some (JStr "US"); subdivision := Some (JStr "CA");
                 sourceAddress := Some (JStr "0xabc");
                 redirectUrl := None;
                 partnerUserId := Some (JStr "user-1") |};
       x_forwarded_for := None; x_real_ip := None; request_ip := None |}
  = ({| resp_status := 400;
        resp_body := JObj [("error", JStr "Missing required fields")] |}, [])
  ∧ (∀ rq,
      Dispatched rq
        ∈ (POST_sellQuote (λ _ _ _ _, Some "t")
             (λ _, Some {| status := 200; statusText := "OK";
                           responseText := "{}" |})
             (λ _, Some (JObj []))
             {| CDP_API_KEY := Some "key"; CDP_API_KEY_NAME := None;
                CDP_API_SECRET := Some "secret";
                CDP_API_KEY_PRIVATE_KEY := None; NODE_ENV := None |}
             {| quote_body :=
                  Some {| sellCurrency := Some (JStr "USDC"); sellAmount := Some (JStr "10");
                          sellNetwork := None; cashoutCurrency := Some (JStr "USD");
                          paymentMethod := Some (JStr "ACH_BANK_ACCOUNT");
                          country := Some (JStr "US"); subdivision := None;
                          sourceAddress := Some (JStr "0xabc");
                          redirectUrl := Some (JStr "https://example.com/offramp");
                          partnerUserId := Some (JStr "user-1") |};
                x_forwarded_for := None; x_real_ip := None;
                request_ip := None |}).2 →
      ∃ sent, body rq = Some sent
              ∧ field "sellNetwork" sent = None
              ∧ field "subdivision" sent = None)
  ∧ POST_sellQuote (λ _ _ _ _, Some "t")
      (λ _, Some {| status := 200; statusText := "OK"; responseText := "{}" |})
      (λ _, Some (JObj []))
      {| CDP_API_KEY := Some "key"; CDP_API_KEY_NAME := None;
         CDP_API_SECRET := Some "secret"; CDP_API_KEY_PRIVATE_KEY := None;
         NODE_ENV := None |}
      {| quote_body := None; x_forwarded_for := None; x_real_ip := None;
         request_ip := None |}
    = (failure "Failed to generate sell quote", []).
Proof.
  split_and!.
  - refine (proj1 (proj2 (sell_quote_required_fields (λ _ _ _ _, Some "t")
                            _ _ _ _ _ _) _ _) _);
      try reflexivity.
    do 6 right. left. reflexivity.
  - refine (proj2 (proj2 (proj2 (proj2 (sell_quote_required_fields
              (λ _ _ _ _, Some "t")
              (λ _, Some {| status := 200; statusText := "OK";
                            responseText := "{}" |})
              (λ _, Some (JObj []))
              {| CDP_API_KEY := Some "key"; CDP_API_KEY_NAME := None;
                 CDP_API_SECRET := Some "secret";
                 CDP_API_KEY_PRIVATE_KEY := None; NODE_ENV := None |}
              _ _ _)
              {| sellCurrency := Some (JStr "USDC"); sellAmount := Some (JStr "10");
                 sellNetwork := None; cashoutCurrency := Some (JStr "USD");
                 paymentMethod := Some (JStr "ACH_BANK_ACCOUNT");
                 country := Some (JStr "US"); subdivision := None;
                 sourceAddress := Some (JStr "0xabc");
                 redirectUrl := Some (JStr "https://example.com/offramp");
                 partnerUserId := Some (JStr "user-1") |} _)
              _ _ _ _ _ _ _ _)));
      reflexivity.
  - refine (proj1 (sell_quote_required_fields (λ _ _ _ _, Some "t")
                     _ _ _ _ _ _) _);
      reflexivity.
Defined.

End GatewayFacts.

(** ** Query encoding *)

Module EncodingExtras.
Import Routes.

(** The characters that separate or end a query. *)
Lemma hex_digit_safe n : (n < 16)%N → Js.form_safe (N_of_ascii (Js.hex_digit n)) = true.
Proof.
  intros H. unfold Js.hex_digit.
  destruct n as [|p]; [reflexivity|].
  do 4 (destruct p as [p|p|]; try reflexivity); lia.
Qed.

Lemma form_encode_chars s c :
  c ∈ list_ascii_of_string (Js.form_encode s) →
  Js.form_safe (N_of_ascii c) = true ∨ c = "+"%char ∨ c = "%"%char.
Proof.
  induction s as [|a s IH]; simpl; [intros H; by apply elem_of_nil in H|].
  destruct (Js.form_safe (N_of_ascii a)) eqn:Ha; simpl.
  - intros [->|H]%elem_of_cons; auto.
  - destruct (N_of_ascii a =? 32)%N; simpl.
    + intros [->|H]%elem_of_cons; auto.
    + intros [->|[->|[->|H]%elem_of_cons]%elem_of_cons]%elem_of_cons; auto.
      * left. apply hex_digit_safe. apply N.Div0.div_lt_upper_bound.
        pose proof (N_ascii_bounded a). lia.
      * left. apply hex_digit_safe. apply N.mod_lt. lia.
Qed.

Lemma chars_app a b :
  list_ascii_of_string (a +:+ b)
  = (list_ascii_of_string a ++ list_ascii_of_string b)%list.
Proof. induction a as [|c a IH]; simpl; [done | by rewrite IH]. Qed.

(** No encoded key or value holds a character that separates parameters,
    splits a key from its value, or starts a query or a fragment. *)
Lemma form_encode_no_separator s c :
  c ∈ ["&"; "="; "?"; "#"]%char → c ∉ list_ascii_of_string (Js.form_encode s).
Proof.
  intros Hc Hin. apply form_encode_chars in Hin.
  repeat (apply elem_of_cons in Hc as [->|Hc]);
    [| | | | by apply elem_of_nil in Hc];
    destruct Hin as [H|[H|H]]; discriminate H.
Qed.

Lemma count_encoded (c : ascii) s :
  c ∈ ["&"; "="; "?"; "#"]%char →
  length (filter (λ ch, ch = c) (list_ascii_of_string (Js.form_encode s))) = 0%nat.
Proof.
  intros Hc.
  destruct (filter _ _) as [|ch l] eqn:E; [reflexivity|].
  assert (ch ∈ filter (λ ch, ch = c)
                 (list_ascii_of_string (Js.form_encode s))) as Hin
    by (rewrite E; left).
  apply list_elem_of_filter in Hin as [-> Hin].
  by eapply form_encode_no_separator in Hin.
Qed.

Lemma count_singleton (c x : ascii) :
  length (filter (λ ch, ch = c) [x]) = if decide (x = c) then 1%nat else 0%nat.
Proof. rewrite filter_cons, filter_nil. by case_decide. Qed.

(** The serialized query has one [=] per parameter, one [&] between two
    parameters, and no [?] or [#], whatever the keys and values hold. *)
Lemma URLSearchParams_separators (c : ascii) params :
  c ∈ ["&"; "="; "?"; "#"]%char →
  length (filter (λ ch, ch = c)
            (list_ascii_of_string (Js.URLSearchParams_toString params)))
  = if decide (c = "&"%char) then (length params - 1)%nat
    else if decide (c = "="%char) then length params
    else 0%nat.
Proof.
  intros Hc. induction params as [|[k v] rest IH].
  - cbn. by repeat case_decide.
  - destruct rest as [|kv rest].
    + cbn [Js.URLSearchParams_toString].
      rewrite !chars_app, !filter_app, !length_app, !count_encoded by done.
      change (list_ascii_of_string "=") with ["="%char].
      rewrite count_singleton. cbn [length].
      repeat case_decide; try congruence; lia.
    + change (Js.URLSearchParams_toString ((k, v) :: kv :: rest))
        with (Js.form_encode k +:+ "=" +:+ Js.form_encode v +:+ "&"
                +:+ Js.URLSearchParams_toString (kv :: rest)).
      rewrite !chars_app, !filter_app, !length_app, !count_encoded by done.
      change (list_ascii_of_string "=") with ["="%char].
      change (list_ascii_of_string "&") with ["&"%char].
      rewrite !count_singleton, IH. cbn [length].
      repeat case_decide; try congruence; lia.
Qed.
End EncodingExtras.

(** ** The routes in direct style *)

Module GatewayExtras.
Import Routes.

Section Gateway.
Context (generateJWT : string → string → string → string → option string).
Context (upstream : Request → option UpstreamResponse).
Context (JSON_parse : string → option json).

(** The configured credentials, when both are there. *)
Lemma credentials_cases env log :
  credentials env log =
    match keyName env, keySecret env with
    | Some name, Some secret =>
        if Js.truthy name && Js.truthy secret
        then (inr (name, secret), log)
        else (inl (Return {| resp_status := 500;
                             resp_body := JObj [("error", JStr "Server configuration error")] |}),
              log)
    | _, _ =>
        (inl (Return {| resp_status := 500;
                        resp_body := JObj [("error", JStr "Server configuration error")] |}),
         log)
    end.
Proof.
  unfold credentials.
  destruct (keyName env) as [name|], (keySecret env) as [secret|];
    try reflexivity.
  destruct (Js.truthy name && Js.truthy secret); reflexivity.
Qed.

(** A signed call followed by the handling of the answer, from an empty
    log: the answer of the handler and the effects, case by case. *)
Lemma signed_call_cases cred p m (mkrq : string → Request)
    (rejection : UpstreamResponse → json) onThrow :
  run (bind (sign generateJWT cred p m)
         (λ jwtToken,
            bind (dispatch upstream (mkrq jwtToken))
              (λ response,
                 if negb (Js.status_ok (status response))
                 then reply (rejection response) (status response)
                 else bind (parseBody JSON_parse (responseText response))
                        (λ data, bind (readProperties data) (λ _, reply data 200)))))
    onThrow
  = match generateJWT cred.1 cred.2 p m with
    | None =>
        ({| resp_status := 500;
            resp_body := JObj [("error", JStr "Authentication failed")] |},
         [JwtRequested p m])
    | Some tok =>
        (match upstream (mkrq tok) with
         | None => onThrow
         | Some u =>
             if Js.status_ok (status u)
             then match JSON_parse (responseText u) with
                  | Some data =>
                      if is_null data then onThrow
                      else {| resp_status := 200; resp_body := data |}
                  | None =>
                      {| resp_status := 500;
                         resp_body := JObj [("error", JStr "Invalid response from server")] |}
                  end
             else if (status u <? 200) || (599 <? status u)
                     || null_body_status (status u)
             then onThrow
             else {| resp_status := status u; resp_body := rejection u |}
         end,
         [JwtRequested p m; Dispatched (mkrq tok)])
    end.
Proof.
  cbv [run bind sign dispatch emit pure raise parseBody readProperties].
  destruct (generateJWT cred.1 cred.2 p m) as [tok|]; [|reflexivity].
  destruct (upstream (mkrq tok)) as [u|]; [|reflexivity].
  destruct (Js.status_ok (status u)); cbn [negb].
  - destruct (JSON_parse (responseText u)) as [data|]; [|reflexivity].
    destruct (is_null data); reflexivity.
  - unfold reply.
    destruct ((status u <? 200) || (599 <? status u)
              || null_body_status (status u)); reflexivity.
Qed.

(** The handler after the credential check. *)
Lemma run_credentials env (K : string * string → M Response) onThrow :
  run (bind (credentials env) K) onThrow =
    match keyName env, keySecret env with
    | Some name, Some secret =>
        if Js.truthy name && Js.truthy secret
        then run (K (name, secret)) onThrow
        else ({| resp_status := 500;
                 resp_body := JObj [("error", JStr "Server configuration error")] |},
              [])
    | _, _ =>
        ({| resp_status := 500;
            resp_body := JObj [("error", JStr "Server configuration error")] |},
         [])
    end.
Proof.
  unfold run at 1, bind at 1. rewrite credentials_cases.
  destruct (keyName env) as [name|], (keySecret env) as [secret|];
    try reflexivity.
  destruct (Js.truthy name && Js.truthy secret); reflexivity.
Qed.

Lemma run_credentials_missing env (K : string * string → M Response) onThrow :
  Js.falsy (keyName env) = true ∨ Js.falsy (keySecret env) = true →
  run (bind (credentials env) K) onThrow
  = ({| resp_status := 500;
        resp_body := JObj [("error", JStr "Server configuration error")] |}, []).
Proof.
  intros H. rewrite run_credentials.
  destruct (keyName env) as [name|], (keySecret env) as [secret|];
    try reflexivity.
  simpl in H. destruct H as [H|H]; apply negb_true_iff in H; rewrite H;
    rewrite ?andb_false_r; reflexivity.
Qed.

Lemma run_credentials_present env :
  Js.falsy (keyName env) = false → Js.falsy (keySecret env) = false →
  ∃ name secret,
    keyName env = Some name ∧ keySecret env = Some secret
    ∧ ∀ (K : string * string → M Response) onThrow,
        run (bind (credentials env) K) onThrow = run (K (name, secret)) onThrow.
Proof.
  intros (name & Hn & Tn)%GatewayFacts.falsy_false
         (secret & Hs & Ts)%GatewayFacts.falsy_false.
  exists name, secret. split_and!; [done | done |].
  intros K onThrow. by rewrite run_credentials, Hn, Hs, Tn, Ts.
Qed.

(** X1. Without a key name or a key secret, the buy-config, sell-config and
    sell-quote routes answer 500 "Server configuration error" before
    anything else: no token is requested and nothing is dispatched, and
    the sell-quote body is not even looked at.  The sell-options route
    does the same once it has found a country in the query. *)
Theorem routes_require_credentials env (ocall : OptionsCall) (qcall : QuoteCall) :
  Js.falsy (keyName env) = true ∨ Js.falsy (keySecret env) = true →
  GET_buyConfig generateJWT upstream JSON_parse env
  = ({| resp_status := 500;
        resp_body := JObj [("error", JStr "Server configuration error")] |}, [])
  ∧ GET_sellConfig generateJWT upstream JSON_parse env
    = ({| resp_status := 500;
          resp_body := JObj [("error", JStr "Server configuration error")] |}, [])
  ∧ POST_sellQuote generateJWT upstream JSON_parse env qcall
    = ({| resp_status := 500;
          resp_body := JObj [("error", JStr "Server configuration error")] |}, [])
  ∧ (Js.falsy (q_country ocall) = false →
     GET_sellOptions generateJWT upstream JSON_parse env ocall
     = ({| resp_status := 500;
           resp_body := JObj [("error", JStr "Server configuration error")] |}, [])).
Proof.
  intros H. split_and!.
  - unfold GET_buyConfig. by apply run_credentials_missing.
  - unfold GET_sellConfig. by apply run_credentials_missing.
  - unfold POST_sellQuote. by apply run_credentials_missing.
  - intros (c & Hc & Tc)%GatewayFacts.falsy_false.
    unfold GET_sellOptions. rewrite Hc, Tc. cbn [negb].
    by apply run_credentials_missing.
Qed.

(** The sell-options route answers 400 "Missing required parameter:
    country" when the query has no country or an empty one, whatever the
    credentials are, without requesting a token or dispatching. *)
Theorem sell_options_requires_country env (call : OptionsCall) :
  Js.falsy (q_country call) = true →
  GET_sellOptions generateJWT upstream JSON_parse env call
  = ({| resp_status := 400;
        resp_body := JObj [("error", JStr "Missing required parameter: country")] |},
     []).
Proof.
  intros H. unfold GET_sellOptions.
  destruct (q_country call) as [c|]; [|reflexivity].
  simpl in H. by rewrite H.
Qed.

(** X2. When the signer throws, each route answers 500 "Authentication
    failed": the token was requested for the route's path and method, and
    nothing is dispatched upstream. *)
Theorem signing_failure_stops_route env (ocall : OptionsCall) (qcall : QuoteCall)
    (b : SellQuoteRequest) :
  Js.falsy (keyName env) = false →
  Js.falsy (keySecret env) = false →
  (∀ name secret p m, generateJWT name secret p m = None) →
  Js.falsy (q_country ocall) = false →
  quote_body qcall = Some b → missingRequired b = false →
  GET_buyConfig generateJWT upstream JSON_parse env
  = ({| resp_status := 500;
        resp_body := JObj [("error", JStr "Authentication failed")] |},
     [JwtRequested "/onramp/v1/buy/config" "GET"])
  ∧ GET_sellConfig generateJWT upstream JSON_parse env
    = ({| resp_status := 500;
          resp_body := JObj [("error", JStr "Authentication failed")] |},
       [JwtRequested "/onramp/v1/sell/config" "GET"])
  ∧ GET_sellOptions generateJWT upstream JSON_parse env ocall
    = ({| resp_status := 500;
          resp_body := JObj [("error", JStr "Authentication failed")] |},
       [JwtRequested "/onramp/v1/sell/options" "GET"])
  ∧ POST_sellQuote generateJWT upstream JSON_parse env qcall
    = ({| resp_status := 500;
          resp_body := JObj [("error", JStr "Authentication failed")] |},
       [JwtRequested "/onramp/v1/sell/quote" "POST"]).
Proof.
  intros Hk Hs Hjwt (c & Hc & Tc)%GatewayFacts.falsy_false Hb Hm.
  destruct (run_credentials_present env Hk Hs)
    as (name & secret & _ & _ & Hrun).
  split_and!.
  - unfold GET_buyConfig. rewrite Hrun. cbn zeta.
    by rewrite signed_call_cases, Hjwt.
  - unfold GET_sellConfig. rewrite Hrun. cbn zeta.
    by rewrite signed_call_cases, Hjwt.
  - unfold GET_sellOptions. rewrite Hc, Tc. cbn [negb]. rewrite Hrun. cbn zeta.
    by rewrite signed_call_cases, Hjwt.
  - unfold POST_sellQuote. rewrite Hrun, Hb, Hm. cbn zeta.
    by rewrite signed_call_cases, Hjwt.
Qed.

(** What the outcome of a signed call tells: a dispatched request was
    built from the token the signer returned, and an OK answer comes from
    an OK upstream answer whose body parsed. *)
Lemma signed_call_inv name secret p m (mkrq : string → Request)
    (rejection : UpstreamResponse → json) onThrow
    (r : Response * list Effect) :
  r = run (bind (sign generateJWT (name, secret) p m)
             (λ jwtToken,
                bind (dispatch upstream (mkrq jwtToken))
                  (λ response,
                     if negb (Js.status_ok (status response))
                     then reply (rejection response) (status response)
                     else bind (parseBody JSON_parse (responseText response))
                            (λ data, bind (readProperties data) (λ _, reply data 200)))))
        onThrow →
  (∀ rq, Dispatched rq ∈ r.2 →
         ∃ tok, generateJWT name secret p m = Some tok ∧ rq = mkrq tok)
  ∧ (Js.status_ok (resp_status onThrow) = false →
     Js.status_ok (resp_status r.1) = true →
     ∃ tok u data,
       generateJWT name secret p m = Some tok
       ∧ upstream (mkrq tok) = Some u
       ∧ Js.status_ok (status u) = true
       ∧ JSON_parse (responseText u) = Some data
       ∧ is_null data = false
       ∧ r = ({| resp_status := 200; resp_body := data |},
              [JwtRequested p m; Dispatched (mkrq tok)])).
Proof.
  intros ->. rewrite signed_call_cases. cbn [fst snd].
  destruct (generateJWT name secret p m) as [tok|]; cbn [fst snd].
  - split.
    + intros rq H. exists tok. split; [done|].
      apply elem_of_cons in H as [H|H]; [discriminate H|].
      apply list_elem_of_singleton in H. by injection H.
    + intros Hthrow Hok. exists tok.
      destruct (upstream (mkrq tok)) as [u|]; [|congruence].
      destruct (Js.status_ok (status u)) eqn:Hu.
      * destruct (JSON_parse (responseText u)) as [data|] eqn:Hd;
          [|discriminate Hok].
        destruct (is_null data) eqn:Hnull; [congruence|].
        exists u, data. split_and!; done.
      * destruct ((status u <? 200) || (599 <? status u)
                  || null_body_status (status u)); [congruence|].
        cbn [resp_status] in Hok. congruence.
  - split.
    + intros rq H. apply list_elem_of_singleton in H. discriminate H.
    + intros _ Hok. discriminate Hok.
Qed.

(** The common shape of the four routes: the route stops before signing,
    with nothing logged and a non-OK answer, or it is a signed call under
    the configured credentials, for a path that is the path of every
    request it may build and with the token in the Authorization header. *)
Lemma route_shape env (ocall : OptionsCall) (qcall : QuoteCall)
    (r : Response * list Effect) :
  r ∈ [ GET_buyConfig generateJWT upstream JSON_parse env;
        GET_sellConfig generateJWT upstream JSON_parse env;
        GET_sellOptions generateJWT upstream JSON_parse env ocall;
        POST_sellQuote generateJWT upstream JSON_parse env qcall ] →
  (r.2 = [] ∧ Js.status_ok (resp_status r.1) = false)
  ∨ ∃ name secret p m (mkrq : string → Request)
      (rejection : UpstreamResponse → json) onThrow,
      keyName env = Some name ∧ keySecret env = Some secret
      ∧ r = run (bind (sign generateJWT (name, secret) p m)
                   (λ jwtToken,
                      bind (dispatch upstream (mkrq jwtToken))
                        (λ response,
                           if negb (Js.status_ok (status response))
                           then reply (rejection response) (status response)
                           else bind (parseBody JSON_parse (responseText response))
                                  (λ data, bind (readProperties data) (λ _, reply data 200)))))
              onThrow
      ∧ Js.status_ok (resp_status onThrow) = false
      ∧ ∀ tok, Url.path (url (mkrq tok)) = Some p
               ∧ Url.has_query_mark p = false
               ∧ method (mkrq tok) = m
               ∧ ("Authorization", "Bearer " +:+ tok) ∈ headers (mkrq tok).
Proof.
  intros Hr.
  repeat (apply elem_of_cons in Hr as [-> | Hr]);
    [| | | | by apply elem_of_nil in Hr].
  - unfold GET_buyConfig. rewrite run_credentials.
    destruct (keyName env) as [name|], (keySecret env) as [secret|];
      try (left; by split).
    destruct (Js.truthy name && Js.truthy secret); [|left; by split].
    right. cbn zeta. do 7 eexists. split_and!; try reflexivity.
    intros tok. split_and!; try reflexivity. cbn [headers getHeaders].
    right. left.
  - unfold GET_sellConfig. rewrite run_credentials.
    destruct (keyName env) as [name|], (keySecret env) as [secret|];
      try (left; by split).
    destruct (Js.truthy name && Js.truthy secret); [|left; by split].
    right. cbn zeta. do 7 eexists. split_and!; try reflexivity.
    intros tok. split_and!; try reflexivity. cbn [headers getHeaders].
    right. left.
  - unfold GET_sellOptions.
    destruct (q_country ocall) as [c|]; [|left; by split].
    destruct (negb (Js.truthy c)); [left; by split|].
    rewrite run_credentials.
    destruct (keyName env) as [name|], (keySecret env) as [secret|];
      try (left; by split).
    destruct (Js.truthy name && Js.truthy secret); [|left; by split].
    right. cbn zeta. do 7 eexists. split_and!; try reflexivity.
    intros tok. split_and!; try reflexivity. cbn [headers getHeaders].
    right. left.
  - unfold POST_sellQuote. rewrite run_credentials.
    destruct (keyName env) as [name|], (keySecret env) as [secret|];
      try (left; by split).
    destruct (Js.truthy name && Js.truthy secret); [|left; by split].
    destruct (quote_body qcall) as [b|]; [|left; by split].
    destruct (missingRequired b); [left; by split|].
    right. cbn zeta. do 7 eexists. split_and!; try reflexivity.
    intros tok. split_and!; try reflexivity. cbn [headers].
    do 2 right. left.
Qed.

(** X3. Every request a route dispatches carries, as its bearer token, the
    token the signer returned for the configured key name and secret
    ([CDP_API_KEY] before [CDP_API_KEY_NAME], [CDP_API_SECRET] before
    [CDP_API_KEY_PRIVATE_KEY]), the method of the request and the path of
    its URL. *)
Theorem dispatched_request_carries_signed_token env (ocall : OptionsCall)
    (qcall : QuoteCall) (r : Response * list Effect) (rq : Request) :
  r ∈ [ GET_buyConfig generateJWT upstream JSON_parse env;
        GET_sellConfig generateJWT upstream JSON_parse env;
        GET_sellOptions generateJWT upstream JSON_parse env ocall;
        POST_sellQuote generateJWT upstream JSON_parse env qcall ] →
  Dispatched rq ∈ r.2 →
  ∃ name secret tok p,
    Js.or_opt (CDP_API_KEY env) (CDP_API_KEY_NAME env) = Some name
    ∧ Js.or_opt (CDP_API_SECRET env) (CDP_API_KEY_PRIVATE_KEY env) = Some secret
    ∧ Url.path (url rq) = Some p
    ∧ generateJWT name secret p (method rq) = Some tok
    ∧ ("Authorization", "Bearer " +:+ tok) ∈ headers rq.
Proof.
  intros Hr Hrq.
  destruct (route_shape env ocall qcall r Hr)
    as [[Hlog _] | (name & secret & p & m & mkrq & rejection & onThrow
                    & Hn & Hs & Hrun & _ & Hmk)].
  - rewrite Hlog in Hrq. by apply elem_of_nil in Hrq.
  - destruct (signed_call_inv _ _ _ _ _ _ _ _ Hrun) as [Hdisp _].
    destruct (Hdisp rq Hrq) as (tok & Htok & ->).
    destruct (Hmk tok) as (Hp & _ & Hm & Hh).
    exists name, secret, tok, p. rewrite Hm. by split_and!.
Qed.

(** X4. A route answers with an OK status only when the upstream answered its
    one dispatched request with an OK status and a body that parsed; the
    answer is then 200 with the parsed body, unchanged. *)
Theorem ok_answer_only_from_upstream_success env (ocall : OptionsCall)
    (qcall : QuoteCall) (r : Response * list Effect) :
  r ∈ [ GET_buyConfig generateJWT upstream JSON_parse env;
        GET_sellConfig generateJWT upstream JSON_parse env;
        GET_sellOptions generateJWT upstream JSON_parse env ocall;
        POST_sellQuote generateJWT upstream JSON_parse env qcall ] →
  Js.status_ok (resp_status r.1) = true →
  ∃ p rq u data,
    r.2 = [JwtRequested p (method rq); Dispatched rq]
    ∧ upstream rq = Some u
    ∧ Js.status_ok (status u) = true
    ∧ JSON_parse (responseText u) = Some data
    ∧ r.1 = {| resp_status := 200; resp_body := data |}.
Proof.
  intros Hr Hok.
  destruct (route_shape env ocall qcall r Hr)
    as [[_ Hno] | (name & secret & p & m & mkrq & rejection & onThrow
                   & _ & _ & Hrun & Hthrow & Hmk)]; [congruence|].
  destruct (signed_call_inv _ _ _ _ _ _ _ _ Hrun) as [_ Hsucc].
  destruct (Hsucc Hthrow Hok) as (tok & u & data & _ & Hu & Hs & Hd & _ & ->).
  destruct (Hmk tok) as (_ & _ & Hm & _).
  exists p, (mkrq tok), u, data. rewrite Hm. by split_and!.
Qed.

(** X5. When the upstream answers with an OK status and a body that parses
    to a value other than [null], each route answers 200 with the parsed
    value as it is (also when the upstream status is another 2xx).  When
    the body parses to [null], the route throws while it logs the success
    and answers 500 with the message of its outer [catch]. *)
Theorem upstream_success_passed_through env (ocall : OptionsCall)
    (qcall : QuoteCall) (b : SellQuoteRequest) (tok : string)
    (u : UpstreamResponse) (data : json) :
  Js.falsy (keyName env) = false →
  Js.falsy (keySecret env) = false →
  (∀ name secret p m, generateJWT name secret p m = Some tok) →
  (∀ rq, upstream rq = Some u) →
  Js.status_ok (status u) = true →
  JSON_parse (responseText u) = Some data →
  Js.falsy (q_country ocall) = false →
  quote_body qcall = Some b → missingRequired b = false →
  (data ≠ JNull →
   (GET_buyConfig generateJWT upstream JSON_parse env).1
   = {| resp_status := 200; resp_body := data |}
   ∧ (GET_sellConfig generateJWT upstream JSON_parse env).1
     = {| resp_status := 200; resp_body := data |}
   ∧ (GET_sellOptions generateJWT upstream JSON_parse env ocall).1
     = {| resp_status := 200; resp_body := data |}
   ∧ (POST_sellQuote generateJWT upstream JSON_parse env qcall).1
     = {| resp_status := 200; resp_body := data |})
  ∧ (data = JNull →
     (GET_buyConfig generateJWT upstream JSON_parse env).1
     = failure "Failed to fetch buy config"
     ∧ (GET_sellConfig generateJWT upstream JSON_parse env).1
       = failure "Failed to fetch sell config"
     ∧ (GET_sellOptions generateJWT upstream JSON_parse env ocall).1
       = failure "Failed to fetch sell options"
     ∧ (POST_sellQuote generateJWT upstream JSON_parse env qcall).1
       = failure "Failed to generate sell quote").
Proof.
  intros Hk Hs Hjwt Hup Hok Hdata (c & Hc & Tc)%GatewayFacts.falsy_false Hb Hm.
  destruct (run_credentials_present env Hk Hs)
    as (name & secret & _ & _ & Hrun).
  assert (Hnull : data ≠ JNull → is_null data = false)
    by (intros H; by destruct data).
  split.
  - intros Hne. apply Hnull in Hne. split_and!.
    + unfold GET_buyConfig. rewrite Hrun. cbn zeta.
      by rewrite signed_call_cases, Hjwt, Hup, Hok, Hdata, Hne.
    + unfold GET_sellConfig. rewrite Hrun. cbn zeta.
      by rewrite signed_call_cases, Hjwt, Hup, Hok, Hdata, Hne.
    + unfold GET_sellOptions. rewrite Hc, Tc. cbn [negb]. rewrite Hrun.
      cbn zeta. by rewrite signed_call_cases, Hjwt, Hup, Hok, Hdata, Hne.
    + unfold POST_sellQuote. rewrite Hrun, Hb, Hm. cbn zeta.
      by rewrite signed_call_cases, Hjwt, Hup, Hok, Hdata, Hne.
  - intros ->. split_and!.
    + unfold GET_buyConfig. rewrite Hrun. cbn zeta.
      by rewrite signed_call_cases, Hjwt, Hup, Hok, Hdata.
    + unfold GET_sellConfig. rewrite Hrun. cbn zeta.
      by rewrite signed_call_cases, Hjwt, Hup, Hok, Hdata.
    + unfold GET_sellOptions. rewrite Hc, Tc. cbn [negb]. rewrite Hrun.
      cbn zeta. by rewrite signed_call_cases, Hjwt, Hup, Hok, Hdata.
    + unfold POST_sellQuote. rewrite Hrun, Hb, Hm. cbn zeta.
      by rewrite signed_call_cases, Hjwt, Hup, Hok, Hdata.
Qed.

(** X6. When the upstream answers with an OK status and a body that does not
    parse, each route answers 500 "Invalid response from server". *)
Theorem unparseable_success_is_server_error env (ocall : OptionsCall)
    (qcall : QuoteCall) (b : SellQuoteRequest) (tok : string)
    (u : UpstreamResponse) :
  Js.falsy (keyName env) = false →
  Js.falsy (keySecret env) = false →
  (∀ name secret p m, generateJWT name secret p m = Some tok) →
  (∀ rq, upstream rq = Some u) →
  Js.status_ok (status u) = true →
  JSON_parse (responseText u) = None →
  Js.falsy (q_country ocall) = false →
  quote_body qcall = Some b → missingRequired b = false →
  (GET_buyConfig generateJWT upstream JSON_parse env).1
  = {| resp_status := 500;
       resp_body := JObj [("error", JStr "Invalid response from server")] |}
  ∧ (GET_sellConfig generateJWT upstream JSON_parse env).1
    = {| resp_status := 500;
         resp_body := JObj [("error", JStr "Invalid response from server")] |}
  ∧ (GET_sellOptions generateJWT upstream JSON_parse env ocall).1
    = {| resp_status := 500;
         resp_body := JObj [("error", JStr "Invalid response from server")] |}
  ∧ (POST_sellQuote generateJWT upstream JSON_parse env qcall).1
    = {| resp_status := 500;
         resp_body := JObj [("error", JStr "Invalid response from server")] |}.
Proof.
  intros Hk Hs Hjwt Hup Hok Hdata (c & Hc & Tc)%GatewayFacts.falsy_false Hb Hm.
  destruct (run_credentials_present env Hk Hs)
    as (name & secret & _ & _ & Hrun).
  split_and!.
  - unfold GET_buyConfig. rewrite Hrun. cbn zeta.
    by rewrite signed_call_cases, Hjwt, Hup, Hok, Hdata.
  - unfold GET_sellConfig. rewrite Hrun. cbn zeta.
    by rewrite signed_call_cases, Hjwt, Hup, Hok, Hdata.
  - unfold GET_sellOptions. rewrite Hc, Tc. cbn [negb]. rewrite Hrun. cbn zeta.
    by rewrite signed_call_cases, Hjwt, Hup, Hok, Hdata.
  - unfold POST_sellQuote. rewrite Hrun, Hb, Hm. cbn zeta.
    by rewrite signed_call_cases, Hjwt, Hup, Hok, Hdata.
Qed.

(** X7. When the call to the upstream rejects (no answer at all), each route
    answers 500 with its own failure message, after exactly one token
    request and one dispatch: the call is not repeated. *)
Theorem transport_failure_is_server_error env (ocall : OptionsCall)
    (qcall : QuoteCall) (b : SellQuoteRequest) (tok : string) :
  Js.falsy (keyName env) = false →
  Js.falsy (keySecret env) = false →
  (∀ name secret p m, generateJWT name secret p m = Some tok) →
  (∀ rq, upstream rq = None) →
  Js.falsy (q_country ocall) = false →
  quote_body qcall = Some b → missingRequired b = false →
  (∃ rq, GET_buyConfig generateJWT upstream JSON_parse env
         = (failure "Failed to fetch buy config",
            [JwtRequested "/onramp/v1/buy/config" "GET"; Dispatched rq]))
  ∧ (∃ rq, GET_sellConfig generateJWT upstream JSON_parse env
           = (failure "Failed to fetch sell config",
              [JwtRequested "/onramp/v1/sell/config" "GET"; Dispatched rq]))
  ∧ (∃ rq, GET_sellOptions generateJWT upstream JSON_parse env ocall
           = (failure "Failed to fetch sell options",
              [JwtRequested "/onramp/v1/sell/options" "GET"; Dispatched rq]))
  ∧ (∃ rq, POST_sellQuote generateJWT upstream JSON_parse env qcall
           = (failure "Failed to generate sell quote",
              [JwtRequested "/onramp/v1/sell/quote" "POST"; Dispatched rq])).
Proof.
  intros Hk Hs Hjwt Hup (c & Hc & Tc)%GatewayFacts.falsy_false Hb Hm.
  destruct (run_credentials_present env Hk Hs)
    as (name & secret & _ & _ & Hrun).
  split_and!.
  - unfold GET_buyConfig. rewrite Hrun. cbn zeta.
    rewrite signed_call_cases, Hjwt, Hup. by eexists.
  - unfold GET_sellConfig. rewrite Hrun. cbn zeta.
    rewrite signed_call_cases, Hjwt, Hup. by eexists.
  - unfold GET_sellOptions. rewrite Hc, Tc. cbn [negb]. rewrite Hrun. cbn zeta.
    rewrite signed_call_cases, Hjwt, Hup. by eexists.
  - unfold POST_sellQuote. rewrite Hrun, Hb, Hm. cbn zeta.
    rewrite signed_call_cases, Hjwt, Hup. by eexists.
Qed.



(** X9. The body of the request the sell-quote route sends upstream holds the
    eight required fields of the incoming body, each a truthy JSON value
    (a string, then, is non-empty) passed on as it came: the route neither
    checks that a field is a string nor converts it. *)
Theorem quote_required_fields_forwarded env (call : QuoteCall)
    (b : SellQuoteRequest) (rq : Request) :
  quote_body call = Some b →
  Dispatched rq ∈ (POST_sellQuote generateJWT upstream JSON_parse env call).2 →
  ∃ sent,
    body rq = Some sent
    ∧ Forall (λ kv : string * option json,
                ∃ j, kv.2 = Some j ∧ truthy j = true
                     ∧ field kv.1 sent = Some j)
        [ ("sellCurrency", sellCurrency b); ("sellAmount", sellAmount b);
          ("cashoutCurrency", cashoutCurrency b);
          ("paymentMethod", paymentMethod b); ("country", country b);
          ("sourceAddress", sourceAddress b); ("redirectUrl", redirectUrl b);
          ("partnerUserId", partnerUserId b) ].
Proof.
  intros Hb (_ & _ & _ & b' & Hb' & Hm & Hbody)%GatewayFacts.POST_sellQuote_log.
  rewrite Hb in Hb'. injection Hb' as <-.
  exists (quoteRequestBody b (resolveClientIp call)). split; [exact Hbody|].
  by apply GatewayFacts.quoteRequestBody_required.
Qed.

(** X10. The URL the sell-options route dispatches carries as its query the
    country and, when present and non-empty, the subdivision and the
    networks of the incoming request: one to three parameters.  Whatever
    these values hold, the query has one [=] per parameter and one [&]
    between two parameters, and no [?] or [#]: a value cannot add a
    parameter or cut the query short. *)
Theorem sell_options_query_holds_forwarded_parameters env (call : OptionsCall)
    (rq : Request) :
  Dispatched rq ∈ (GET_sellOptions generateJWT upstream JSON_parse env call).2 →
  ∃ c q,
    q_country call = Some c
    ∧ Url.query (url rq) = Some q
    ∧ q = Js.URLSearchParams_toString (sellOptionsQuery c call)
    ∧ (1 ≤ length (sellOptionsQuery c call) ≤ 3)%nat
    ∧ length (filter (λ ch, ch = "="%char) (list_ascii_of_string q))
      = length (sellOptionsQuery c call)
    ∧ length (filter (λ ch, ch = "&"%char) (list_ascii_of_string q))
      = (length (sellOptionsQuery c call) - 1)%nat
    ∧ length (filter (λ ch, ch = "?"%char) (list_ascii_of_string q)) = 0%nat
    ∧ length (filter (λ ch, ch = "#"%char) (list_ascii_of_string q)) = 0%nat.
Proof.
  intros (_ & (c & Hc & Hurl) & _)%GatewayFacts.GET_sellOptions_log.
  exists c, (Js.URLSearchParams_toString (sellOptionsQuery c call)).
  split_and!; [exact Hc | by rewrite Hurl | reflexivity | | | | | |].
  - unfold sellOptionsQuery. cbn [length]. lia.
  - unfold sellOptionsQuery.
    destruct (q_subdivision call) as [sub|], (q_networks call) as [nets|];
      repeat case_match; simpl; lia.
  - rewrite EncodingExtras.URLSearchParams_separators by set_solver.
    by repeat case_decide.
  - rewrite EncodingExtras.URLSearchParams_separators by set_solver.
    by repeat case_decide.
  - rewrite EncodingExtras.URLSearchParams_separators by set_solver.
    by repeat case_decide.
  - rewrite EncodingExtras.URLSearchParams_separators by set_solver.
    by repeat case_decide.
Qed.

End Gateway.

Lemma routes_require_credentials_witness :
  GET_sellConfig Samples.signer Samples.upstreamCreated Samples.parseObject
    Samples.envWithoutSecret
  = ({| resp_status := 500;
        resp_body := JObj [("error", JStr "Server configuration error")] |}, []).
Proof.
  refine (proj1 (proj2
            (routes_require_credentials Samples.signer Samples.upstreamCreated
               Samples.parseObject Samples.envWithoutSecret
               Samples.optionsCall Samples.quoteCall _))).
  right. reflexivity.
Defined.

Lemma sell_options_requires_country_witness :
  GET_sellOptions Samples.signer Samples.upstreamCreated Samples.parseObject
    Samples.env Samples.optionsCallWithoutCountry
  = ({| resp_status := 400;
        resp_body := JObj [("error", JStr "Missing required parameter: country")] |},
     []).
Proof.
  apply (sell_options_requires_country Samples.signer Samples.upstreamCreated
           Samples.parseObject Samples.env Samples.optionsCallWithoutCountry).
  reflexivity.
Defined.

Lemma signing_failure_stops_route_witness :
  POST_sellQuote Samples.brokenSigner Samples.upstreamCreated
    Samples.parseObject Samples.env Samples.quoteCall
  = ({| resp_status := 500;
        resp_body := JObj [("error", JStr "Authentication failed")] |},
     [JwtRequested "/onramp/v1/sell/quote" "POST"]).
Proof.
  refine (proj2 (proj2 (proj2
            (signing_failure_stops_route Samples.brokenSigner
               Samples.upstreamCreated Samples.parseObject Samples.env
               Samples.optionsCall Samples.quoteCall Samples.quoteBody
               _ _ _ _ _ _)))); reflexivity.
Defined.

Lemma dispatched_request_carries_signed_token_witness :
  ∃ name secret tok p,
    Js.or_opt (CDP_API_KEY Samples.env) (CDP_API_KEY_NAME Samples.env) = Some name
    ∧ Js.or_opt (CDP_API_SECRET Samples.env)
        (CDP_API_KEY_PRIVATE_KEY Samples.env) = Some secret
    ∧ Url.path "https://api.developer.coinbase.com/onramp/v1/sell/config" = Some p
    ∧ Samples.signer name secret p "GET" = Some tok
    ∧ ("Authorization", "Bearer " +:+ tok)
        ∈ [ ("Accept", "application/json");
            ("Authorization", "Bearer signed-token") ].
Proof.
  apply (dispatched_request_carries_signed_token Samples.signer
           Samples.upstreamCreated Samples.parseObject Samples.env
           Samples.optionsCall Samples.quoteCall
           (GET_sellConfig Samples.signer Samples.upstreamCreated
              Samples.parseObject Samples.env)
           {| url := "https://api.developer.coinbase.com/onramp/v1/sell/config";
              method := "GET";
              headers := [ ("Accept", "application/json");
                           ("Authorization", "Bearer signed-token") ];
              body := None |}).
  - right. left.
  - vm_compute. right. left.
Defined.

Lemma ok_answer_only_from_upstream_success_witness :
  ∃ p rq u data,
    (GET_buyConfig Samples.signer Samples.upstreamCreated Samples.parseObject
       Samples.env).2
    = [JwtRequested p (method rq); Dispatched rq]
    ∧ Samples.upstreamCreated rq = Some u
    ∧ Js.status_ok (status u) = true
    ∧ Samples.parseObject (responseText u) = Some data
    ∧ (GET_buyConfig Samples.signer Samples.upstreamCreated Samples.parseObject
         Samples.env).1
      = {| resp_status := 200; resp_body := data |}.
Proof.
  apply (ok_answer_only_from_upstream_success Samples.signer
           Samples.upstreamCreated Samples.parseObject Samples.env
           Samples.optionsCall Samples.quoteCall).
  - left.
  - reflexivity.
Defined.

Lemma upstream_success_passed_through_witness :
  (GET_sellOptions Samples.signer Samples.upstreamCreated Samples.parseObject
     Samples.env Samples.optionsCall).1
  = {| resp_status := 200; resp_body := JObj [] |}.
Proof.
  refine (proj1 (proj2 (proj2
            (proj1 (upstream_success_passed_through Samples.signer
               Samples.upstreamCreated Samples.parseObject Samples.env
               Samples.optionsCall Samples.quoteCall Samples.quoteBody
               "signed-token" Samples.created (JObj [])
               _ _ _ _ _ _ _ _ _) _))));
    try reflexivity.
  discriminate.
Defined.

Lemma unparseable_success_is_server_error_witness :
  (GET_sellConfig Samples.signer Samples.upstreamCreated Samples.parseNothing
     Samples.env).1
  = {| resp_status := 500;
       resp_body := JObj [("error", JStr "Invalid response from server")] |}.
Proof.
  refine (proj1 (proj2
            (unparseable_success_is_server_error Samples.signer
               Samples.upstreamCreated Samples.parseNothing Samples.env
               Samples.optionsCall Samples.quoteCall Samples.quoteBody
               "signed-token" Samples.created
               _ _ _ _ _ _ _ _ _))); reflexivity.
Defined.

Lemma transport_failure_is_server_error_witness :
  ∃ rq, POST_sellQuote Samples.signer Samples.upstreamDown Samples.parseObject
          Samples.env Samples.quoteCall
        = (failure "Failed to generate sell quote",
           [JwtRequested "/onramp/v1/sell/quote" "POST"; Dispatched rq]).
Proof.
  refine (proj2 (proj2 (proj2
            (transport_failure_is_server_error Samples.signer
               Samples.upstreamDown Samples.parseObject Samples.env
               Samples.optionsCall Samples.quoteCall Samples.quoteBody
               "signed-token" _ _ _ _ _ _ _)))); reflexivity.
Defined.


Lemma quote_required_fields_forwarded_witness :
  ∃ sent,
    Some (quoteRequestBody Samples.quoteBody "192.0.2.1") = Some sent
    ∧ Forall (λ kv : string * option json,
                ∃ j, kv.2 = Some j ∧ truthy j = true
                     ∧ field kv.1 sent = Some j)
        [ ("sellCurrency", sellCurrency Samples.quoteBody);
          ("sellAmount", sellAmount Samples.quoteBody);
          ("cashoutCurrency", cashoutCurrency Samples.quoteBody);
          ("paymentMethod", paymentMethod Samples.quoteBody);
          ("country", country Samples.quoteBody);
          ("sourceAddress", sourceAddress Samples.quoteBody);
          ("redirectUrl", redirectUrl Samples.quoteBody);
          ("partnerUserId", partnerUserId Samples.quoteBody) ].
Proof.
  apply (quote_required_fields_forwarded Samples.signer Samples.upstreamCreated
           Samples.parseObject Samples.env Samples.quoteCall Samples.quoteBody
           {| url := "https://api.developer.coinbase.com/onramp/v1/sell/quote";
              method := "POST";
              headers := [ ("Content-Type", "application/json");
                           ("Accept", "application/json");
                           ("Authorization", "Bearer signed-token") ];
              body := Some (quoteRequestBody Samples.quoteBody "192.0.2.1") |}).
  - reflexivity.
  - vm_compute. right. left.
Defined.

Lemma sell_options_query_holds_forwarded_parameters_witness :
  ∃ c q,
    q_country Samples.optionsCall = Some c
    ∧ Url.query "https://api.developer.coinbase.com/onramp/v1/sell/options?country=US&subdivision=N%26Y%3D1"
      = Some q
    ∧ q = Js.URLSearchParams_toString (sellOptionsQuery c Samples.optionsCall)
    ∧ (1 ≤ length (sellOptionsQuery c Samples.optionsCall) ≤ 3)%nat
    ∧ length (filter (λ ch, ch = "="%char) (list_ascii_of_string q))
      = length (sellOptionsQuery c Samples.optionsCall)
    ∧ length (filter (λ ch, ch = "&"%char) (list_ascii_of_string q))
      = (length (sellOptionsQuery c Samples.optionsCall) - 1)%nat
    ∧ length (filter (λ ch, ch = "?"%char) (list_ascii_of_string q)) = 0%nat
    ∧ length (filter (λ ch, ch = "#"%char) (list_ascii_of_string q)) = 0%nat.
Proof.
  apply (sell_options_query_holds_forwarded_parameters Samples.signer
           Samples.upstreamCreated Samples.parseObject Samples.env
           Samples.optionsCall
           {| url := "https://api.developer.coinbase.com/onramp/v1/sell/options?country=US&subdivision=N%26Y%3D1";
              method := "GET";
              headers := [ ("Accept", "application/json");
                           ("Authorization", "Bearer signed-token") ];
              body := None |}).
  vm_compute. right. left.
Defined.

End GatewayExtras.

(** ** The cache between calls *)

Module CacheExtras.
Import OnrampApi CacheRuns.

(** X11. A call that finds an unexpired entry, or whose upstream call fails,
    leaves every cache variable as it was: only a successful upstream call
    writes to the cache, and a failure does not postpone the next try. *)
Theorem cache_written_only_on_upstream_success (c : Cache) :
  (∀ now network,
     configFresh now c = true ∨ delivered (network buyConfigUrl) = None →
     (fetchBuyConfig now network c).2 = c)
  ∧ (∀ country subdivision now network,
       optionsFresh (cacheKey country subdivision) now c = true
       ∨ delivered (network (buyOptionsUrl country subdivision)) = None →
       (fetchBuyOptions country subdivision now network c).2 = c).
Proof.
  split.
  - intros now network H. rewrite CacheFacts.fetchBuyConfig_cases.
    destruct (configFresh now c); [reflexivity|].
    destruct H as [H|H]; [discriminate H|]. by rewrite H.
  - intros country subdivision now network H.
    rewrite CacheFacts.fetchBuyOptions_cases.
    destruct (optionsFresh _ now c); [reflexivity|].
    destruct H as [H|H]; [discriminate H|]. by rewrite H.
Qed.

Lemma cache_written_only_on_upstream_success_witness :
  (fetchBuyOptions "US" (Some "CA") 5 (λ _, Js.Responded 429 None)
     initialCache).2 = initialCache.
Proof.
  refine (proj2 (cache_written_only_on_upstream_success initialCache)
            "US" (Some "CA") 5 (λ _, Js.Responded 429 None) _).
  right. reflexivity.
Defined.

(** X12. After a fetch whose upstream call succeeded at time [now], every fetch
    for the same key at a time [now'] with [now' - now] below fifteen
    minutes returns the same value, whatever the network would answer, and
    leaves the cache as it is.  For the options this holds for every cache
    key but [__proto__], under which no time stamp is ever stored. *)
Theorem fresh_entry_served_without_upstream (c : Cache) :
  (∀ now network apiData now' network',
     configFresh now c = false →
     delivered (network buyConfigUrl) = Some apiData →
     now' - now < 15 * 60 * 1000 →
     fetchBuyConfig now' network' (fetchBuyConfig now network c).2
     = (transformBuyConfigResponse apiData, (fetchBuyConfig now network c).2))
  ∧ (∀ country subdivision now network apiData now' network',
       cacheKey country subdivision ≠ "__proto__" →
       optionsFresh (cacheKey country subdivision) now c = false →
       delivered (network (buyOptionsUrl country subdivision)) = Some apiData →
       now' - now < 15 * 60 * 1000 →
       fetchBuyOptions country subdivision now' network'
         (fetchBuyOptions country subdivision now network c).2
       = (Options (transformBuyOptionsResponse apiData),
          (fetchBuyOptions country subdivision now network c).2)).
Proof.
  split.
  - intros now network apiData now' network' Hfresh Hok Hlt.
    rewrite (CacheFacts.fetchBuyConfig_cases now), Hfresh, Hok. cbn [snd].
    rewrite CacheFacts.fetchBuyConfig_cases.
    unfold configFresh. cbn [buyConfigCache lastConfigFetch].
    replace (now' - now <? CACHE_EXPIRY) with true
      by (symmetry; apply Z.ltb_lt; unfold CACHE_EXPIRY; lia).
    reflexivity.
  - intros country subdivision now network apiData now' network'
      Hkey Hfresh Hok Hlt.
    rewrite (CacheFacts.fetchBuyOptions_cases country subdivision now).
    cbn zeta. rewrite Hfresh, Hok. cbn [snd].
    rewrite CacheFacts.fetchBuyOptions_cases. cbn zeta.
    unfold optionsFresh, cachedOptions, withinExpiry, storeOptions.
    apply String.eqb_neq in Hkey. rewrite Hkey.
    cbn [buyOptionsCache lastOptionsFetch].
    rewrite !lookup_insert_eq.
    replace (now' - now <? CACHE_EXPIRY) with true
      by (symmetry; apply Z.ltb_lt; unfold CACHE_EXPIRY; lia).
    reflexivity.
Qed.

Lemma fresh_entry_served_without_upstream_witness :
  fetchBuyConfig 899999 (λ _, Js.Rejected)
    (fetchBuyConfig 0 (λ _, Js.Responded 200 (Some {| api_countries := [] |}))
       initialCache).2
  = (transformBuyConfigResponse {| api_countries := [] |},
     (fetchBuyConfig 0 (λ _, Js.Responded 200 (Some {| api_countries := [] |}))
        initialCache).2)
  ∧ fetchBuyOptions "US" (Some "CA") 899999 (λ _, Js.Rejected)
      (fetchBuyOptions "US" (Some "CA") 0
         (λ _, Js.Responded 200
                 (Some {| payment_currencies := []; purchase_currencies := [] |}))
         initialCache).2
    = (Options (transformBuyOptionsResponse
                  {| payment_currencies := []; purchase_currencies := [] |}),
       (fetchBuyOptions "US" (Some "CA") 0
          (λ _, Js.Responded 200
                  (Some {| payment_currencies := [];
                           purchase_currencies := [] |}))
          initialCache).2).
Proof.
  split.
  - refine (proj1 (fresh_entry_served_without_upstream initialCache)
              0 (λ _, Js.Responded 200 (Some {| api_countries := [] |}))
              {| api_countries := [] |} 899999 (λ _, Js.Rejected) _ _ _);
      [reflexivity | reflexivity | lia].
  - refine (proj2 (fresh_entry_served_without_upstream initialCache)
              "US" (Some "CA") 0
              (λ _, Js.Responded 200
                      (Some {| payment_currencies := [];
                               purchase_currencies := [] |}))
              {| payment_currencies := []; purchase_currencies := [] |}
              899999 (λ _, Js.Rejected) _ _ _ _);
      [vm_compute; discriminate | reflexivity | reflexivity | lia].
Defined.



Lemma step_keeps_entries c call :
  (is_Some (buyConfigCache c) → is_Some (buyConfigCache (step c call)))
  ∧ ∀ key, is_Some (buyOptionsCache c !! key) →
           is_Some (buyOptionsCache (step c call) !! key).
Proof.
  destruct call as [now network | country subdivision now network]; cbn [step].
  - rewrite CacheFacts.fetchBuyConfig_cases.
    destruct (configFresh now c); [done|].
    destruct (delivered (network _)); [|done]. cbn [snd]. split; [eauto | done].
  - rewrite CacheFacts.fetchBuyOptions_cases. cbn zeta.
    destruct (optionsFresh _ now c); [done|].
    destruct (delivered (network _)) as [apiData|]; [|done]. cbn [snd].
    destruct (CacheFacts.storeOptions_own (cacheKey country subdivision)
                (transformBuyOptionsResponse apiData) now c)
      as (-> & _ & -> & _).
    split; [done|]. intros key Hkey.
    destruct (String.eqb _ "__proto__"); [done|].
    destruct (decide (cacheKey country subdivision = key)) as [->|Hne].
    + rewrite lookup_insert_eq. eauto.
    + by rewrite lookup_insert_ne.
Qed.

(** X14. No sequence of fetches removes an entry: a config entry stays, and a
    key that has an options entry keeps one.  An entry is only ever
    replaced by a newer value. *)
Theorem cache_entries_are_never_removed (calls : list Call) (c : Cache) :
  (is_Some (buyConfigCache c) → is_Some (buyConfigCache (run c calls)))
  ∧ ∀ key, is_Some (buyOptionsCache c !! key) →
           is_Some (buyOptionsCache (run c calls) !! key).
Proof.
  revert c. induction calls as [|call calls IH]; intros c; [done|].
  cbn [run fold_left]. fold (run (step c call) calls).
  destruct (IH (step c call)) as [IHc IHo].
  destruct (step_keeps_entries c call) as [Hc Ho].
  split; [auto | intros key Hkey; auto].
Qed.

Lemma cache_entries_are_never_removed_witness :
  is_Some (buyOptionsCache
             (run (fetchBuyOptions "GB" None 0
                     (λ _, Js.Responded 200
                             (Some {| payment_currencies := [];
                                      purchase_currencies := [] |}))
                     initialCache).2
                [ OptionsCall "GB" None 2000000 (λ _, Js.Rejected);
                  ConfigCall 2000001 (λ _, Js.Responded 500 None) ])
           !! "GB").
Proof.
  refine (proj2 (cache_entries_are_never_removed _ _) "GB" _).
  vm_compute. eauto.
Defined.




End CacheExtras.

(** ** Display names *)

Module NormalizerExtras.

Lemma or_else_keeps_truthy o raw :
  Js.truthy raw = true → Js.truthy (Js.or_else o raw) = true.
Proof.
  intros H. destruct o as [s|]; simpl; [|done].
  by destruct (Js.truthy s) eqn:E.
Qed.

(** An entry of a table whose names are all non-empty is shown by its
    name. *)
Lemma tabled_name {V} (g : V → string) (l : list (string * V)) k e raw :
  forallb (λ kv, Js.truthy (g kv.2)) l = true →
  (list_to_map l : gmap string V) !! k = Some e →
  Js.or_else (Some (g e)) raw = g e.
Proof.
  intros HF H. apply elem_of_list_to_map_2, list_elem_of_In in H.
  rewrite forallb_forall in HF. specialize (HF _ H). simpl in HF.
  simpl. by rewrite HF.
Qed.

Lemma buy_country_name id v raw :
  OnrampApi.countryNames !! id = Some v → Js.or_else (Some v) raw = v.
Proof. apply (tabled_name (λ s, s)). vm_compute. reflexivity. Qed.

Lemma buy_method_name id e raw :
  OnrampApi.paymentMethodNames !! id = Some e →
  Js.or_else (Some (OnrampApi.name e)) raw = OnrampApi.name e.
Proof. apply (tabled_name OnrampApi.name). vm_compute. reflexivity. Qed.

Lemma buy_currency_name id v raw :
  OnrampApi.currencyNames !! id = Some v → Js.or_else (Some v) raw = v.
Proof. apply (tabled_name (λ s, s)). vm_compute. reflexivity. Qed.

Lemma sell_country_name id v raw :
  OfframpApi.countryNames !! id = Some v → Js.or_else (Some v) raw = v.
Proof. apply (tabled_name (λ s, s)). vm_compute. reflexivity. Qed.

Lemma sell_method_name id e raw :
  OfframpApi.paymentMethodNames !! id = Some e →
  Js.or_else (Some (OfframpApi.name e)) raw = OfframpApi.name e.
Proof. apply (tabled_name OfframpApi.name). vm_compute. reflexivity. Qed.

Lemma sell_currency_name id v raw :
  OfframpApi.currencyNames !! id = Some v → Js.or_else (Some v) raw = v.
Proof. apply (tabled_name (λ s, s)). vm_compute. reflexivity. Qed.

(** X16. Every identifier the display-name tables know is shown by the table's
    name, and a payment method by the table's description as well; and no
    transform turns a non-empty identifier into an empty display name.
    This holds for the countries and payment methods of both config
    transforms, for the payment currencies of the buy-options transform,
    and for the cashout currencies and their methods of the sell-options
    transform. *)
Theorem known_identifiers_get_table_names
    (buy : OnrampApi.ApiBuyConfigResponse)
    (sell : OfframpApi.SellConfigResponse)
    (buyOptions : OnrampApi.ApiBuyOptionsResponse)
    (sellOptions : OfframpApi.ApiSellOptionsResponse) :
  Forall2
    (λ a c,
       (∀ v, OnrampApi.countryNames !! OnrampApi.api_country_id a = Some v →
             OnrampApi.country_name c = v)
       ∧ (Js.truthy (OnrampApi.api_country_id a) = true →
          Js.truthy (OnrampApi.country_name c) = true)
       ∧ Forall2
           (λ p m,
              (∀ e, OnrampApi.paymentMethodNames !! OnrampApi.api_pm_id p = Some e →
                    OnrampApi.pm_name m = OnrampApi.name e
                    ∧ OnrampApi.pm_description m = Some (OnrampApi.description e))
              ∧ (Js.truthy (OnrampApi.api_pm_id p) = true →
                 Js.truthy (OnrampApi.pm_name m) = true))
           (OnrampApi.api_payment_methods a) (OnrampApi.paymentMethods c))
    (OnrampApi.api_countries buy)
    (OnrampApi.countries (OnrampApi.transformBuyConfigResponse buy))
  ∧ Forall2
      (λ a c,
         (∀ v, OfframpApi.countryNames !! OfframpApi.api_country_id a = Some v →
               OfframpApi.country_name c = v)
         ∧ (Js.truthy (OfframpApi.api_country_id a) = true →
            Js.truthy (OfframpApi.country_name c) = true)
         ∧ Forall2
             (λ p m,
                (∀ e, OfframpApi.paymentMethodNames !! OfframpApi.api_pm_id p = Some e →
                      OfframpApi.cm_name m = OfframpApi.name e
                      ∧ OfframpApi.cm_description m = Some (OfframpApi.description e))
                ∧ (Js.truthy (OfframpApi.api_pm_id p) = true →
                   Js.truthy (OfframpApi.cm_name m) = true))
             (OfframpApi.payment_methods a) (OfframpApi.cashout_methods c))
      (OfframpApi.api_countries sell)
      (OfframpApi.countries (OfframpApi.transformSellConfigResponse sell))
  ∧ Forall2
      (λ cur out,
         (∀ v, OnrampApi.currencyNames !! OnrampApi.api_currency_id cur = Some v →
               OnrampApi.currency_name out = v)
         ∧ (Js.truthy (OnrampApi.api_currency_id cur) = true →
            Js.truthy (OnrampApi.currency_name out) = true))
      (OnrampApi.payment_currencies buyOptions)
      (OnrampApi.paymentCurrencies (OnrampApi.transformBuyOptionsResponse buyOptions))
  ∧ Forall2
      (λ cur out,
         (∀ v, OfframpApi.currencyNames !! OfframpApi.api_currency_id cur = Some v →
               OfframpApi.currency_name out = v)
         ∧ (Js.truthy (OfframpApi.api_currency_id cur) = true →
            Js.truthy (OfframpApi.currency_name out) = true)
         ∧ Forall2
             (λ row m,
                (∀ e, OfframpApi.paymentMethodNames !! OfframpApi.api_limit_id row = Some e →
                      OfframpApi.option_name m = OfframpApi.name e)
                ∧ (Js.truthy (OfframpApi.api_limit_id row) = true →
                   Js.truthy (OfframpApi.option_name m) = true))
             (OfframpApi.api_limits cur) (OfframpApi.currency_cashout_methods out))
      (OfframpApi.api_cashout_currencies sellOptions)
      (OfframpApi.cashout_currencies
         (OfframpApi.transformSellOptionsResponse sellOptions)).
Proof.
  split_and!.
  - apply NormalizerFacts.Forall2_map_diag. intros a. split_and!.
    + intros v H. unfold OnrampApi.transformCountry.
      cbn [OnrampApi.country_name]. rewrite H. by eapply buy_country_name.
    + apply or_else_keeps_truthy.
    + apply NormalizerFacts.Forall2_map_diag. intros p. split.
      * intros e H. unfold OnrampApi.transformPaymentMethod.
        cbn [OnrampApi.pm_name OnrampApi.pm_description].
        unfold OnrampApi.methodName. rewrite H.
        split; [by eapply buy_method_name | reflexivity].
      * apply or_else_keeps_truthy.
  - apply NormalizerFacts.Forall2_map_diag. intros a. split_and!.
    + intros v H. unfold OfframpApi.transformCountry.
      cbn [OfframpApi.country_name]. rewrite H. by eapply sell_country_name.
    + apply or_else_keeps_truthy.
    + apply NormalizerFacts.Forall2_map_diag. intros p. split.
      * intros e H. unfold OfframpApi.transformCashoutMethod.
        cbn [OfframpApi.cm_name OfframpApi.cm_description].
        unfold OfframpApi.methodName. rewrite H.
        split; [by eapply sell_method_name | reflexivity].
      * apply or_else_keeps_truthy.
  - apply NormalizerFacts.Forall2_map_diag. intros cur. split.
    + intros v H. unfold OnrampApi.transformPaymentCurrency.
      cbn [OnrampApi.currency_name]. rewrite H. by eapply buy_currency_name.
    + apply or_else_keeps_truthy.
  - apply NormalizerFacts.Forall2_map_diag. intros cur. split_and!.
    + intros v H. unfold OfframpApi.transformFiatCurrency.
      cbn [OfframpApi.currency_name]. rewrite H. by eapply sell_currency_name.
    + apply or_else_keeps_truthy.
    + apply NormalizerFacts.Forall2_map_diag. intros row. split.
      * intros e H. unfold OfframpApi.transformLimit.
        cbn [OfframpApi.option_name]. unfold OfframpApi.methodName.
        rewrite H. by eapply sell_method_name.
      * apply or_else_keeps_truthy.
Qed.

End NormalizerExtras.

(** ** The offramp form *)

Module FormExtras.
Import OfframpFeature OfframpForm.

(** *** The network select *)

(** Every network a row of the compatibility table names is one of the
    predefined networks. *)
Lemma row_ids_known A row id :
  assetNetworkMap !! A = Some row → id ∈ row →
  ∃ n, n ∈ networks ∧ network_id n = id.
Proof.
  intros H Hid. apply elem_of_list_to_map_2, list_elem_of_In in H.
  assert (HF : forallb
                 (λ e : string * list string,
                    forallb (λ i, bool_decide (i ∈ map network_id networks)) e.2)
                 assetNetworkEntries = true) by (vm_compute; reflexivity).
  rewrite forallb_forall in HF. specialize (HF _ H). cbn [snd] in HF.
  rewrite forallb_forall in HF. apply list_elem_of_In in Hid.
  specialize (HF _ Hid). apply bool_decide_eq_true, list_elem_of_In in HF.
  apply in_map_iff in HF as (n & Hn & Hin). exists n.
  split; [by apply list_elem_of_In | done].
Qed.

Lemma filter_bool_decide {A} (P : A → Prop) `{∀ x, Decision (P x)} (l : list A) :
  List.filter (λ x, bool_decide (P x)) l = filter P l.
Proof.
  induction l as [|x l IH]; [reflexivity|].
  rewrite filter_cons. cbn [List.filter]. rewrite IH.
  unfold bool_decide, decide. by destruct (H x).
Qed.

Lemma networkOptions_row s row :
  assetNetworkMap !! selectedAsset s = Some row →
  networkOptions s = filter (λ n, network_id n ∈ row) networks.
Proof.
  intros H. unfold networkOptions. rewrite H. apply filter_bool_decide.
Qed.

Lemma mergedNetworks_row A row :
  assetNetworkMap !! A = Some row →
  mergedNetworks A = filter (λ n, network_id n ∈ row) networks.
Proof.
  intros H. unfold mergedNetworks. rewrite H. apply filter_bool_decide.
Qed.

Lemma mergedNetworks_no_row A :
  assetNetworkMap !! A = None → mergedNetworks A = [].
Proof. intros H. unfold mergedNetworks. rewrite H. reflexivity. Qed.

Lemma networkRepairEffect_asset s :
  selectedAsset (networkRepairEffect s) = selectedAsset s.
Proof.
  unfold networkRepairEffect.
  destruct (assetNetworkMap !! selectedAsset s) as [l|]; [|done].
  by destruct (Js.includes l (selectedNetwork s)).
Qed.

(** X17. For a selected asset with a row in the compatibility table, the
    network select offers the networks of that row, all of them and no
    other, and after the repair effect the selected network is one of the
    options offered. *)
Theorem repaired_network_is_offered (s : Selection) (row : list string) :
  assetNetworkMap !! selectedAsset s = Some row →
  (∀ id, id ∈ row ↔ ∃ n, n ∈ networkOptions (networkRepairEffect s)
                         ∧ network_id n = id)
  ∧ ∃ n, n ∈ networkOptions (networkRepairEffect s)
         ∧ selectedNetwork (networkRepairEffect s) = Some (network_id n).
Proof.
  intros Hrow.
  assert (Hopt : networkOptions (networkRepairEffect s)
                 = filter (λ n, network_id n ∈ row) networks).
  { apply networkOptions_row. by rewrite networkRepairEffect_asset. }
  rewrite Hopt.
  assert (Hall : ∀ id, id ∈ row ↔
            ∃ n, n ∈ filter (λ n, network_id n ∈ row) networks
                 ∧ network_id n = id).
  { intros id. split.
    - intros Hid. destruct (row_ids_known _ _ _ Hrow Hid) as (n & Hn & <-).
      exists n. split; [|done]. by apply list_elem_of_filter.
    - intros (n & Hn & <-). by apply list_elem_of_filter in Hn as [? _]. }
  split; [exact Hall|].
  rewrite (SelectionFacts.networkRepairEffect_network s row Hrow).
  destruct (SelectionFacts.repaired_compatible _ _ (selectedNetwork s) Hrow)
    as (id & -> & Hid).
  apply Hall in Hid as (n & Hn & <-). by exists n.
Qed.

Lemma repaired_network_is_offered_witness :
  ∃ n, n ∈ networkOptions
             (networkRepairEffect
                (setSelectedAsset "BTC" initialSelection))
       ∧ selectedNetwork
           (networkRepairEffect (setSelectedAsset "BTC" initialSelection))
         = Some (network_id n).
Proof.
  refine (proj2 (repaired_network_is_offered
                   (setSelectedAsset "BTC" initialSelection) ["bitcoin"] _)).
  reflexivity.
Defined.

Lemma find_in {A} (f : A → bool) (l : list A) x :
  x ∈ l → f x = true → ∃ y, List.find f l = Some y ∧ y ∈ l ∧ f y = true.
Proof.
  intros Hx Hf. destruct (List.find f l) as [y|] eqn:E.
  - apply find_some in E as [Hin Hy]. exists y.
    split_and!; [done | by apply list_elem_of_In | done].
  - apply list_elem_of_In in Hx.
    pose proof (find_none _ _ E _ Hx) as Hn. congruence.
Qed.

Lemma find_absent {A} (f : A → bool) (l : list A) :
  (∀ x, x ∈ l → f x = false) → List.find f l = None.
Proof.
  intros H. destruct (List.find f l) as [y|] eqn:E; [|done].
  apply find_some in E as [Hin Hy]. apply list_elem_of_In in Hin.
  rewrite (H _ Hin) in Hy. discriminate Hy.
Qed.

(** X18. After an asset change to an asset with a row in the compatibility
    table, the list of available networks holds the selected network, and
    the form shows it by its display name. *)
Theorem asset_change_shows_network_name (A : string) (row : list string)
    (s : Selection) :
  assetNetworkMap !! A = Some row →
  ∃ n, n ∈ networks
       ∧ n ∈ availableNetworks (handleAssetChange A s)
       ∧ selectedNetwork (handleAssetChange A s) = Some (network_id n)
       ∧ getSelectedNetworkName (handleAssetChange A s) = Some (network_name n).
Proof.
  intros Hrow.
  pose proof (SelectionFacts.handleAssetChange_network A s row Hrow) as Hnet.
  destruct (SelectionFacts.repaired_compatible _ _ (selectedNetwork s) Hrow)
    as (id & Hid & Hin).
  rewrite Hid in Hnet.
  assert (Hav : availableNetworks (handleAssetChange A s)
                = filter (λ n, network_id n ∈ row) networks).
  { unfold handleAssetChange. rewrite Hrow. cbn zeta.
    by destruct (Js.includes row (selectedNetwork s)). }
  destruct (row_ids_known _ _ _ Hrow Hin) as (n0 & Hn0 & Hid0).
  assert (Hn0' : n0 ∈ availableNetworks (handleAssetChange A s)).
  { rewrite Hav. apply list_elem_of_filter. by rewrite Hid0. }
  destruct (find_in
              (λ n, bool_decide (Some (network_id n)
                                 = selectedNetwork (handleAssetChange A s)))
              _ n0 Hn0')
    as (n & Hfind & Hn & Hsel).
  { apply bool_decide_eq_true. by rewrite Hnet, Hid0. }
  apply bool_decide_eq_true in Hsel.
  exists n. split_and!.
  - rewrite Hav in Hn. by apply list_elem_of_filter in Hn as [_ ?].
  - done.
  - done.
  - unfold getSelectedNetworkName. by rewrite Hfind.
Qed.

Lemma asset_change_shows_network_name_witness :
  ∃ n, n ∈ networks
       ∧ n ∈ availableNetworks (handleAssetChange "XRP" initialSelection)
       ∧ selectedNetwork (handleAssetChange "XRP" initialSelection)
         = Some (network_id n)
       ∧ getSelectedNetworkName (handleAssetChange "XRP" initialSelection)
         = Some (network_name n).
Proof.
  refine (asset_change_shows_network_name "XRP" ["ripple"] initialSelection _).
  reflexivity.
Defined.

(** *** [fetchAssets] *)

Lemma usdc_row :
  ∃ row, assetNetworkMap !! "USDC" = Some row
         ∧ Js.includes row (Some "base") = true.
Proof. eexists. split; vm_compute; reflexivity. Qed.

Lemma withSelection_compose g h f :
  withSelection g (withSelection h f) = withSelection (λ s, g (h s)) f.
Proof. reflexivity. Qed.

(** No member of [Object.prototype] is an asset of the table. *)
Lemma inherited_no_row k :
  Js.inherited k = true → assetNetworkMap !! k = None.
Proof.
  unfold Js.inherited. rewrite bool_decide_eq_true. intros H.
  unfold Js.objectPrototypeMembers in H.
  repeat (apply elem_of_cons in H as [-> | H]; [vm_compute; reflexivity|]).
  by apply elem_of_nil in H.
Qed.

(** The first half of the [try] changes the selection and the available
    assets only, and it does not throw when no asset of the offer names a
    member of [Object.prototype]. *)
Lemma applySellCurrencies_shape options f :
  Forall (λ a, Js.inherited (OfframpApi.asset_code a) = false)
    (OfframpApi.sell_currencies options) →
  ∃ g assets,
    applySellCurrencies options f
    = Some (withSelection g (setAvailableAssets assets f)).
Proof.
  intros Hord. unfold applySellCurrencies.
  destruct (OfframpApi.sell_currencies options) as [|first rest] eqn:Hs.
  - exists (λ s, s), (availableAssets f).
    destruct f as [[? ? ? ? ?] ? ? ? ? ? ? ?]. reflexivity.
  - cbn zeta. apply Forall_cons in Hord as [Hfirst _].
    destruct (List.find _ (first :: rest)) as [u|].
    + destruct usdc_row as (row & -> & ->). do 2 eexists; reflexivity.
    + rewrite Hfirst.
      destruct (assetNetworkMap !! OfframpApi.asset_code first) as [[|n r]|].
      * destruct (mergedNetworks (OfframpApi.asset_code first));
          rewrite ?withSelection_compose; do 2 eexists; reflexivity.
      * rewrite withSelection_compose. do 2 eexists; reflexivity.
      * destruct (mergedNetworks (OfframpApi.asset_code first));
          rewrite ?withSelection_compose; do 2 eexists; reflexivity.
Qed.

(** It throws when no USDC is offered and the first asset offered names
    such a member. *)
Lemma applySellCurrencies_throws options f first rest :
  OfframpApi.sell_currencies options = first :: rest →
  (∀ a, a ∈ first :: rest → OfframpApi.asset_code a ≠ "USDC") →
  Js.inherited (OfframpApi.asset_code first) = true →
  applySellCurrencies options f = None.
Proof.
  intros Hs Hno Hin. unfold applySellCurrencies. rewrite Hs. cbn zeta.
  rewrite (find_absent (λ a, String.eqb (OfframpApi.asset_code a) "USDC"))
    by (intros x Hx; apply String.eqb_neq; by apply Hno).
  by rewrite (inherited_no_row _ Hin), Hin.
Qed.

Lemma applyCashoutCurrencies_keeps options f :
  selection (applyCashoutCurrencies options f) = selection f
  ∧ availableAssets (applyCashoutCurrencies options f) = availableAssets f.
Proof.
  unfold applyCashoutCurrencies.
  destruct (OfframpApi.cashout_currencies options) as [|first rest]; [done|].
  cbn zeta.
  destruct (OfframpApi.currency_cashout_methods _); split; reflexivity.
Qed.

Lemma applyOptions_selection options f f1 :
  applySellCurrencies options f = Some f1 →
  selection (applyOptions options f) = selection f1
  ∧ availableAssets (applyOptions options f) = availableAssets f1.
Proof.
  intros H. unfold applyOptions. rewrite H.
  destruct (applyCashoutCurrencies_keeps options f1) as [Hs Ha].
  split; [exact Hs | exact Ha].
Qed.

(** X19. When the offer holds USDC, [fetchAssets] keeps the asset, the network,
    the country and the subdivision the form has selected, whatever they
    are; it replaces the available assets by the offer and the available
    networks by those an asset change to USDC shows. *)
Theorem refetch_keeps_selection_when_usdc_offered
    (options : OfframpApi.SellOptionsResponse) (f : Form)
    (a : OfframpApi.CryptoAsset) :
  a ∈ OfframpApi.sell_currencies options →
  OfframpApi.asset_code a = "USDC" →
  selectedAsset (selection (applyOptions options f)) = selectedAsset (selection f)
  ∧ selectedNetwork (selection (applyOptions options f))
    = selectedNetwork (selection f)
  ∧ selectedCountry (selection (applyOptions options f))
    = selectedCountry (selection f)
  ∧ selectedSubdivision (selection (applyOptions options f))
    = selectedSubdivision (selection f)
  ∧ availableNetworks (selection (applyOptions options f))
    = availableNetworks (handleAssetChange "USDC" (selection f))
  ∧ availableAssets (applyOptions options f) = OfframpApi.sell_currencies options.
Proof.
  intros Ha Hcode.
  assert (Hsome : applySellCurrencies options f
                  = Some (withSelection
                            (setAvailableNetworks (mergedNetworks "USDC"))
                            (setAvailableAssets
                               (OfframpApi.sell_currencies options) f))).
  { unfold applySellCurrencies.
    destruct (OfframpApi.sell_currencies options) as [|first rest] eqn:Hs;
      [by apply elem_of_nil in Ha|].
    cbn zeta.
    destruct (find_in (λ a, String.eqb (OfframpApi.asset_code a) "USDC")
                _ a Ha) as (u & -> & _ & _); [by rewrite Hcode|].
    by destruct usdc_row as (row & -> & ->). }
  destruct (applyOptions_selection _ _ _ Hsome) as [-> ->].
  destruct usdc_row as (row & Hrow & Hbase).
  split_and!; try reflexivity.
  cbn [withSelection selection setAvailableNetworks availableNetworks].
  rewrite (mergedNetworks_row _ _ Hrow).
  unfold handleAssetChange. rewrite Hrow. cbn zeta.
  by destruct (Js.includes row (selectedNetwork (selection f))).
Qed.

Lemma refetch_keeps_selection_when_usdc_offered_witness :
  selectedAsset
    (selection
       (applyOptions OfframpApi.sellOptionsFallback
          (withSelection (handleAssetChange "DOGE") initialForm)))
  = "DOGE".
Proof.
  refine (proj1 (refetch_keeps_selection_when_usdc_offered
                   OfframpApi.sellOptionsFallback
                   (withSelection (handleAssetChange "DOGE") initialForm)
                   (OfframpApi.asset "USDC" "USD Coin"
                      [ OfframpApi.nw "ethereum" "Ethereum";
                        OfframpApi.nw "base" "Base";
                        OfframpApi.nw "optimism" "Optimism";
                        OfframpApi.nw "polygon" "Polygon";
                        OfframpApi.nw "arbitrum" "Arbitrum";
                        OfframpApi.nw "solana" "Solana";
                        OfframpApi.nw "avalanche-c-chain" "Avalanche";
                        OfframpApi.nw "unichain" "Unichain";
                        OfframpApi.nw "aptos" "Aptos";
                        OfframpApi.nw "bnb-chain" "BNB Chain" ])
                   _ _)).
  - do 2 right. left.
  - reflexivity.
Defined.

(** X20. When the offer is not empty and does not hold USDC, and its first
    asset names no member of [Object.prototype], [fetchAssets] selects
    that first asset.  If the compatibility table has a row for it, the
    selected network becomes the first network of the row (also when the
    network selected before is in the row) and the available networks are
    those of the row; otherwise the network stays and no network is
    available.  Either way the repair effect finds nothing to repair.
    When the first asset does name such a member, the [try] block throws
    and the [catch] installs the defaults of the component: USDC on Base
    with the networks of USDC, the default assets and cashout currencies,
    USD and ACH_BANK_ACCOUNT. *)
Theorem refetch_without_usdc_selects_first_asset
    (options : OfframpApi.SellOptionsResponse) (f : Form)
    (first : OfframpApi.CryptoAsset) (rest : list OfframpApi.CryptoAsset) :
  OfframpApi.sell_currencies options = first :: rest →
  (∀ a, a ∈ first :: rest → OfframpApi.asset_code a ≠ "USDC") →
  (Js.inherited (OfframpApi.asset_code first) = false →
   selectedAsset (selection (applyOptions options f)) = OfframpApi.asset_code first
   ∧ availableAssets (applyOptions options f) = first :: rest
   ∧ networkRepairEffect (selection (applyOptions options f))
     = selection (applyOptions options f)
   ∧ match assetNetworkMap !! OfframpApi.asset_code first with
     | Some row =>
         selectedNetwork (selection (applyOptions options f)) = head row
         ∧ Js.includes row (selectedNetwork (selection (applyOptions options f)))
           = true
         ∧ availableNetworks (selection (applyOptions options f))
           = filter (λ n, network_id n ∈ row) networks
     | None =>
         selectedNetwork (selection (applyOptions options f))
         = selectedNetwork (selection f)
         ∧ availableNetworks (selection (applyOptions options f)) = []
     end)
  ∧ (Js.inherited (OfframpApi.asset_code first) = true →
     selectedAsset (selection (applyOptions options f)) = "USDC"
     ∧ selectedNetwork (selection (applyOptions options f)) = Some "base"
     ∧ availableNetworks (selection (applyOptions options f))
       = availableNetworks (handleAssetChange "USDC" (selection f))
     ∧ selectedCountry (selection (applyOptions options f))
       = selectedCountry (selection f)
     ∧ selectedSubdivision (selection (applyOptions options f))
       = selectedSubdivision (selection f)
     ∧ availableAssets (applyOptions options f) = defaultAssets
     ∧ cashoutCurrencies (applyOptions options f) = defaultCashoutCurrencies
     ∧ selectedCashoutCurrency (applyOptions options f) = "USD"
     ∧ selectedCashoutMethod (applyOptions options f) = "ACH_BANK_ACCOUNT"
     ∧ isLoading (applyOptions options f) = false).
Proof.
  intros Hs Hno.
  assert (Hfind : List.find (λ a, String.eqb (OfframpApi.asset_code a) "USDC")
                    (first :: rest) = None).
  { apply find_absent. intros x Hx. apply String.eqb_neq. by apply Hno. }
  split.
  - intros Hord.
    destruct (assetNetworkMap !! OfframpApi.asset_code first) as [row|] eqn:Hrow.
    + destruct (SelectionFacts.assetNetworkMap_head _ _ Hrow) as (n & Hhead & Hn).
      destruct row as [|n' r]; [discriminate Hhead|]. injection Hhead as ->.
      assert (Hsome : applySellCurrencies options f
        = Some (withSelection (setSelectedNetwork (Some n))
                  (withSelection
                     (λ s, setAvailableNetworks
                             (mergedNetworks (OfframpApi.asset_code first))
                             (setSelectedAsset (OfframpApi.asset_code first) s))
                     (setAvailableAssets (first :: rest) f)))).
      { unfold applySellCurrencies. rewrite Hs. cbn zeta.
        by rewrite Hfind, Hrow. }
      destruct (applyOptions_selection _ _ _ Hsome) as [-> ->].
      cbn [withSelection selection setSelectedNetwork setAvailableNetworks
           setSelectedAsset setAvailableAssets selectedAsset selectedNetwork
           availableNetworks availableAssets head].
      split_and!; try reflexivity.
      * unfold networkRepairEffect.
        cbn [setSelectedNetwork setAvailableNetworks setSelectedAsset
             selectedAsset selectedNetwork].
        rewrite Hrow. cbn [Js.includes]. by rewrite bool_decide_eq_true_2.
      * by apply bool_decide_eq_true_2.
      * by apply mergedNetworks_row.
    + assert (Hsome : applySellCurrencies options f
        = Some (withSelection
                  (λ s, setAvailableNetworks
                          (mergedNetworks (OfframpApi.asset_code first))
                          (setSelectedAsset (OfframpApi.asset_code first) s))
                  (setAvailableAssets (first :: rest) f))).
      { unfold applySellCurrencies. rewrite Hs. cbn zeta.
        by rewrite Hfind, Hrow, Hord, (mergedNetworks_no_row _ Hrow). }
      destruct (applyOptions_selection _ _ _ Hsome) as [-> ->].
      cbn [withSelection selection setSelectedNetwork setAvailableNetworks
           setSelectedAsset setAvailableAssets selectedAsset selectedNetwork
           availableNetworks availableAssets].
      split_and!; try reflexivity.
      * unfold networkRepairEffect.
        cbn [setAvailableNetworks setSelectedAsset selectedAsset].
        by rewrite Hrow.
      * by apply mergedNetworks_no_row.
  - intros Hin. unfold applyOptions.
    rewrite (applySellCurrencies_throws options f first rest Hs Hno Hin).
    assert (Hnets : availableNetworks (handleAssetChange "USDC" (selection f))
                    = mergedNetworks "USDC").
    { destruct usdc_row as (row & Hrow & _).
      rewrite (mergedNetworks_row _ _ Hrow).
      unfold handleAssetChange. rewrite Hrow. cbn zeta.
      by destruct (Js.includes row (selectedNetwork (selection f))). }
    rewrite Hnets.
    destruct f as [[a n c sd av] am aa cc scc scm cm il].
    split_and!; vm_compute; reflexivity.
Qed.

Lemma refetch_without_usdc_selects_first_asset_witness :
  selectedAsset
    (selection
       (applyOptions
          {| OfframpApi.cashout_currencies := [];
             OfframpApi.sell_currencies :=
               [ OfframpApi.asset "BTC" "Bitcoin"
                   [OfframpApi.nw "bitcoin" "Bitcoin"] ] |}
          initialForm))
  = "BTC".
Proof.
  refine (proj1 (proj1 (refetch_without_usdc_selects_first_asset
                   {| OfframpApi.cashout_currencies := [];
                      OfframpApi.sell_currencies :=
                        [ OfframpApi.asset "BTC" "Bitcoin"
                            [OfframpApi.nw "bitcoin" "Bitcoin"] ] |}
                   initialForm
                   (OfframpApi.asset "BTC" "Bitcoin"
                      [OfframpApi.nw "bitcoin" "Bitcoin"]) [] _ _) _)).
  - reflexivity.
  - intros a Ha. apply list_elem_of_singleton in Ha as ->. discriminate.
  - reflexivity.
Defined.

Lemma applySellCurrencies_keeps_cashout options f f1 :
  applySellCurrencies options f = Some f1 →
  cashoutCurrencies f1 = cashoutCurrencies f
  ∧ selectedCashoutCurrency f1 = selectedCashoutCurrency f
  ∧ selectedCashoutMethod f1 = selectedCashoutMethod f
  ∧ cashoutMethods f1 = cashoutMethods f.
Proof.
  unfold applySellCurrencies.
  destruct (OfframpApi.sell_currencies options) as [|first rest];
    [by intros [= <-]|].
  cbn zeta. destruct (List.find _ (first :: rest)) as [u|].
  - destruct (assetNetworkMap !! "USDC") as [row|]; [|done].
    destruct (Js.includes row (Some "base")); by intros [= <-].
  - destruct (assetNetworkMap !! OfframpApi.asset_code first) as [[|n r]|];
      [| by intros [= <-] | destruct (Js.inherited _); [done|]];
      destruct (mergedNetworks (OfframpApi.asset_code first));
      by intros [= <-].
Qed.

(** X21. When no asset of the offer names a member of [Object.prototype]
    (so that the asset half of the [try] block does not throw) and the
    offer holds cashout currencies, [fetchAssets] selects one of them: the
    first whose code is USD, or the first of the offer when none is.  When
    that currency has cashout methods, they become the methods of the form
    and one of them is selected: the first whose identifier is
    ACH_BANK_ACCOUNT, or the first method when none is.  When it has none,
    the methods and the selected method of the form stay as they were. *)
Theorem cashout_defaults_come_from_offer
    (options : OfframpApi.SellOptionsResponse) (f : Form)
    (first : OfframpApi.FiatCurrency) (rest : list OfframpApi.FiatCurrency) :
  Forall (λ a, Js.inherited (OfframpApi.asset_code a) = false)
    (OfframpApi.sell_currencies options) →
  OfframpApi.cashout_currencies options = first :: rest →
  cashoutCurrencies (applyOptions options f) = first :: rest
  ∧ ∃ c,
      c ∈ first :: rest
      ∧ selectedCashoutCurrency (applyOptions options f)
        = OfframpApi.currency_code c
      ∧ ((∃ u, u ∈ first :: rest ∧ OfframpApi.currency_code u = "USD") →
         OfframpApi.currency_code c = "USD")
      ∧ ((∀ u, u ∈ first :: rest → OfframpApi.currency_code u ≠ "USD") →
         c = first)
      ∧ match OfframpApi.currency_cashout_methods c with
        | [] =>
            cashoutMethods (applyOptions options f) = cashoutMethods f
            ∧ selectedCashoutMethod (applyOptions options f)
              = selectedCashoutMethod f
        | m0 :: ms =>
            cashoutMethods (applyOptions options f) = m0 :: ms
            ∧ ∃ m,
                m ∈ m0 :: ms
                ∧ selectedCashoutMethod (applyOptions options f)
                  = OfframpApi.option_id m
                ∧ ((∃ x, x ∈ m0 :: ms
                         ∧ OfframpApi.option_id x = "ACH_BANK_ACCOUNT") →
                   OfframpApi.option_id m = "ACH_BANK_ACCOUNT")
                ∧ ((∀ x, x ∈ m0 :: ms →
                         OfframpApi.option_id x ≠ "ACH_BANK_ACCOUNT") →
                   m = m0)
        end.
Proof.
  intros Hord Hc.
  destruct (applySellCurrencies_shape options f Hord) as (g & assets & Hsome).
  destruct (applySellCurrencies_keeps_cashout _ _ _ Hsome)
    as (_ & _ & Hmeth & Hmeths).
  unfold applyOptions. rewrite Hsome.
  remember (withSelection g (setAvailableAssets assets f)) as f1 eqn:Hf1.
  unfold applyCashoutCurrencies. rewrite Hc. cbn zeta.
  set (found := List.find (λ c, String.eqb (OfframpApi.currency_code c) "USD")
                  (first :: rest)).
  assert (Hchosen :
    default first found ∈ first :: rest
    ∧ ((∃ u, u ∈ first :: rest ∧ OfframpApi.currency_code u = "USD") →
       OfframpApi.currency_code (default first found) = "USD")
    ∧ ((∀ u, u ∈ first :: rest → OfframpApi.currency_code u ≠ "USD") →
       default first found = first)).
  { subst found.
    destruct (List.find _ (first :: rest)) as [u|] eqn:E; cbn [default].
    - apply find_some in E as [Hin Hu]. apply String.eqb_eq in Hu.
      split_and!; [by apply list_elem_of_In | done |].
      intros Hno. apply list_elem_of_In in Hin. by apply Hno in Hin.
    - split_and!; [left | | done].
      intros (u & Hu & Hcode). apply list_elem_of_In in Hu.
      pose proof (find_none _ _ E _ Hu) as Hn. cbn beta in Hn.
      rewrite Hcode in Hn. discriminate Hn. }
  destruct Hchosen as (Hin & Husd & Hfirst).
  remember (default first found) as c eqn:Hcdef.
  destruct (OfframpApi.currency_cashout_methods c) as [|m0 ms] eqn:Hm.
  - split; [reflexivity|]. exists c. rewrite Hm.
    split_and!; try done.
  - split; [reflexivity|]. exists c. rewrite Hm.
    split_and!; try done.
    set (ach := List.find
                  (λ m, String.eqb (OfframpApi.option_id m) "ACH_BANK_ACCOUNT")
                  (m0 :: ms)).
    destruct ach as [x|] eqn:E; subst ach.
    + apply find_some in E as [Hx Hid]. apply String.eqb_eq in Hid.
      exists x. split_and!; [by apply list_elem_of_In | done | done |].
      intros Hno. apply list_elem_of_In in Hx. by apply Hno in Hx.
    + exists m0. split_and!; [left | done | | done].
      intros (x & Hx & Hid). apply list_elem_of_In in Hx.
      pose proof (find_none _ _ E _ Hx) as Hn. cbn beta in Hn.
      rewrite Hid in Hn. discriminate Hn.
Qed.

Lemma cashout_defaults_come_from_offer_witness :
  cashoutCurrencies
    (applyOptions
       {| OfframpApi.cashout_currencies :=
            [ OfframpApi.fiat "EUR" "Euro" "SEPA_BANK_ACCOUNT" "SEPA Bank Transfer" ];
          OfframpApi.sell_currencies :=
            [ OfframpApi.asset "BTC" "Bitcoin"
                [OfframpApi.nw "bitcoin" "Bitcoin"] ] |}
       initialForm)
  = [ OfframpApi.fiat "EUR" "Euro" "SEPA_BANK_ACCOUNT" "SEPA Bank Transfer" ]
  ∧ ∃ c,
      c ∈ [ OfframpApi.fiat "EUR" "Euro" "SEPA_BANK_ACCOUNT" "SEPA Bank Transfer" ]
      ∧ selectedCashoutCurrency
          (applyOptions
             {| OfframpApi.cashout_currencies :=
                  [ OfframpApi.fiat "EUR" "Euro" "SEPA_BANK_ACCOUNT"
                      "SEPA Bank Transfer" ];
                OfframpApi.sell_currencies :=
                  [ OfframpApi.asset "BTC" "Bitcoin"
                      [OfframpApi.nw "bitcoin" "Bitcoin"] ] |}
             initialForm)
        = OfframpApi.currency_code c.
Proof.
  destruct (cashout_defaults_come_from_offer
              {| OfframpApi.cashout_currencies :=
                   [ OfframpApi.fiat "EUR" "Euro" "SEPA_BANK_ACCOUNT"
                       "SEPA Bank Transfer" ];
                 OfframpApi.sell_currencies :=
                   [ OfframpApi.asset "BTC" "Bitcoin"
                       [OfframpApi.nw "bitcoin" "Bitcoin"] ] |}
              initialForm
              (OfframpApi.fiat "EUR" "Euro" "SEPA_BANK_ACCOUNT"
                 "SEPA Bank Transfer") [])
    as (H1 & c & H2 & H3 & _).
  - repeat constructor.
  - reflexivity.
  - split; [exact H1|]. exists c. split; [exact H2 | exact H3].
Defined.

End FormExtras.

(** ** The wallet session, the guards and the quote request *)

Module SessionExtras.
Import OfframpFeature OfframpForm EmbeddedWalletAuth.

Lemma append_cons a (s r : string) : String a s +:+ r = String a (s +:+ r).
Proof. reflexivity. Qed.

Lemma length_append (s r : string) :
  String.length (s +:+ r) = (String.length s + String.length r)%nat.
Proof.
  induction s as [|a s IH]; [reflexivity|].
  rewrite append_cons. cbn [String.length]. by rewrite IH.
Qed.

Lemma truthy_append_r (s r : string) :
  Js.truthy r = true → Js.truthy (s +:+ r) = true.
Proof. destruct s as [|a s]; [done|]. by rewrite append_cons. Qed.

Lemma substring_prefix n (s : string) :
  String.prefix (String.substring 0 n s) s = true.
Proof.
  revert s. induction n as [|n IH]; intros [|c s]; simpl; try done.
  destruct (ascii_dec c c); [apply IH | done].
Qed.

Lemma substring_length n (s : string) :
  (String.length (String.substring 0 n s) ≤ n)%nat.
Proof.
  revert s. induction n as [|n IH]; intros [|c s]; simpl; try lia.
  specialize (IH s). lia.
Qed.

Lemma substring_truthy n (s : string) :
  Js.truthy s = true → Js.truthy (String.substring 0 (S n) s) = true.
Proof. by destruct s. Qed.

Lemma substring_append_l (p r : string) :
  String.substring 0 (String.length p) (p +:+ r) = p.
Proof.
  induction p as [|a p IH].
  - by destruct r.
  - rewrite append_cons. cbn [String.length String.substring]. by rewrite IH.
Qed.

Lemma substring_all (q : string) :
  String.substring 0 (String.length q) q = q.
Proof. induction q as [|a q IH]; simpl; [done | by rewrite IH]. Qed.

Lemma substring_append_r (x q : string) :
  String.substring (String.length x) (String.length q) (x +:+ q) = q.
Proof.
  induction x as [|a x IH].
  - apply substring_all.
  - rewrite append_cons. cbn [String.length String.substring]. exact IH.
Qed.

(** X22. [truncateAddress] shows an address of ten characters or more by its
    first six characters, three dots and its last four: thirteen
    characters, whatever lies between the two ends. *)
Theorem truncateAddress_shows_both_ends (p m q : string) :
  String.length p = 6%nat → String.length q = 4%nat →
  truncateAddress (p +:+ m +:+ q) = p +:+ "..." +:+ q
  ∧ String.length (truncateAddress (p +:+ m +:+ q)) = 13%nat.
Proof.
  intros Hp Hq.
  assert (Hcut : truncateAddress (p +:+ m +:+ q) = p +:+ "..." +:+ q).
  { unfold truncateAddress.
    assert (Ht : Js.truthy (p +:+ m +:+ q) = true)
      by (destruct p; [discriminate Hp | by rewrite append_cons]).
    rewrite Ht. f_equal.
    - rewrite <- Hp. apply substring_append_l.
    - f_equal. unfold slice_last.
      assert (Happ : p +:+ m +:+ q = (p +:+ m) +:+ q).
      { clear. induction p as [|a p IH]; [reflexivity|].
        rewrite !append_cons. by rewrite IH. }
      rewrite Happ, length_append, Hq, Nat.add_sub.
      rewrite <- Hq at 1. apply substring_append_r. }
  split; [exact Hcut|].
  rewrite Hcut, !length_append, Hp, Hq. reflexivity.
Qed.

Lemma truncateAddress_shows_both_ends_witness :
  truncateAddress ("0x1234" +:+ "567890abcdef1234567890abcdef1234" +:+ "5678")
  = "0x1234" +:+ "..." +:+ "5678".
Proof.
  refine (proj1 (truncateAddress_shows_both_ends
                   "0x1234" "567890abcdef1234567890abcdef1234" "5678" _ _));
    reflexivity.
Defined.

(** X23. The guards of [handleOfframp] and of [handleGenerateUrl] stop the same
    sessions with the same message; the message "Please connect your
    embedded wallet first" of [handleOfframp] is never set, as a session
    that passes the two guards before it is connected; and a handler gets
    past its guards exactly when the session is connected and a cashout
    method is selected. *)
Theorem offramp_guards_agree (a : Session) (f : Form) :
  handleOfframpGuards a f = handleGenerateUrlGuards a f
  ∧ handleOfframpGuards a f ≠ Some "Please connect your embedded wallet first"
  ∧ (handleOfframpGuards a f = None ↔
     isConnected a = true ∧ Js.truthy (selectedCashoutMethod f) = true).
Proof.
  unfold handleOfframpGuards, handleGenerateUrlGuards, isConnected, address.
  destruct a as [[] [[|c w]|]]; cbn [authenticated wallet negb Js.falsy
    Js.truthy andb]; destruct (Js.truthy (selectedCashoutMethod f));
    cbn [negb]; split_and!; try reflexivity; try (intros H; discriminate H);
    try (split; [intros H; discriminate H | intros [H1 H2]; discriminate]);
    try (split; [done | done]).
Qed.


Lemma handleGenerateUrl_inv origin a f rq :
  handleGenerateUrl origin a f = inr rq →
  ∃ addr, authenticated a = true ∧ wallet a = Some addr
          ∧ Js.truthy addr = true
          ∧ Js.truthy (selectedCashoutMethod f) = true
          ∧ rq = quoteRequest origin addr f.
Proof.
  unfold handleGenerateUrl, handleGenerateUrlGuards, address.
  destruct a as [[] [[|c w]|]]; cbn [authenticated wallet negb Js.falsy
    Js.truthy]; try (intros H; discriminate H).
  destruct (Js.truthy (selectedCashoutMethod f)) eqn:Hm; cbn [negb];
    [|intros H; discriminate H].
  intros [= <-]. exists (String c w). by split_and!.
Qed.

(** The required-field test of the route on the request of the form. *)
Lemma quoteRequest_required origin addr f :
  Js.truthy addr = true → Js.truthy (selectedCashoutMethod f) = true →
  (Routes.missingRequired (quoteRequest origin addr f) = false ↔
   Js.truthy (selectedAsset (selection f)) = true
   ∧ Js.truthy (amount f) = true
   ∧ Js.truthy (selectedCashoutCurrency f) = true
   ∧ Js.truthy (selectedCountry (selection f)) = true).
Proof.
  intros Haddr Hm.
  pose proof (substring_truthy 48 addr Haddr) as Hpid.
  unfold Routes.missingRequired.
  cbn [quoteRequest Routes.sellCurrency Routes.sellAmount
       Routes.cashoutCurrency Routes.paymentMethod Routes.country
       Routes.sourceAddress Routes.redirectUrl Routes.partnerUserId
       Routes.falsy_value Routes.truthy].
  rewrite Hm, Haddr, Hpid, (truthy_append_r origin "/offramp") by done.
  cbn [negb]. rewrite !orb_false_r.
  destruct (Js.truthy (selectedAsset (selection f))),
           (Js.truthy (amount f)),
           (Js.truthy (selectedCashoutCurrency f)),
           (Js.truthy (selectedCountry (selection f)));
    cbn [negb orb]; split; try done; by intros (? & ? & ? & ?).
Qed.

(** X25. The request [handleGenerateUrl] posts: it is posted for a signed-in
    session with a non-empty wallet address and a selected (non-empty)
    cashout method only; the source address is the wallet address, the partner user id its first 49
    characters at most, the payment method is the selected cashout method,
    the network is sent when one is selected, the subdivision is sent for
    the country US only, and the request passes the required-field test of
    the sell-quote route exactly when the asset, the amount, the cashout
    currency and the country of the form are not empty. *)
Theorem generated_quote_request (origin : string) (a : Session) (f : Form)
    (rq : Routes.SellQuoteRequest) :
  handleGenerateUrl origin a f = inr rq →
  ∃ addr pid,
    isConnected a = true
    ∧ wallet a = Some addr
    ∧ Js.truthy addr = true
    ∧ Js.truthy (selectedCashoutMethod f) = true
    ∧ Routes.sourceAddress rq = Some (Routes.JStr addr)
    ∧ Routes.partnerUserId rq = Some (Routes.JStr pid)
    ∧ String.prefix pid addr = true
    ∧ (1 ≤ String.length pid ≤ 49)%nat
    ∧ Routes.paymentMethod rq = Some (Routes.JStr (selectedCashoutMethod f))
    ∧ Routes.sellNetwork rq = Routes.JStr <$> selectedNetwork (selection f)
    ∧ Routes.subdivision rq
      = (if decide (selectedCountry (selection f) = "US")
         then Some (Routes.JStr (selectedSubdivision (selection f)))
         else None)
    ∧ (Routes.missingRequired rq = false ↔
       Js.truthy (selectedAsset (selection f)) = true
       ∧ Js.truthy (amount f) = true
       ∧ Js.truthy (selectedCashoutCurrency f) = true
       ∧ Js.truthy (selectedCountry (selection f)) = true).
Proof.
  intros (addr & Hauth & Hw & Haddr & Hm & ->)%handleGenerateUrl_inv.
  exists addr, (String.substring 0 49 addr).
  pose proof (substring_truthy 48 addr Haddr) as Hpid.
  split_and!; try reflexivity.
  - unfold isConnected. rewrite Hauth, Hw. simpl. by rewrite Haddr.
  - done.
  - done.
  - done.
  - apply substring_prefix.
  - destruct (String.substring 0 49 addr); [discriminate Hpid|]. simpl. lia.
  - apply substring_length.
  - cbn [quoteRequest Routes.subdivision].
    destruct (String.eqb_spec (selectedCountry (selection f)) "US");
      by case_decide.
  - by apply quoteRequest_required.
Qed.

Lemma generated_quote_request_witness :
  ∃ addr pid,
    isConnected (syncSession true (Some "0x1234567890abcdef1234567890abcdef12345678"))
    = true
    ∧ wallet (syncSession true (Some "0x1234567890abcdef1234567890abcdef12345678"))
      = Some addr
    ∧ Js.truthy addr = true
    ∧ Js.truthy "ACH_BANK_ACCOUNT" = true
    ∧ Routes.sourceAddress
        (quoteRequest "https://example.com"
           "0x1234567890abcdef1234567890abcdef12345678"
           (setSelectedCashoutMethod "ACH_BANK_ACCOUNT" initialForm))
      = Some (Routes.JStr addr)
    ∧ Routes.partnerUserId
        (quoteRequest "https://example.com"
           "0x1234567890abcdef1234567890abcdef12345678"
           (setSelectedCashoutMethod "ACH_BANK_ACCOUNT" initialForm))
      = Some (Routes.JStr pid)
    ∧ String.prefix pid addr = true
    ∧ (1 ≤ String.length pid ≤ 49)%nat
    ∧ Routes.paymentMethod
        (quoteRequest "https://example.com"
           "0x1234567890abcdef1234567890abcdef12345678"
           (setSelectedCashoutMethod "ACH_BANK_ACCOUNT" initialForm))
      = Some (Routes.JStr "ACH_BANK_ACCOUNT")
    ∧ Routes.sellNetwork
        (quoteRequest "https://example.com"
           "0x1234567890abcdef1234567890abcdef12345678"
           (setSelectedCashoutMethod "ACH_BANK_ACCOUNT" initialForm))
      = Some (Routes.JStr "base")
    ∧ Routes.subdivision
        (quoteRequest "https://example.com"
           "0x1234567890abcdef1234567890abcdef12345678"
           (setSelectedCashoutMethod "ACH_BANK_ACCOUNT" initialForm))
      = Some (Routes.JStr "CA")
    ∧ (Routes.missingRequired
         (quoteRequest "https://example.com"
            "0x1234567890abcdef1234567890abcdef12345678"
            (setSelectedCashoutMethod "ACH_BANK_ACCOUNT" initialForm))
       = false ↔
       true = true ∧ true = true ∧ true = true ∧ true = true).
Proof.
  refine (generated_quote_request "https://example.com"
            (syncSession true (Some "0x1234567890abcdef1234567890abcdef12345678"))
            (setSelectedCashoutMethod "ACH_BANK_ACCOUNT" initialForm)
            (quoteRequest "https://example.com"
               "0x1234567890abcdef1234567890abcdef12345678"
               (setSelectedCashoutMethod "ACH_BANK_ACCOUNT" initialForm))
            _).
  reflexivity.
Defined.

(** The address [handleOfframp] opens has seven query parameters whatever
    the session token, the wallet address, the origin and the selected
    values hold: one [=] for each, one [&] between two, and no [?] or [#]
    after the one [?] that starts the query. *)
Theorem offramp_url_has_seven_parameters (origin sessionToken addr : string)
    (f : Form) :
  ∃ q,
    offrampUrl origin sessionToken addr f
    = "https://pay.coinbase.com/v3/sell/input?" +:+ q
    ∧ length (filter (λ ch, ch = "="%char) (list_ascii_of_string q)) = 7%nat
    ∧ length (filter (λ ch, ch = "&"%char) (list_ascii_of_string q)) = 6%nat
    ∧ length (filter (λ ch, ch = "?"%char) (list_ascii_of_string q)) = 0%nat
    ∧ length (filter (λ ch, ch = "#"%char) (list_ascii_of_string q)) = 0%nat.
Proof.
  eexists. split; [reflexivity|].
  split_and!;
    (rewrite EncodingExtras.URLSearchParams_separators by set_solver);
    reflexivity.
Qed.

End SessionExtras.

(** ** [fetchAssets] against the network *)

Module FetchAssetsExtras.
Import OfframpFeature OfframpForm CacheRuns.

Lemma applySellCurrencies_assets options f f1 :
  applySellCurrencies options f = Some f1 →
  match OfframpApi.sell_currencies options with
  | [] => f1 = f
  | l => availableAssets f1 = l
  end.
Proof.
  unfold applySellCurrencies.
  destruct (OfframpApi.sell_currencies options) as [|first rest] eqn:Hs;
    [by intros [= <-]|].
  cbn zeta. destruct (List.find _ (first :: rest)) as [u|].
  - destruct (assetNetworkMap !! "USDC") as [row|]; [|done].
    destruct (Js.includes row (Some "base")); by intros [= <-].
  - destruct (assetNetworkMap !! OfframpApi.asset_code first) as [[|n r]|];
      [| by intros [= <-] | destruct (Js.inherited _); [done|]];
      destruct (mergedNetworks (OfframpApi.asset_code first));
      by intros [= <-].
Qed.

Lemma applyCashoutCurrencies_currencies options f :
  match OfframpApi.cashout_currencies options with
  | [] => applyCashoutCurrencies options f = f
  | l => cashoutCurrencies (applyCashoutCurrencies options f) = l
  end.
Proof.
  unfold applyCashoutCurrencies.
  destruct (OfframpApi.cashout_currencies options) as [|first rest]; [done|].
  cbn zeta. by destruct (OfframpApi.currency_cashout_methods _).
Qed.

(** X26. When the options request is answered with a catalog none of whose
    asset symbols names a member of [Object.prototype]: the form shows
    the catalog's assets under their upstream symbols and the catalog's
    cashout currencies under their upstream identifiers, in the upstream
    order; an empty list of assets leaves the assets and the selection of
    the form as they were, an empty list of cashout currencies leaves the
    cashout side of the form as it was. *)
Theorem fetched_offer_is_shown
    (network : string → Js.FetchResult OfframpApi.ApiSellOptionsResponse)
    (f : Form) (apiData : OfframpApi.ApiSellOptionsResponse) :
  delivered
    (network (sellOptionsUrl (selectedCountry (selection f))
                (Some (selectedSubdivision (selection f)))))
  = Some apiData →
  Forall (λ a, Js.inherited (OfframpApi.api_symbol a) = false)
    (OfframpApi.api_sell_currencies apiData) →
  (OfframpApi.api_sell_currencies apiData ≠ [] →
   map OfframpApi.asset_code (availableAssets (fetchAssets network f))
   = map OfframpApi.api_symbol (OfframpApi.api_sell_currencies apiData))
  ∧ (OfframpApi.api_sell_currencies apiData = [] →
     availableAssets (fetchAssets network f) = availableAssets f
     ∧ selection (fetchAssets network f) = selection f)
  ∧ (OfframpApi.api_cashout_currencies apiData ≠ [] →
     map OfframpApi.currency_code (cashoutCurrencies (fetchAssets network f))
     = map OfframpApi.api_currency_id (OfframpApi.api_cashout_currencies apiData))
  ∧ (OfframpApi.api_cashout_currencies apiData = [] →
     cashoutCurrencies (fetchAssets network f) = cashoutCurrencies f
     ∧ selectedCashoutCurrency (fetchAssets network f) = selectedCashoutCurrency f
     ∧ cashoutMethods (fetchAssets network f) = cashoutMethods f
     ∧ selectedCashoutMethod (fetchAssets network f) = selectedCashoutMethod f)
  ∧ isLoading (fetchAssets network f) = false.
Proof.
  intros Hok Hord. unfold fetchAssets.
  rewrite CacheFacts.fetchSellOptions_cases, Hok.
  set (options := OfframpApi.transformSellOptionsResponse apiData).
  assert (Hord' : Forall (λ a, Js.inherited (OfframpApi.asset_code a) = false)
                    (OfframpApi.sell_currencies options)).
  { subst options.
    cbn [OfframpApi.transformSellOptionsResponse OfframpApi.sell_currencies].
    induction Hord; cbn [map]; constructor; done. }
  destruct (FormExtras.applySellCurrencies_shape options f Hord')
    as (g & assets & Hsome).
  pose proof (FormExtras.applyOptions_selection _ _ _ Hsome) as [Hsel Hav].
  pose proof (applySellCurrencies_assets _ _ _ Hsome) as Hassets.
  pose proof (FormExtras.applySellCurrencies_keeps_cashout _ _ _ Hsome)
    as (Hc1 & Hc2 & Hc3 & Hc4).
  pose proof (applyCashoutCurrencies_currencies options
                (withSelection g (setAvailableAssets assets f))) as Hcash.
  subst options.
  cbn [OfframpApi.transformSellOptionsResponse OfframpApi.sell_currencies
       OfframpApi.cashout_currencies] in Hassets, Hcash.
  split_and!.
  - intros Hne. rewrite Hav.
    destruct (OfframpApi.api_sell_currencies apiData) as [|x l]; [done|].
    cbn [map] in Hassets. rewrite Hassets. cbn [map].
    f_equal. rewrite map_map. reflexivity.
  - intros Hnil. rewrite Hnil in Hassets. cbn [map] in Hassets.
    rewrite Hav, Hsel, Hassets. done.
  - intros Hne. unfold applyOptions. rewrite Hsome.
    destruct (OfframpApi.api_cashout_currencies apiData) as [|x l]; [done|].
    cbn [map] in Hcash.
    change (cashoutCurrencies (setIsLoading false ?x)) with (cashoutCurrencies x).
    rewrite Hcash. cbn [map]. f_equal. rewrite map_map. reflexivity.
  - intros Hnil. rewrite Hnil in Hcash. cbn [map] in Hcash.
    unfold applyOptions. rewrite Hsome, Hcash. by split_and!.
  - reflexivity.
Qed.

(** A catalog of one asset, SOL, and one cashout currency, EUR. *)
Lemma fetched_offer_is_shown_witness :
  map OfframpApi.asset_code
    (availableAssets
       (fetchAssets
          (λ _, Js.Responded 200
                  (Some {| OfframpApi.api_cashout_currencies :=
                             [ {| OfframpApi.api_currency_id := "EUR";
                                  OfframpApi.api_limits := [] |} ];
                           OfframpApi.api_sell_currencies :=
                             [ {| OfframpApi.api_asset_id := "sol-1";
                                  OfframpApi.api_symbol := "SOL";
                                  OfframpApi.api_asset_name := "Solana";
                                  OfframpApi.api_networks := [];
                                  OfframpApi.api_icon_url := None |} ] |}))
          initialForm))
  = ["SOL"]
  ∧ map OfframpApi.currency_code
      (cashoutCurrencies
         (fetchAssets
            (λ _, Js.Responded 200
                    (Some {| OfframpApi.api_cashout_currencies :=
                               [ {| OfframpApi.api_currency_id := "EUR";
                                    OfframpApi.api_limits := [] |} ];
                             OfframpApi.api_sell_currencies :=
                               [ {| OfframpApi.api_asset_id := "sol-1";
                                    OfframpApi.api_symbol := "SOL";
                                    OfframpApi.api_asset_name := "Solana";
                                    OfframpApi.api_networks := [];
                                    OfframpApi.api_icon_url := None |} ] |}))
            initialForm))
    = ["EUR"].
Proof.
  destruct (fetched_offer_is_shown
              (λ _, Js.Responded 200
                      (Some {| OfframpApi.api_cashout_currencies :=
                                 [ {| OfframpApi.api_currency_id := "EUR";
                                      OfframpApi.api_limits := [] |} ];
                               OfframpApi.api_sell_currencies :=
                                 [ {| OfframpApi.api_asset_id := "sol-1";
                                      OfframpApi.api_symbol := "SOL";
                                      OfframpApi.api_asset_name := "Solana";
                                      OfframpApi.api_networks := [];
                                      OfframpApi.api_icon_url := None |} ] |}))
              initialForm
              {| OfframpApi.api_cashout_currencies :=
                   [ {| OfframpApi.api_currency_id := "EUR";
                        OfframpApi.api_limits := [] |} ];
                 OfframpApi.api_sell_currencies :=
                   [ {| OfframpApi.api_asset_id := "sol-1";
                        OfframpApi.api_symbol := "SOL";
                        OfframpApi.api_asset_name := "Solana";
                        OfframpApi.api_networks := [];
                        OfframpApi.api_icon_url := None |} ] |})
    as (H1 & _ & H3 & _).
  - reflexivity.
  - repeat constructor.
  - split; [apply H1 | apply H3]; discriminate.
Defined.

(** X27. When the options request fails in any way (the request is rejected,
    the answer is not OK, or its body does not read as a catalog), the
    form shows the static catalog of the fetcher: its assets and cashout
    currencies, USD with its four methods and ACH selected, and the
    networks of USDC; the asset, the network, the country and the
    subdivision selected stay as they were. *)
Theorem failed_options_fetch_shows_static_catalog
    (network : string → Js.FetchResult OfframpApi.ApiSellOptionsResponse)
    (f : Form) :
  delivered
    (network (sellOptionsUrl (selectedCountry (selection f))
                (Some (selectedSubdivision (selection f)))))
  = None →
  availableAssets (fetchAssets network f)
  = OfframpApi.sell_currencies OfframpApi.sellOptionsFallback
  ∧ cashoutCurrencies (fetchAssets network f)
    = OfframpApi.cashout_currencies OfframpApi.sellOptionsFallback
  ∧ selectedCashoutCurrency (fetchAssets network f) = "USD"
  ∧ selectedCashoutMethod (fetchAssets network f) = "ACH_BANK_ACCOUNT"
  ∧ map OfframpApi.option_id (cashoutMethods (fetchAssets network f))
    = ["ACH_BANK_ACCOUNT"; "PAYPAL"; "FIAT_WALLET"; "RTP"]
  ∧ selectedAsset (selection (fetchAssets network f))
    = selectedAsset (selection f)
  ∧ selectedNetwork (selection (fetchAssets network f))
    = selectedNetwork (selection f)
  ∧ selectedCountry (selection (fetchAssets network f))
    = selectedCountry (selection f)
  ∧ selectedSubdivision (selection (fetchAssets network f))
    = selectedSubdivision (selection f)
  ∧ availableNetworks (selection (fetchAssets network f))
    = availableNetworks (handleAssetChange "USDC" (selection f))
  ∧ isLoading (fetchAssets network f) = false.
Proof.
  intros Hfail. unfold fetchAssets.
  rewrite CacheFacts.fetchSellOptions_cases, Hfail.
  assert (Hnets : ∀ s, availableNetworks (handleAssetChange "USDC" s)
                       = mergedNetworks "USDC").
  { intros s. destruct FormExtras.usdc_row as (row & Hrow & _).
    rewrite (FormExtras.mergedNetworks_row _ _ Hrow).
    unfold handleAssetChange. rewrite Hrow. cbn zeta.
    by destruct (Js.includes row (selectedNetwork s)). }
  rewrite Hnets.
  destruct f as [[a n c sd av] am aa cc scc scm cm il].
  split_and!; vm_compute; reflexivity.
Qed.

Lemma failed_options_fetch_shows_static_catalog_witness :
  selectedCashoutMethod (fetchAssets (λ _, Js.Rejected) initialForm)
  = "ACH_BANK_ACCOUNT".
Proof.
  refine (proj1 (proj2 (proj2 (proj2
            (failed_options_fetch_shows_static_catalog
               (λ _, Js.Rejected) initialForm _))))).
  reflexivity.
Defined.

End FetchAssetsExtras.

(** ** The browser, the routes and the upstream together *)

Module EndToEndExtras.
Import Routes.

Section Gateway.
Context (generateJWT : string → string → string → string → option string).
Context (upstream : Request → option UpstreamResponse).
Context (JSON_parse : string → option json).

(** What a fetcher is delivered by a route. *)
Lemma delivered_served {A} (decode : json → option A) (r : Response) :
  CacheRuns.delivered (EndToEnd.served decode r)
  = if Js.status_ok (resp_status r) then decode (resp_body r) else None.
Proof.
  unfold EndToEnd.served, CacheRuns.delivered.
  destruct (decode (resp_body r)); [done|].
  by destruct (Js.status_ok (resp_status r)).
Qed.

(** A body delivered by a route is the parsed body of an OK upstream
    answer to the request the route dispatched. *)
Lemma delivered_inv {A} (decode : json → option A) env (ocall : OptionsCall)
    (r : Response * list Effect) (apiData : A) :
  r ∈ [ GET_buyConfig generateJWT upstream JSON_parse env;
        GET_sellConfig generateJWT upstream JSON_parse env;
        GET_sellOptions generateJWT upstream JSON_parse env ocall ] →
  CacheRuns.delivered (EndToEnd.served decode r.1) = Some apiData →
  ∃ rq u data,
    Dispatched rq ∈ r.2
    ∧ upstream rq = Some u
    ∧ Js.status_ok (status u) = true
    ∧ JSON_parse (responseText u) = Some data
    ∧ decode data = Some apiData.
Proof.
  intros Hr Hd. rewrite delivered_served in Hd.
  destruct (Js.status_ok (resp_status r.1)) eqn:Hok; [|discriminate Hd].
  assert (Hr' : r ∈ [ GET_buyConfig generateJWT upstream JSON_parse env;
                      GET_sellConfig generateJWT upstream JSON_parse env;
                      GET_sellOptions generateJWT upstream JSON_parse env ocall;
                      POST_sellQuote generateJWT upstream JSON_parse env
                        {| quote_body := None; x_forwarded_for := None;
                           x_real_ip := None; request_ip := None |} ]).
  { repeat (apply elem_of_cons in Hr as [-> | Hr]);
      [set_solver | set_solver | set_solver | by apply elem_of_nil in Hr]. }
  destruct (GatewayExtras.route_shape generateJWT upstream JSON_parse
              env ocall _ r Hr')
    as [[_ Hno] | (name & secret & p & m & mkrq & rejection & onThrow
                   & _ & _ & Hrun & Hthrow & Hmk)]; [congruence|].
  destruct (GatewayExtras.signed_call_inv generateJWT upstream JSON_parse
              _ _ _ _ _ _ _ _ Hrun) as [_ Hsucc].
  destruct (Hsucc Hthrow Hok) as (tok & u & data & _ & Hu & Hs & Hp & _ & ->).
  exists (mkrq tok), u, data. cbn [fst snd resp_body] in *.
  split_and!; try done. right. left.
Qed.

(** X28. The sell-side catalogs the browser shows, when it asks the routes of
    this gateway: each is the static catalog of its fetcher, or the
    transform of a catalog read from the parsed body of an OK upstream
    answer to the request the route dispatched.  Nothing else reaches the
    form: not an upstream error body, and not an answer of the route
    itself. *)
Theorem sell_catalog_is_upstream_or_static env
    (decodeConfig : json → option OfframpApi.SellConfigResponse)
    (decodeOptions : json → option OfframpApi.ApiSellOptionsResponse)
    (ocall : string → OptionsCall) (country : string)
    (subdivision : option string) :
  (OfframpApi.fetchSellConfig
     (λ _, EndToEnd.served decodeConfig
             (GET_sellConfig generateJWT upstream JSON_parse env).1)
   = OfframpApi.sellConfigFallback
   ∨ ∃ rq u data apiData,
       Dispatched rq ∈ (GET_sellConfig generateJWT upstream JSON_parse env).2
       ∧ upstream rq = Some u
       ∧ Js.status_ok (status u) = true
       ∧ JSON_parse (responseText u) = Some data
       ∧ decodeConfig data = Some apiData
       ∧ OfframpApi.fetchSellConfig
           (λ _, EndToEnd.served decodeConfig
                   (GET_sellConfig generateJWT upstream JSON_parse env).1)
         = OfframpApi.transformSellConfigResponse apiData)
  ∧ (OfframpApi.fetchSellOptions country subdivision
       (λ url, EndToEnd.served decodeOptions
                 (GET_sellOptions generateJWT upstream JSON_parse env
                    (ocall url)).1)
     = OfframpApi.sellOptionsFallback
     ∨ ∃ rq u data apiData,
         Dispatched rq
           ∈ (GET_sellOptions generateJWT upstream JSON_parse env
                (ocall (CacheRuns.sellOptionsUrl country subdivision))).2
         ∧ upstream rq = Some u
         ∧ Js.status_ok (status u) = true
         ∧ JSON_parse (responseText u) = Some data
         ∧ decodeOptions data = Some apiData
         ∧ OfframpApi.fetchSellOptions country subdivision
             (λ url, EndToEnd.served decodeOptions
                       (GET_sellOptions generateJWT upstream JSON_parse env
                          (ocall url)).1)
           = OfframpApi.transformSellOptionsResponse apiData).
Proof.
  split.
  - rewrite CacheFacts.fetchSellConfig_cases.
    destruct (CacheRuns.delivered _) as [apiData|] eqn:Hd; [|by left].
    right.
    destruct (delivered_inv decodeConfig env
                {| q_country := None; q_subdivision := None;
                   q_networks := None |}
                (GET_sellConfig generateJWT upstream JSON_parse env) apiData)
      as (rq & u & data & H1 & H2 & H3 & H4 & H5); [set_solver | exact Hd |].
    exists rq, u, data, apiData. by split_and!.
  - rewrite CacheFacts.fetchSellOptions_cases.
    destruct (CacheRuns.delivered _) as [apiData|] eqn:Hd; [|by left].
    right.
    destruct (delivered_inv decodeOptions env
                (ocall (CacheRuns.sellOptionsUrl country subdivision))
                (GET_sellOptions generateJWT upstream JSON_parse env
                   (ocall (CacheRuns.sellOptionsUrl country subdivision)))
                apiData)
      as (rq & u & data & H1 & H2 & H3 & H4 & H5); [set_solver | exact Hd |].
    exists rq, u, data, apiData. by split_and!.
Qed.

(** X29. The buy-config cache of the browser changes, through the buy-config
    route, only when the upstream answered the dispatched request with an
    OK status and a body that parsed and reads as a catalog; the entry
    written is the transform of that catalog, stamped with the time of the
    call. *)
Theorem buy_config_cache_filled_from_upstream_only env
    (decode : json → option OnrampApi.ApiBuyConfigResponse)
    (now : Z) (c : OnrampApi.Cache) :
  (OnrampApi.fetchBuyConfig now
     (λ _, EndToEnd.served decode
             (GET_buyConfig generateJWT upstream JSON_parse env).1) c).2 ≠ c →
  ∃ rq u data apiData,
    Dispatched rq ∈ (GET_buyConfig generateJWT upstream JSON_parse env).2
    ∧ upstream rq = Some u
    ∧ Js.status_ok (status u) = true
    ∧ JSON_parse (responseText u) = Some data
    ∧ decode data = Some apiData
    ∧ OnrampApi.fetchBuyConfig now
        (λ _, EndToEnd.served decode
                (GET_buyConfig generateJWT upstream JSON_parse env).1) c
      = (OnrampApi.transformBuyConfigResponse apiData,
         {| OnrampApi.buyConfigCache :=
              Some (OnrampApi.transformBuyConfigResponse apiData);
            OnrampApi.buyOptionsCache := OnrampApi.buyOptionsCache c;
            OnrampApi.lastConfigFetch := now;
            OnrampApi.lastOptionsFetch := OnrampApi.lastOptionsFetch c;
            OnrampApi.buyOptionsPrototype := OnrampApi.buyOptionsPrototype c |}).
Proof.
  rewrite CacheFacts.fetchBuyConfig_cases.
  destruct (CacheRuns.configFresh now c); [done|].
  destruct (CacheRuns.delivered _) as [apiData|] eqn:Hd; [|done].
  intros _.
  destruct (delivered_inv decode env
              {| q_country := None; q_subdivision := None;
                 q_networks := None |}
              (GET_buyConfig generateJWT upstream JSON_parse env) apiData)
    as (rq & u & data & H1 & H2 & H3 & H4 & H5); [set_solver | exact Hd |].
  exists rq, u, data, apiData. by split_and!.
Qed.

(** X30. The request [handleGenerateUrl] posts for a form whose asset, amount,
    cashout currency and country are not empty is never answered "Missing
    required fields" by the sell-quote route: with credentials configured
    the route goes on to request a token for the quote path. *)
Theorem generated_quote_passes_route_validation env (origin : string)
    (a : OfframpForm.Session) (f : OfframpForm.Form)
    (rq : SellQuoteRequest) (call : QuoteCall) :
  OfframpForm.handleGenerateUrl origin a f = inr rq →
  Js.truthy (OfframpFeature.selectedAsset (OfframpForm.selection f)) = true →
  Js.truthy (OfframpForm.amount f) = true →
  Js.truthy (OfframpForm.selectedCashoutCurrency f) = true →
  Js.truthy (OfframpFeature.selectedCountry (OfframpForm.selection f)) = true →
  Js.falsy (keyName env) = false → Js.falsy (keySecret env) = false →
  quote_body call = Some rq →
  (POST_sellQuote generateJWT upstream JSON_parse env call).1
  ≠ {| resp_status := 400;
       resp_body := JObj [("error", JStr "Missing required fields")] |}
  ∧ ∃ rest, (POST_sellQuote generateJWT upstream JSON_parse env call).2
            = JwtRequested "/onramp/v1/sell/quote" "POST" :: rest.
Proof.
  intros (addr & _ & _ & Haddr & Hm & ->)%SessionExtras.handleGenerateUrl_inv
         H1 H2 H3 H4 Hk Hs Hb.
  apply (GatewayFacts.POST_sellQuote_not_rejected generateJWT upstream
           JSON_parse env call _ Hk Hs Hb).
  by apply SessionExtras.quoteRequest_required.
Qed.

End Gateway.

Lemma buy_config_cache_filled_from_upstream_only_witness :
  ∃ rq u data apiData,
    Dispatched rq
      ∈ (GET_buyConfig Samples.signer Samples.upstreamCreated
           Samples.parseObject Samples.env).2
    ∧ Samples.upstreamCreated rq = Some u
    ∧ Js.status_ok (status u) = true
    ∧ Samples.parseObject (responseText u) = Some data
    ∧ (λ _, Some {| OnrampApi.api_countries := [] |}) data = Some apiData
    ∧ OnrampApi.fetchBuyConfig 5
        (λ _, EndToEnd.served (λ _, Some {| OnrampApi.api_countries := [] |})
                (GET_buyConfig Samples.signer Samples.upstreamCreated
                   Samples.parseObject Samples.env).1)
        OnrampApi.initialCache
      = (OnrampApi.transformBuyConfigResponse apiData,
         {| OnrampApi.buyConfigCache :=
              Some (OnrampApi.transformBuyConfigResponse apiData);
            OnrampApi.buyOptionsCache :=
              OnrampApi.buyOptionsCache OnrampApi.initialCache;
            OnrampApi.lastConfigFetch := 5;
            OnrampApi.lastOptionsFetch :=
              OnrampApi.lastOptionsFetch OnrampApi.initialCache;
            OnrampApi.buyOptionsPrototype :=
              OnrampApi.buyOptionsPrototype OnrampApi.initialCache |}).
Proof.
  refine (buy_config_cache_filled_from_upstream_only
            Samples.signer Samples.upstreamCreated Samples.parseObject
            Samples.env (λ _, Some {| OnrampApi.api_countries := [] |})
            5 OnrampApi.initialCache _).
  vm_compute. intros H. discriminate H.
Defined.

Lemma generated_quote_passes_route_validation_witness :
  ∃ rest,
    (POST_sellQuote Samples.signer Samples.upstreamCreated Samples.parseObject
       Samples.env
       {| quote_body :=
            Some (OfframpForm.quoteRequest "https://example.com"
                    "0x1234567890abcdef1234567890abcdef12345678"
                    (OfframpForm.setSelectedCashoutMethod "ACH_BANK_ACCOUNT"
                       OfframpForm.initialForm));
          x_forwarded_for := None; x_real_ip := None;
          request_ip := None |}).2
    = JwtRequested "/onramp/v1/sell/quote" "POST" :: rest.
Proof.
  refine (proj2 (generated_quote_passes_route_validation
                   Samples.signer Samples.upstreamCreated Samples.parseObject
                   Samples.env "https://example.com"
                   (EmbeddedWalletAuth.syncSession true
                      (Some "0x1234567890abcdef1234567890abcdef12345678"))
                   (OfframpForm.setSelectedCashoutMethod "ACH_BANK_ACCOUNT"
                      OfframpForm.initialForm)
                   (OfframpForm.quoteRequest "https://example.com"
                      "0x1234567890abcdef1234567890abcdef12345678"
                      (OfframpForm.setSelectedCashoutMethod "ACH_BANK_ACCOUNT"
                         OfframpForm.initialForm))
                   {| quote_body :=
                        Some (OfframpForm.quoteRequest "https://example.com"
                                "0x1234567890abcdef1234567890abcdef12345678"
                                (OfframpForm.setSelectedCashoutMethod
                                   "ACH_BANK_ACCOUNT" OfframpForm.initialForm));
                      x_forwarded_for := None; x_real_ip := None;
                      request_ip := None |}
                   _ _ _ _ _ _ _ _)); reflexivity.
Defined.

End EndToEndExtras.
